(** * Columnar row decoders of the explorer client

    A shallow embedding of the operation decoder (op.go) and of the block
    decoder (referred to as block.go): the cursor
    accessors, the object/columnar dispatch of [UnmarshalJSON], the
    column-driven row decoder [UnmarshalJSONBrief] and the list assemblers.

    Go values are modelled as follows.
    - [uint64], [int64] and [int] are integers in [Z]; the only arithmetic
      the decoders perform on them (the millisecond to nanosecond
      conversion of timestamps) has its 64-bit wrap-around written out.
    - [[]byte] and [string] are [string] (a list of bytes).
    - [float64] is a primitive binary64 float.
    - a pointer [*T] is [option T], [None] being the nil pointer; a slice
      is a list, the nil slice being the empty list; a Go map is a [gmap],
      the nil map being the empty map.
    - a method with a pointer receiver returns the receiver after the call
      together with what the call produced: a normal return with a nil
      error, a returned error, or a run-time panic. *)

From Stdlib Require Import ZArith String Ascii List Floats Lia.
From stdpp Require Import base option list gmap strings.

Set Warnings "-register-all".

Open Scope string_scope.
Open Scope Z_scope.

(** ** Errors, panics and outcomes *)

Inductive fmt_arg : Type :=
| ArgString (s : string)
| ArgInt (z : Z).

(** An [error] value is either produced by a library call or built by
    [fmt.Errorf] in the decoders, possibly around a cause. *)
Inductive error : Type :=
| LibError (msg : string)
| Errorf (format : string) (args : list fmt_arg) (cause : option error).

(** The run-time panics the code can raise itself. *)
Inductive panic : Type :=
| IndexOutOfRange
| TypeAssertion
| NilDereference.

Inductive outcome (A : Type) : Type :=
| Ok (a : A)
| Err (e : error)
| Panic (p : panic).

Arguments Ok {A} a.
Arguments Err {A} e.
Arguments Panic {A} p.

Definition bind {A B : Type} (m : outcome A) (k : A -> outcome B) : outcome B :=
  match m with
  | Ok a => k a
  | Err e => Err e
  | Panic p => Panic p
  end.

Notation "'let*' x ':=' m 'in' k" := (bind m (fun x => k))
  (at level 10, x name, m at level 100, k at level 200).

(** A library call of shape [(v, err)]. *)
Definition try {A : Type} (r : error + A) : outcome A :=
  match r with
  | inl e => Err e
  | inr a => Ok a
  end.

Definition is_Ok {A : Type} (m : outcome A) : bool :=
  match m with Ok _ => true | _ => false end.

Definition panic_of {A : Type} (m : outcome A) : option panic :=
  match m with Panic p => Some p | _ => None end.

(** ** Decoded JSON values

    What [json.Decoder.Decode] stores in an [interface{}] once [UseNumber]
    is set: nil, bool, [json.Number], string, [[]interface{}] or
    [map[string]interface{}]. *)

Inductive json : Type :=
| JNull
| JBool (b : bool)
| JNumber (n : string)
| JString (s : string)
| JArray (l : list json)
| JObject (l : list (string * json)).

(** [f == nil] *)
Definition is_nil (f : json) : bool :=
  match f with JNull => true | _ => false end.

(** [f.(json.Number).String()]: the single-value type assertion panics on
    any other dynamic type. *)
Definition as_Number (f : json) : outcome string :=
  match f with JNumber n => Ok n | _ => Panic TypeAssertion end.

(** [f.(string)] *)
Definition as_string (f : json) : outcome string :=
  match f with JString s => Ok s | _ => Panic TypeAssertion end.

(** ** Time

    [time.Time]: the zero value (January 1, year 1) lies outside the range
    of [time.Unix(0, nsec)] for a 64-bit [nsec], so the two are kept apart. *)

Inductive time_Time : Type :=
| ZeroTime
| UnixNano (nsec : Z).

Definition wrap64 (z : Z) : Z := (z + 2 ^ 63) mod 2 ^ 64 - 2 ^ 63.

(** [time.Unix(0, ts*1000000).UTC()] for [ts int64] *)
Definition time_of_millis (ts : Z) : time_Time := UnixNano (wrap64 (ts * 1000000)).

(** ** micheline.DiffAction *)

Inductive DiffAction : Type :=
| DiffActionUpdate
| DiffActionRemove
| DiffActionCopy
| DiffActionAlloc.

(** ** Collaborators

    The functions the decoders call outside op.go and block.go: the Go
    standard library, the tzgo packages [tezos] and [micheline], and the
    helpers of this package that live in other files.  They are taken as
    an interface; each opaque type comes with its Go zero value. *)

Class Collaborators : Type := {
  (* package tezos *)
  OpHash : Type;            OpHash_zero : OpHash;
  BlockHash : Type;         BlockHash_zero : BlockHash;
  ExprHash : Type;          ExprHash_zero : ExprHash;
  Address : Type;           Address_zero : Address;
  OpStatus : Type;          OpStatus_zero : OpStatus;
  VotingPeriodKind : Type;  VotingPeriodKind_zero : VotingPeriodKind;
  tezos_ParseOpHash : string -> error + OpHash;
  tezos_ParseBlockHash : string -> error + BlockHash;
  tezos_ParseAddress : string -> error + Address;
  tezos_ParseOpStatus : string -> OpStatus;
  tezos_ParseVotingPeriod : string -> VotingPeriodKind;
  ExprHash_String : ExprHash -> string;
  (* package micheline *)
  Prim : Type;              Prim_zero : Prim;
  MType : Type;             Type_zero : MType;
  Entrypoint : Type;
  Entrypoints : Type;       Entrypoints_nil : Entrypoints;
  Parameters : Type;
  Typedef : Type;
  Key : Type;
  BigmapEvent : Type;
  BigmapEvent_Action : BigmapEvent -> DiffAction;
  BigmapEvent_Id : BigmapEvent -> Z;
  BigmapEvent_SourceId : BigmapEvent -> Z;
  BigmapEvent_DestId : BigmapEvent -> Z;
  BigmapEvent_KeyHash : BigmapEvent -> ExprHash;
  BigmapEvent_Key : BigmapEvent -> Prim;
  BigmapEvent_Value : BigmapEvent -> Prim;
  BigmapEvent_KeyType : BigmapEvent -> Prim;
  BigmapEvent_ValueType : BigmapEvent -> Prim;
  BigmapEvent_GetKey : BigmapEvent -> MType -> Key;
  BigmapEvents_UnmarshalBinary : string -> error + list BigmapEvent;
  Prim_UnmarshalBinary : string -> error + Prim;
  Prim_BuildType : Prim -> MType;
  Prim_IsEmptyBigmap : Prim -> bool;
  (* the struct literal micheline.Type{Prim: p} *)
  Type_of_Prim : Prim -> MType;
  Type_IsValid : MType -> bool;
  Type_Left : MType -> MType;
  Type_Right : MType -> MType;
  Type_TypedefPtr : MType -> string -> option Typedef;
  Parameters_UnmarshalBinary : string -> error + Parameters;
  Parameters_Entrypoint : Parameters -> string;
  Parameters_MapEntrypoint : Parameters -> MType -> Entrypoint * Prim;
  Entrypoint_Type : Entrypoint -> MType;
  (* micheline.NewValue(typ, prim) with Render set, then Map(): the
     value it returns with a nil error is not the nil interface *)
  MapResult : Type;
  Value_Map : MType -> Prim -> Z -> error + MapResult;
  Key_MarshalJSON : Key -> string;
  (* Go standard library *)
  json_Decode : string -> error + list json;
  json_Unmarshal_RawMessages : string -> error + list string;
  json_Marshal : json -> error + string;
  strconv_ParseUint : string -> error + Z;
  strconv_ParseInt : string -> error + Z;
  strconv_Atoi : string -> error + Z;
  strconv_ParseBool : string -> error + bool;
  strconv_ParseFloat : string -> Z -> error + float;
  hex_DecodeString : string -> error + string;
  Context_ : Type;
  (* this package, other files *)
  OpType : Type;            OpType_zero : OpType;
  ParseOpType : string -> OpType;
  MultiKey : Type;          MultiKey_zero : MultiKey;
  MultiKey_UnmarshalJSON : string -> MultiKey;
  Metadata : Type;
  Right : Type;
  ContractScript : Type;
  ContractScript_Types :
    ContractScript -> MType * MType * Entrypoints * gmap Z MType;
  Client : Type;
  getTableColumn : string -> list string -> string -> string * bool;
  loadCachedContractScript :
    Client -> Context_ -> Address -> Client * (error + option ContractScript);
}.

(** Object-form decoding [json.Unmarshal(data, Alias(o))] of a record type:
    the receiver after the call and the error returned, if any. *)
Class ObjectForm (T : Type) : Type :=
  json_Unmarshal : string -> T -> T * option error.

(** [tezos.BlockHash.Equal] and [tezos.BlockHash.Clone], which the block
    identifiers use; both have a value receiver. *)
Class HashOps {C : Collaborators} : Type := {
  BlockHash_Equal : BlockHash -> BlockHash -> bool;
  BlockHash_Clone : BlockHash -> BlockHash
}.

(** ** Block identifiers (block.go) *)

Module BlockId.
Section BlockId.
Context {C : Collaborators}.

Record t : Type := mk {
  Height : Z;
  Hash : BlockHash;
  Time_ : time_Time  (* Time *)
}.

End BlockId.
End BlockId.

(** ** Contract values and big-map updates *)

(** Modelled from the spec: the declaration of [ContractValue]
    (contract.go) is missing from the sources; the fields are the two
    op.go assigns, the semantic mapping and the retained primitive tree. *)
Module ContractValue.
Section ContractValue.
Context {C : Collaborators}.

Record t : Type := mk {
  Value : option MapResult;  (* interface{} *)
  Prim_ : option Prim        (* *micheline.Prim *)
}.

Definition zero : t := {| Value := None; Prim_ := None |}.

End ContractValue.
End ContractValue.

(** Modelled from the spec: the declaration of [ContractParameters]
    (contract.go) is missing from the sources; op.go uses its embedded
    [ContractValue] and its [Entrypoint]. *)
Module ContractParameters.
Section ContractParameters.
Context {C : Collaborators}.

Record t : Type := mk {
  ContractValue_ : ContractValue.t;
  Entrypoint_ : string
}.

Definition zero : t :=
  {| ContractValue_ := ContractValue.zero; Entrypoint_ := EmptyString |}.

End ContractParameters.
End ContractParameters.

(** Modelled from the spec: the declaration of [BigmapMeta] (bigmap.go) is
    missing from the sources; these are the four fields op.go fills, the
    provenance of section 4.3 (owning contract, big-map id, row timestamp,
    row height). *)
Module BigmapMeta.
Section BigmapMeta.
Context {C : Collaborators}.

Record t : Type := mk {
  Contract : Address;
  BigmapId : Z;
  UpdateTime : time_Time;
  UpdateHeight : Z
}.

End BigmapMeta.
End BigmapMeta.

(** Modelled from the spec: the declaration of [BigmapValue] (bigmap.go) is
    missing from the sources; the fields are those op.go assigns: key, key
    hash, provenance, decoded value and the two retained primitive trees. *)
Module BigmapValue.
Section BigmapValue.
Context {C : Collaborators}.

Record t : Type := mk {
  Key_ : MultiKey;
  Hash : ExprHash;
  Meta : option BigmapMeta.t;
  Value : option MapResult;  (* interface{} *)
  KeyPrim : option Prim;
  ValuePrim : option Prim
}.

Definition zero : t := {|
  Key_ := MultiKey_zero;
  Hash := ExprHash_zero;
  Meta := None;
  Value := None;
  KeyPrim := None;
  ValuePrim := None
|}.

End BigmapValue.
End BigmapValue.

(** Modelled from the spec: the declaration of [BigmapUpdate] (bigmap.go)
    is missing from the sources; the fields are those op.go assigns: the
    action, the big-map id, the alloc/copy annotations and the embedded
    [BigmapValue] of an update or remove. *)
Module BigmapUpdate.
Section BigmapUpdate.
Context {C : Collaborators}.

Record t : Type := mk {
  BigmapValue_ : BigmapValue.t;
  Action : DiffAction;
  BigmapId : Z;
  KeyType : option Typedef;
  ValueType : option Typedef;
  KeyTypePrim : option Prim;
  ValueTypePrim : option Prim;
  SourceId : Z;
  DestId : Z
}.

End BigmapUpdate.
End BigmapUpdate.

(** ** The column loop

    Both row decoders run the same loop
    [for i, v := range columns { f := unpacked[i]; if f == nil { continue };
    switch v { ... }; if err != nil { return err } }]
    over a scratch record; [step] is the body of the [switch]. *)

Section Columns.
Context {R : Type} (step : R -> string -> json -> outcome R).

Fixpoint range_columns (cols : list string) (i : nat) (unpacked : list json)
    (scratch : R) : outcome R :=
  match cols with
  | [] => Ok scratch
  | v :: rest =>
      match unpacked !! i with
      | None => Panic IndexOutOfRange
      | Some f =>
          if is_nil f then range_columns rest (S i) unpacked scratch
          else
            let* scratch' := step scratch v f in
            range_columns rest (S i) unpacked scratch'
      end
  end.

End Columns.

(** The end of a row decode: [*o = scratch; return nil] when the loop ran
    through, and the receiver [o] untouched when it was left early. *)
Definition commit {R : Type} (o : R) (r : outcome R) : R * outcome unit :=
  match r with
  | Ok scratch => (scratch, Ok tt)
  | Err err => (o, Err err)
  | Panic p => (o, Panic p)
  end.

(** [data[0] == c] for a non-empty [data] *)
Definition starts_with (c : ascii) (data : string) : bool :=
  match data with
  | String c0 _ => Ascii.eqb c0 c
  | EmptyString => false
  end.

(** [strconv.ParseX(f.(json.Number).String(), ...)] *)
Definition parse_Number {A : Type} (parse : string -> error + A) (f : json) : outcome A :=
  let* n := as_Number f in try (parse n).

(** [ParseX(f.(string))] *)
Definition parse_string {A : Type} (parse : string -> error + A) (f : json) : outcome A :=
  let* s := as_string f in try (parse s).

(** A non-nil value [f] of column [v] is of the wrong kind when [v] is
    asserted to be a number and [f] is none, or asserted to be a string and
    [f] is none. *)
Definition wrong_kind (numbers strings : list string) (v : string) (f : json) : bool :=
  negb (is_nil f)
  && ((existsb (String.eqb v) numbers
       && match f with JNumber _ => false | _ => true end)
      || (existsb (String.eqb v) strings
          && match f with JString _ => false | _ => true end)).

(** ** Operations (op.go) *)

Module Op.
Section Op.
Context {C : Collaborators}.

Inductive t : Type := mkOp {
  Id : Z;
  Hash : OpHash;
  Type_ : OpType;  (* Type *)
  Block : BlockHash;
  Timestamp : time_Time;
  Height : Z;
  Cycle : Z;
  Counter : Z;
  OpN : Z;
  OpP : Z;
  Status : OpStatus;
  IsSuccess : bool;
  IsContract : bool;
  IsBatch : bool;
  IsEvent : bool;
  IsInternal : bool;
  GasLimit : Z;
  GasUsed : Z;
  StorageLimit : Z;
  StoragePaid : Z;
  Volume : float;
  Fee : float;
  Reward : float;
  Deposit : float;
  Burned : float;
  TDD : float;
  SenderId : Z;
  ReceiverId : Z;
  CreatorId : Z;
  BakerId : Z;
  Sender : Address;
  Receiver : Address;
  Creator : Address;
  Baker : Address;
  PrevBaker : Address;
  Source : Address;
  Offender : Address;
  Accuser : Address;
  Data : string;  (* json.RawMessage *)
  Errors : string;  (* json.RawMessage *)
  Parameters_ : option ContractParameters.t;  (* Parameters *)
  Storage : option ContractValue.t;
  BigmapDiff : list BigmapUpdate.t;
  Value : Prim;
  Power : Z;
  Limit : option float;
  Confirmations : Z;
  BatchVolume : float;
  Entrypoint_ : string;  (* Entrypoint *)
  NOps : Z;
  Batch : list (option t);
  Internal : list (option t);
  Metadata_ : gmap string Metadata;  (* Metadata *)
  columns : list string;
  param : MType;
  store : MType;
  eps : Entrypoints;
  bigmaps : gmap Z MType;
  withPrim : bool;
  withMeta : bool;
  onError : Z
}.

(** The zero value [Op{}]. *)
Definition zero : t := {|
  Id := 0;
  Hash := OpHash_zero;
  Type_ := OpType_zero;
  Block := BlockHash_zero;
  Timestamp := ZeroTime;
  Height := 0;
  Cycle := 0;
  Counter := 0;
  OpN := 0;
  OpP := 0;
  Status := OpStatus_zero;
  IsSuccess := false;
  IsContract := false;
  IsBatch := false;
  IsEvent := false;
  IsInternal := false;
  GasLimit := 0;
  GasUsed := 0;
  StorageLimit := 0;
  StoragePaid := 0;
  Volume := 0%float;
  Fee := 0%float;
  Reward := 0%float;
  Deposit := 0%float;
  Burned := 0%float;
  TDD := 0%float;
  SenderId := 0;
  ReceiverId := 0;
  CreatorId := 0;
  BakerId := 0;
  Sender := Address_zero;
  Receiver := Address_zero;
  Creator := Address_zero;
  Baker := Address_zero;
  PrevBaker := Address_zero;
  Source := Address_zero;
  Offender := Address_zero;
  Accuser := Address_zero;
  Data := EmptyString;
  Errors := EmptyString;
  Parameters_ := None;
  Storage := None;
  BigmapDiff := [];
  Value := Prim_zero;
  Power := 0;
  Limit := None;
  Confirmations := 0;
  BatchVolume := 0%float;
  Entrypoint_ := EmptyString;
  NOps := 0;
  Batch := [];
  Internal := [];
  Metadata_ := ∅;
  columns := [];
  param := Type_zero;
  store := Type_zero;
  eps := Entrypoints_nil;
  bigmaps := ∅;
  withPrim := false;
  withMeta := false;
  onError := 0
|}.

(** A record rebuilt from its own fields; [assign F x r] replaces field [F]
    in that expansion by [x], which is the assignment [r.F = x]. *)
Definition fields (r : t) : t :=
  mkOp (Id r) (Hash r) (Type_ r) (Block r) (Timestamp r) (Height r) (Cycle r)
    (Counter r) (OpN r) (OpP r) (Status r) (IsSuccess r) (IsContract r)
    (IsBatch r) (IsEvent r) (IsInternal r) (GasLimit r) (GasUsed r)
    (StorageLimit r) (StoragePaid r) (Volume r) (Fee r) (Reward r) (Deposit r)
    (Burned r) (TDD r) (SenderId r) (ReceiverId r) (CreatorId r) (BakerId r)
    (Sender r) (Receiver r) (Creator r) (Baker r) (PrevBaker r) (Source r)
    (Offender r) (Accuser r) (Data r) (Errors r) (Parameters_ r) (Storage r)
    (BigmapDiff r) (Value r) (Power r) (Limit r) (Confirmations r)
    (BatchVolume r) (Entrypoint_ r) (NOps r) (Batch r) (Internal r)
    (Metadata_ r) (columns r) (param r) (store r) (eps r) (bigmaps r)
    (withPrim r) (withMeta r) (onError r).

Ltac assign F x r :=
  let e := eval cbv beta delta [fields] in (fields r) in
  match eval pattern (F r) in e with
  | ?g _ => let e' := eval cbv beta in (g x) in exact e'
  end.

Definition set_Id (x : Z) (r : t) : t := ltac:(assign Id x r).
Definition set_Hash (x : OpHash) (r : t) : t := ltac:(assign Hash x r).
Definition set_Type_ (x : OpType) (r : t) : t := ltac:(assign Type_ x r).
Definition set_Block (x : BlockHash) (r : t) : t := ltac:(assign Block x r).
Definition set_Timestamp (x : time_Time) (r : t) : t := ltac:(assign Timestamp x r).
Definition set_Height (x : Z) (r : t) : t := ltac:(assign Height x r).
Definition set_Cycle (x : Z) (r : t) : t := ltac:(assign Cycle x r).
Definition set_Counter (x : Z) (r : t) : t := ltac:(assign Counter x r).
Definition set_OpN (x : Z) (r : t) : t := ltac:(assign OpN x r).
Definition set_OpP (x : Z) (r : t) : t := ltac:(assign OpP x r).
Definition set_Status (x : OpStatus) (r : t) : t := ltac:(assign Status x r).
Definition set_IsSuccess (x : bool) (r : t) : t := ltac:(assign IsSuccess x r).
Definition set_IsContract (x : bool) (r : t) : t := ltac:(assign IsContract x r).
Definition set_IsBatch (x : bool) (r : t) : t := ltac:(assign IsBatch x r).
Definition set_IsEvent (x : bool) (r : t) : t := ltac:(assign IsEvent x r).
Definition set_IsInternal (x : bool) (r : t) : t := ltac:(assign IsInternal x r).
Definition set_GasLimit (x : Z) (r : t) : t := ltac:(assign GasLimit x r).
Definition set_GasUsed (x : Z) (r : t) : t := ltac:(assign GasUsed x r).
Definition set_StorageLimit (x : Z) (r : t) : t := ltac:(assign StorageLimit x r).
Definition set_StoragePaid (x : Z) (r : t) : t := ltac:(assign StoragePaid x r).
Definition set_Volume (x : float) (r : t) : t := ltac:(assign Volume x r).
Definition set_Fee (x : float) (r : t) : t := ltac:(assign Fee x r).
Definition set_Reward (x : float) (r : t) : t := ltac:(assign Reward x r).
Definition set_Deposit (x : float) (r : t) : t := ltac:(assign Deposit x r).
Definition set_Burned (x : float) (r : t) : t := ltac:(assign Burned x r).
Definition set_TDD (x : float) (r : t) : t := ltac:(assign TDD x r).
Definition set_SenderId (x : Z) (r : t) : t := ltac:(assign SenderId x r).
Definition set_ReceiverId (x : Z) (r : t) : t := ltac:(assign ReceiverId x r).
Definition set_CreatorId (x : Z) (r : t) : t := ltac:(assign CreatorId x r).
Definition set_BakerId (x : Z) (r : t) : t := ltac:(assign BakerId x r).
Definition set_Sender (x : Address) (r : t) : t := ltac:(assign Sender x r).
Definition set_Receiver (x : Address) (r : t) : t := ltac:(assign Receiver x r).
Definition set_Creator (x : Address) (r : t) : t := ltac:(assign Creator x r).
Definition set_Baker (x : Address) (r : t) : t := ltac:(assign Baker x r).
Definition set_Data (x : string) (r : t) : t := ltac:(assign Data x r).
Definition set_Errors (x : string) (r : t) : t := ltac:(assign Errors x r).
Definition set_Parameters_ (x : option ContractParameters.t) (r : t) : t := ltac:(assign Parameters_ x r).
Definition set_Storage (x : option ContractValue.t) (r : t) : t := ltac:(assign Storage x r).
Definition set_BigmapDiff (x : list BigmapUpdate.t) (r : t) : t := ltac:(assign BigmapDiff x r).
Definition set_Entrypoint_ (x : string) (r : t) : t := ltac:(assign Entrypoint_ x r).
Definition set_Batch (x : list (option t)) (r : t) : t := ltac:(assign Batch x r).
Definition set_Internal (x : list (option t)) (r : t) : t := ltac:(assign Internal x r).
Definition set_columns (x : list string) (r : t) : t := ltac:(assign columns x r).
Definition set_param (x : MType) (r : t) : t := ltac:(assign param x r).
Definition set_store (x : MType) (r : t) : t := ltac:(assign store x r).
Definition set_eps (x : Entrypoints) (r : t) : t := ltac:(assign eps x r).
Definition set_bigmaps (x : gmap Z MType) (r : t) : t := ltac:(assign bigmaps x r).
Definition set_withPrim (x : bool) (r : t) : t := ltac:(assign withPrim x r).
Definition set_withMeta (x : bool) (r : t) : t := ltac:(assign withMeta x r).
Definition set_onError (x : Z) (r : t) : t := ltac:(assign onError x r).

(** [op = children[l-1]] when [l := len(children)] is positive; the element
    may be a nil pointer. *)
Definition last_child (children : list (option t)) (op : option t) : option t :=
  match last children with
  | Some child => child
  | None => op
  end.

(** [op.F] through a pointer *)
Definition deref {A : Type} (op : option t) (F : t -> A) : outcome A :=
  match op with
  | Some op => Ok (F op)
  | None => Panic NilDereference
  end.

(** [func (o *Op) Cursor() uint64] *)
Definition Cursor (o : t) : outcome Z :=
  let op := Some o in
  let* batch := deref op Batch in
  let op := last_child batch op in
  let* internal := deref op Internal in
  let op := last_child internal op in
  deref op Id.

Definition WithColumns (o : t) (cols : list string) : t := set_columns cols o.

Definition WithTypes (o : t) (p s : MType) (e : Entrypoints) (b : gmap Z MType) : t :=
  set_bigmaps b (set_eps e (set_store s (set_param p o))).

Definition WithScript (o : t) (s : option ContractScript) : t :=
  match s with
  | Some s =>
      let '(p, st, e, b) := ContractScript_Types s in
      WithTypes o p st e b
  | None => WithTypes o Type_zero Type_zero Entrypoints_nil ∅
  end.

Definition WithPrim (o : t) (b : bool) : t := set_withPrim b o.
Definition WithMeta (o : t) (b : bool) : t := set_withMeta b o.
Definition OnError (o : t) (action : Z) : t := set_onError action o.

(** One big-map event of the [big_map_diff] column; [o] is the receiver
    and [op] the scratch record.  A pointer into the event ([&v.Key],
    [&v.Value], [&v.KeyType], [&v.ValueType]) is recorded as the value it
    points to when it is taken. *)
Definition decode_bigmap_event (o op : t) (v : BigmapEvent) : outcome BigmapUpdate.t :=
  let '(ktyp, vtyp) :=
    match bigmaps o !! BigmapEvent_Id v with
    | Some typ => (Type_Left typ, Type_Right typ)
    | None => (Prim_BuildType (BigmapEvent_Key v), Type_zero)
    end in
  match BigmapEvent_Action v with
  | DiffActionAlloc | DiffActionCopy =>
      (* alloc/copy only *)
      Ok {| BigmapUpdate.BigmapValue_ := BigmapValue.zero;
            BigmapUpdate.Action := BigmapEvent_Action v;
            BigmapUpdate.BigmapId := BigmapEvent_Id v;
            BigmapUpdate.KeyType :=
              Type_TypedefPtr (Type_of_Prim (BigmapEvent_KeyType v)) "@key";
            BigmapUpdate.ValueType :=
              Type_TypedefPtr (Type_of_Prim (BigmapEvent_ValueType v)) "@value";
            BigmapUpdate.KeyTypePrim :=
              if withPrim op then Some (BigmapEvent_KeyType v) else None;
            BigmapUpdate.ValueTypePrim :=
              if withPrim op then Some (BigmapEvent_ValueType v) else None;
            BigmapUpdate.SourceId := BigmapEvent_SourceId v;
            BigmapUpdate.DestId := BigmapEvent_DestId v |}
  | _ =>
      (* update/remove only *)
      let has_key := negb (Prim_IsEmptyBigmap (BigmapEvent_Key v)) in
      let mk :=
        MultiKey_UnmarshalJSON (Key_MarshalJSON (BigmapEvent_GetKey v ktyp)) in
      let is_update :=
        match BigmapEvent_Action v with DiffActionUpdate => true | _ => false end in
      let* value :=
        if is_update && Type_IsValid vtyp then
          match Value_Map vtyp (BigmapEvent_Value v) (onError o) with
          | inr val => Ok (Some val)
          | inl err =>
              Err (Errorf "decoding bigmap %d/%s: %w"
                     [ArgInt (BigmapEvent_Id v);
                      ArgString (ExprHash_String (BigmapEvent_KeyHash v))]
                     (Some err))
          end
        else Ok None in
      Ok {| BigmapUpdate.BigmapValue_ :=
              {| BigmapValue.Key_ := if has_key then mk else MultiKey_zero;
                 BigmapValue.Hash :=
                   if has_key then BigmapEvent_KeyHash v else ExprHash_zero;
                 BigmapValue.Meta :=
                   if withMeta o then
                     Some {| BigmapMeta.Contract := Receiver op;
                             BigmapMeta.BigmapId := BigmapEvent_Id v;
                             BigmapMeta.UpdateTime := Timestamp op;
                             BigmapMeta.UpdateHeight := Height op |}
                   else None;
                 BigmapValue.Value := value;
                 BigmapValue.KeyPrim :=
                   if withPrim o then Some (BigmapEvent_Key v) else None;
                 BigmapValue.ValuePrim :=
                   if is_update && withPrim o
                   then Some (BigmapEvent_Value v) else None |};
            BigmapUpdate.Action := BigmapEvent_Action v;
            BigmapUpdate.BigmapId := BigmapEvent_Id v;
            BigmapUpdate.KeyType := None;
            BigmapUpdate.ValueType := None;
            BigmapUpdate.KeyTypePrim := None;
            BigmapUpdate.ValueTypePrim := None;
            BigmapUpdate.SourceId := 0;
            BigmapUpdate.DestId := 0 |}
  end.

(** [for i, v := range bmd { ...; if err != nil { break } }] *)
Fixpoint decode_bigmap_events (o op : t) (bmd : list BigmapEvent)
    : outcome (list BigmapUpdate.t) :=
  match bmd with
  | [] => Ok []
  | v :: rest =>
      let* u := decode_bigmap_event o op v in
      let* us := decode_bigmap_events o op rest in
      Ok (u :: us)
  end.

Definition is_empty (buf : string) : bool := (String.length buf =? 0)%nat.

(** The body of the [switch v] of [UnmarshalJSONBrief]: [o] is the
    receiver, [op] the scratch record, [f] the non-nil value of column
    [v]. *)
Definition decode_column (o op : t) (v : string) (f : json) : outcome t :=
  if String.eqb v "id" then
    let* x := parse_Number strconv_ParseUint f in Ok (set_Id x op)
  else if String.eqb v "hash" then
    let* x := parse_string tezos_ParseOpHash f in Ok (set_Hash x op)
  else if String.eqb v "type" then
    let* s := as_string f in Ok (set_Type_ (ParseOpType s) op)
  else if String.eqb v "block" then
    let* x := parse_string tezos_ParseBlockHash f in Ok (set_Block x op)
  else if String.eqb v "time" then
    let* ts := parse_Number strconv_ParseInt f in
    Ok (set_Timestamp (time_of_millis ts) op)
  else if String.eqb v "height" then
    let* x := parse_Number strconv_ParseInt f in Ok (set_Height x op)
  else if String.eqb v "cycle" then
    let* x := parse_Number strconv_ParseInt f in Ok (set_Cycle x op)
  else if String.eqb v "counter" then
    let* x := parse_Number strconv_ParseInt f in Ok (set_Counter x op)
  else if String.eqb v "op_n" then
    let* x := parse_Number strconv_Atoi f in Ok (set_OpN x op)
  else if String.eqb v "op_p" then
    let* x := parse_Number strconv_Atoi f in Ok (set_OpP x op)
  else if String.eqb v "status" then
    let* s := as_string f in Ok (set_Status (tezos_ParseOpStatus s) op)
  else if String.eqb v "is_success" then
    let* x := parse_Number strconv_ParseBool f in Ok (set_IsSuccess x op)
  else if String.eqb v "is_contract" then
    let* x := parse_Number strconv_ParseBool f in Ok (set_IsContract x op)
  else if String.eqb v "is_batch" then
    let* x := parse_Number strconv_ParseBool f in Ok (set_IsBatch x op)
  else if String.eqb v "is_event" then
    let* x := parse_Number strconv_ParseBool f in Ok (set_IsEvent x op)
  else if String.eqb v "is_internal" then
    let* x := parse_Number strconv_ParseBool f in Ok (set_IsInternal x op)
  else if String.eqb v "gas_limit" then
    let* x := parse_Number strconv_ParseInt f in Ok (set_GasLimit x op)
  else if String.eqb v "gas_used" then
    let* x := parse_Number strconv_ParseInt f in Ok (set_GasUsed x op)
  else if String.eqb v "storage_limit" then
    let* x := parse_Number strconv_ParseInt f in Ok (set_StorageLimit x op)
  else if String.eqb v "storage_paid" then
    let* x := parse_Number strconv_ParseInt f in Ok (set_StoragePaid x op)
  else if String.eqb v "volume" then
    let* x := parse_Number (fun n => strconv_ParseFloat n 64) f in Ok (set_Volume x op)
  else if String.eqb v "fee" then
    let* x := parse_Number (fun n => strconv_ParseFloat n 64) f in Ok (set_Fee x op)
  else if String.eqb v "reward" then
    let* x := parse_Number (fun n => strconv_ParseFloat n 64) f in Ok (set_Reward x op)
  else if String.eqb v "deposit" then
    let* x := parse_Number (fun n => strconv_ParseFloat n 64) f in Ok (set_Deposit x op)
  else if String.eqb v "burned" then
    let* x := parse_Number (fun n => strconv_ParseFloat n 64) f in Ok (set_Burned x op)
  else if String.eqb v "days_destroyed" then
    let* x := parse_Number (fun n => strconv_ParseFloat n 64) f in Ok (set_TDD x op)
  else if String.eqb v "sender_id" then
    let* x := parse_Number strconv_ParseUint f in Ok (set_SenderId x op)
  else if String.eqb v "receiver_id" then
    let* x := parse_Number strconv_ParseUint f in Ok (set_ReceiverId x op)
  else if String.eqb v "creator_id" then
    let* x := parse_Number strconv_ParseUint f in Ok (set_CreatorId x op)
  else if String.eqb v "baker_id" then
    let* x := parse_Number strconv_ParseUint f in Ok (set_BakerId x op)
  else if String.eqb v "sender" then
    let* x := parse_string tezos_ParseAddress f in Ok (set_Sender x op)
  else if String.eqb v "receiver" then
    let* x := parse_string tezos_ParseAddress f in Ok (set_Receiver x op)
  else if String.eqb v "creator" then
    let* x := parse_string tezos_ParseAddress f in Ok (set_Creator x op)
  else if String.eqb v "baker" then
    let* x := parse_string tezos_ParseAddress f in Ok (set_Baker x op)
  else if String.eqb v "data" then
    let* x := try (json_Marshal f) in Ok (set_Data x op)
  else if String.eqb v "errors" then
    let* x := try (json_Marshal f) in Ok (set_Errors x op)
  else if String.eqb v "entrypoint" then
    let p := default ContractParameters.zero (Parameters_ op) in
    let* s := as_string f in
    Ok (set_Entrypoint_ s
          (set_Parameters_
             (Some {| ContractParameters.ContractValue_ :=
                        ContractParameters.ContractValue_ p;
                      ContractParameters.Entrypoint_ := s |}) op))
  else if String.eqb v "parameters" then
    let* s := as_string f in
    let* buf := try (hex_DecodeString s) in
    if is_empty buf then Ok op
    else
      let* params := try (Parameters_UnmarshalBinary buf) in
      let '(ep, prim) := Parameters_MapEntrypoint params (param o) in
      match Value_Map (Entrypoint_Type ep) prim (onError o) with
      | inr val =>
          Ok (set_Parameters_
                (Some {| ContractParameters.ContractValue_ :=
                           {| ContractValue.Value := Some val;
                              ContractValue.Prim_ :=
                                if withPrim o then Some prim else None |};
                         ContractParameters.Entrypoint_ :=
                           Parameters_Entrypoint params |}) op)
      | inl err => Err (Errorf "decoding params %s: %w" [ArgString s] (Some err))
      end
  else if String.eqb v "storage" then
    let* s := as_string f in
    let* buf := try (hex_DecodeString s) in
    if is_empty buf then Ok op
    else
      let* prim := try (Prim_UnmarshalBinary buf) in
      let p := if withPrim o then Some prim else None in
      if Type_IsValid (store o) then
        match Value_Map (store o) prim (onError o) with
        | inr val =>
            Ok (set_Storage
                  (Some {| ContractValue.Value := Some val;
                           ContractValue.Prim_ := p |}) op)
        | inl err => Err (Errorf "decoding storage %s: %w" [ArgString s] (Some err))
        end
      else
        Ok (set_Storage
              (Some {| ContractValue.Value := None; ContractValue.Prim_ := p |}) op)
  else if String.eqb v "big_map_diff" then
    let* s := as_string f in
    let* buf := try (hex_DecodeString s) in
    if is_empty buf then Ok op
    else
      let* bmd := try (BigmapEvents_UnmarshalBinary buf) in
      let* diff := decode_bigmap_events o op bmd in
      Ok (set_BigmapDiff diff op)
  else Ok op.

(** The columns whose value the switch asserts to be a [json.Number]. *)
Definition number_columns : list string :=
  ["id"; "time"; "height"; "cycle"; "counter"; "op_n"; "op_p";
   "is_success"; "is_contract"; "is_batch"; "is_event"; "is_internal";
   "gas_limit"; "gas_used"; "storage_limit"; "storage_paid"; "volume";
   "fee"; "reward"; "deposit"; "burned"; "days_destroyed"; "sender_id";
   "receiver_id"; "creator_id"; "baker_id"].

(** The columns whose value the switch asserts to be a [string]. *)
Definition string_columns : list string :=
  ["hash"; "type"; "block"; "status"; "sender"; "receiver"; "creator";
   "baker"; "entrypoint"; "parameters"; "storage"; "big_map_diff"].

(** The column names that have a case in the switch. *)
Definition known_columns : list string :=
  (number_columns ++ string_columns ++ ["data"; "errors"])%list.

(** [func (o *Op) UnmarshalJSONBrief(data []byte) error] *)
Definition UnmarshalJSONBrief (o : t) (data : string) : t * outcome unit :=
  match json_Decode data with
  | inl err => (o, Err err)
  | inr unpacked =>
      commit o (range_columns (decode_column o) (columns o) 0 unpacked zero)
  end.

Context {OF : ObjectForm t}.

(** [func (o *Op) UnmarshalJSON(data []byte) error] *)
Definition UnmarshalJSON (o : t) (data : string) : t * outcome unit :=
  if (String.length data =? 0)%nat || String.eqb data "null" then (o, Ok tt)
  else if (String.length data =? 2)%nat then (o, Ok tt)
  else if starts_with "[" data then UnmarshalJSONBrief o data
  else
    match json_Unmarshal data o with
    | (o', None) => (o', Ok tt)
    | (o', Some err) => (o', Err err)
    end.

Context {H : HashOps}.

(** [func (o *Op) BlockId() BlockId] *)
Definition BlockId (o : t) : BlockId.t :=
  {| BlockId.Height := Height o;
     BlockId.Hash := BlockHash_Clone (Block o);
     BlockId.Time_ := Timestamp o |}.

(** The loop of [Content] over the batch: every item is appended, followed
    by its internal operations; reading [v.Internal] of a nil item panics. *)
Fixpoint content_batch (batch content : list (option t))
    : outcome (list (option t)) :=
  match batch with
  | [] => Ok content
  | v :: rest =>
      let content := (content ++ [v])%list in
      let* internal := deref v Internal in
      let content :=
        if (0 <? length internal)%nat then (content ++ internal)%list
        else content in
      content_batch rest content
  end.

(** [func (o *Op) Content() []*Op] *)
Definition Content (o : t) : outcome (list (option t)) :=
  let content := [Some o] in
  if (length (Batch o) =? 0)%nat && (length (Internal o) =? 0)%nat
  then Ok content
  else
    let* content :=
      if IsBatch o then content_batch (Batch o) [] else Ok content in
    Ok (if (0 <? length (Internal o))%nat
        then (content ++ Internal o)%list else content).

End Op.
End Op.

(** ** Operation lists (op.go) *)

Module OpList.
Section OpList.
Context {C : Collaborators} {OF : ObjectForm Op.t}.

(** [client] is the state of the client the list points to, the contract
    script cache included; a lookup returns the state it leaves behind. *)
Record t : Type := mk {
  Rows : list (option Op.t);
  withPrim : bool;
  columns : list string;
  ctx : Context_;
  client : Client
}.

Definition set_Rows (x : list (option Op.t)) (l : t) : t :=
  mk x (withPrim l) (columns l) (ctx l) (client l).
Definition set_client (x : Client) (l : t) : t :=
  mk (Rows l) (withPrim l) (columns l) (ctx l) x.

(** [func (l OpList) Len() int] *)
Definition Len (l : t) : Z := Z.of_nat (length (Rows l)).

(** [func (l OpList) Cursor() uint64] *)
Definition Cursor (l : t) : outcome Z :=
  match last (Rows l) with
  | None => Ok 0
  | Some row => Op.deref row Op.Id
  end.

(** The body of the loop of [UnmarshalJSON] up to the call of
    [op.UnmarshalJSON]: the fresh record for row [v], with the contract
    types when the row is a contract call. *)
Definition prepare_row (l : t) (v : string) : Client * outcome Op.t :=
  let op := Op.set_columns (columns l) (Op.set_withPrim (withPrim l) Op.zero) in
  let '(is_, ok) := getTableColumn v (columns l) "is_contract" in
  if ok && String.eqb is_ "1" then
    let '(recv, ok) := getTableColumn v (columns l) "receiver" in
    if ok && negb (String.eqb recv EmptyString) && negb (String.eqb recv "null") then
      match tezos_ParseAddress recv with
      | inl err =>
          (client l,
           Err (Errorf "decode: invalid receiver address %s: %v"
                  [ArgString recv] (Some err)))
      | inr addr =>
          match loadCachedContractScript (client l) (ctx l) addr with
          | (client', inl err) => (client', Err err)
          | (client', inr script) => (client', Ok (Op.WithScript op script))
          end
      end
    else (client l, Ok op)
  else (client l, Ok op).

(** The record one iteration of the loop appends for row [v]:
    [op.UnmarshalJSON(v)] on the prepared record, then [op.columns = nil]. *)
Definition row_record (l : t) (v : string) : Client * outcome Op.t :=
  let '(client', prepared) := prepare_row l v in
  match prepared with
  | Ok op =>
      match Op.UnmarshalJSON op v with
      | (op, Ok _) => (client', Ok (Op.set_columns [] op))
      | (_, Err err) => (client', Err err)
      | (_, Panic p) => (client', Panic p)
      end
  | Err err => (client', Err err)
  | Panic p => (client', Panic p)
  end.

(** One iteration of the loop: the list after it and whether the loop
    goes on. *)
Definition decode_row (l : t) (v : string) : t * outcome unit :=
  match row_record l v with
  | (client', Ok op) => (set_Rows (Rows l ++ [Some op]) (set_client client' l), Ok tt)
  | (client', Err err) => (set_client client' l, Err err)
  | (client', Panic p) => (set_client client' l, Panic p)
  end.

(** [for _, v := range array { ... }] *)
Fixpoint range_rows (l : t) (array : list string) : t * outcome unit :=
  match array with
  | [] => (l, Ok tt)
  | v :: rest =>
      match decode_row l v with
      | (l', Ok _) => range_rows l' rest
      | stop => stop
      end
  end.

(** Every row of [array] decodes, each with the client as the rows before
    it left it. *)
Fixpoint all_rows_decode (l : t) (array : list string) : Prop :=
  match array with
  | [] => True
  | v :: rest =>
      snd (decode_row l v) = Ok tt /\ all_rows_decode (fst (decode_row l v)) rest
  end.

(** [func (l *OpList) UnmarshalJSON(data []byte) error] *)
Definition UnmarshalJSON (l : t) (data : string) : t * outcome unit :=
  if (String.length data =? 0)%nat || String.eqb data "null" then (l, Ok tt)
  else if negb (starts_with "[" data) then
    (l, Err (Errorf "OpList: expected JSON array" [] None))
  else
    match json_Unmarshal_RawMessages data with
    | inl err => (l, Err err)
    | inr array => range_rows l array
    end.

End OpList.
End OpList.

(** ** Blocks (block.go) *)

Module Block.
Section Block.
Context {C : Collaborators}.

Inductive t : Type := mkBlock {
  RowId : Z;
  ParentId : Z;
  ParentHash : option BlockHash;
  FollowerHash : option BlockHash;
  Hash : BlockHash;
  IsOrphan : bool;
  Height : Z;
  Cycle : Z;
  IsCycleSnapshot : bool;
  Timestamp : time_Time;
  Solvetime : Z;
  Version : Z;
  Validation : Z;
  Fitness : Z;
  Priority : Z;
  Nonce : string;
  VotingPeriodKind_ : VotingPeriodKind;  (* VotingPeriodKind *)
  BakerId : Z;
  Baker : Address;
  SlotMask : string;
  NSlotsEndorsed : Z;
  NOps : Z;
  NOpsFailed : Z;
  NOpsContract : Z;
  NOpsImplicit : Z;
  NTx : Z;
  NActivation : Z;
  NSeedNonce : Z;
  N2Baking : Z;
  N2Endorsement : Z;
  NEndorsement : Z;
  NDelegation : Z;
  NReveal : Z;
  NOrigination : Z;
  NProposal : Z;
  NBallot : Z;
  Volume : float;
  Fee : float;
  Reward : float;
  Deposit : float;
  UnfrozenFees : float;
  UnfrozenRewards : float;
  UnfrozenDeposits : float;
  ActivatedSupply : float;
  BurnedSupply : float;
  SeenAccounts : Z;
  NewAccounts : Z;
  NewImplicitAccounts : Z;
  NewManagedAccounts : Z;
  NewContracts : Z;
  ClearedAccounts : Z;
  FundedAccounts : Z;
  GasLimit : Z;
  GasUsed : Z;
  GasPrice : float;
  StorageSize : Z;
  TDD : float;
  PctAccountReuse : float;
  LbEscapeVote : bool;
  LbEscapeEma : Z;
  Metadata_ : gmap string Metadata;  (* Metadata *)
  Rights : list Right;
  Ops : list (option Op.t);
  columns : list string
}.

(** The zero value [Block{}]. *)
Definition zero : t := {|
  RowId := 0;
  ParentId := 0;
  ParentHash := None;
  FollowerHash := None;
  Hash := BlockHash_zero;
  IsOrphan := false;
  Height := 0;
  Cycle := 0;
  IsCycleSnapshot := false;
  Timestamp := ZeroTime;
  Solvetime := 0;
  Version := 0;
  Validation := 0;
  Fitness := 0;
  Priority := 0;
  Nonce := EmptyString;
  VotingPeriodKind_ := VotingPeriodKind_zero;
  BakerId := 0;
  Baker := Address_zero;
  SlotMask := EmptyString;
  NSlotsEndorsed := 0;
  NOps := 0;
  NOpsFailed := 0;
  NOpsContract := 0;
  NOpsImplicit := 0;
  NTx := 0;
  NActivation := 0;
  NSeedNonce := 0;
  N2Baking := 0;
  N2Endorsement := 0;
  NEndorsement := 0;
  NDelegation := 0;
  NReveal := 0;
  NOrigination := 0;
  NProposal := 0;
  NBallot := 0;
  Volume := 0%float;
  Fee := 0%float;
  Reward := 0%float;
  Deposit := 0%float;
  UnfrozenFees := 0%float;
  UnfrozenRewards := 0%float;
  UnfrozenDeposits := 0%float;
  ActivatedSupply := 0%float;
  BurnedSupply := 0%float;
  SeenAccounts := 0;
  NewAccounts := 0;
  NewImplicitAccounts := 0;
  NewManagedAccounts := 0;
  NewContracts := 0;
  ClearedAccounts := 0;
  FundedAccounts := 0;
  GasLimit := 0;
  GasUsed := 0;
  GasPrice := 0%float;
  StorageSize := 0;
  TDD := 0%float;
  PctAccountReuse := 0%float;
  LbEscapeVote := false;
  LbEscapeEma := 0;
  Metadata_ := ∅;
  Rights := [];
  Ops := [];
  columns := []
|}.

(** A record rebuilt from its own fields; [assign F x r] replaces field [F]
    in that expansion by [x], which is the assignment [r.F = x]. *)
Definition fields (r : t) : t :=
  mkBlock (RowId r) (ParentId r) (ParentHash r) (FollowerHash r) (Hash r)
    (IsOrphan r) (Height r) (Cycle r) (IsCycleSnapshot r) (Timestamp r)
    (Solvetime r) (Version r) (Validation r) (Fitness r) (Priority r)
    (Nonce r) (VotingPeriodKind_ r) (BakerId r) (Baker r) (SlotMask r)
    (NSlotsEndorsed r) (NOps r) (NOpsFailed r) (NOpsContract r)
    (NOpsImplicit r) (NTx r) (NActivation r) (NSeedNonce r) (N2Baking r)
    (N2Endorsement r) (NEndorsement r) (NDelegation r) (NReveal r)
    (NOrigination r) (NProposal r) (NBallot r) (Volume r) (Fee r) (Reward r)
    (Deposit r) (UnfrozenFees r) (UnfrozenRewards r) (UnfrozenDeposits r)
    (ActivatedSupply r) (BurnedSupply r) (SeenAccounts r) (NewAccounts r)
    (NewImplicitAccounts r) (NewManagedAccounts r) (NewContracts r)
    (ClearedAccounts r) (FundedAccounts r) (GasLimit r) (GasUsed r)
    (GasPrice r) (StorageSize r) (TDD r) (PctAccountReuse r) (LbEscapeVote r)
    (LbEscapeEma r) (Metadata_ r) (Rights r) (Ops r) (columns r).

Ltac assign F x r :=
  let e := eval cbv beta delta [fields] in (fields r) in
  match eval pattern (F r) in e with
  | ?g _ => let e' := eval cbv beta in (g x) in exact e'
  end.

Definition set_RowId (x : Z) (r : t) : t := ltac:(assign RowId x r).
Definition set_ParentId (x : Z) (r : t) : t := ltac:(assign ParentId x r).
Definition set_ParentHash (x : option BlockHash) (r : t) : t := ltac:(assign ParentHash x r).
Definition set_Hash (x : BlockHash) (r : t) : t := ltac:(assign Hash x r).
Definition set_IsOrphan (x : bool) (r : t) : t := ltac:(assign IsOrphan x r).
Definition set_Height (x : Z) (r : t) : t := ltac:(assign Height x r).
Definition set_Cycle (x : Z) (r : t) : t := ltac:(assign Cycle x r).
Definition set_IsCycleSnapshot (x : bool) (r : t) : t := ltac:(assign IsCycleSnapshot x r).
Definition set_Timestamp (x : time_Time) (r : t) : t := ltac:(assign Timestamp x r).
Definition set_Solvetime (x : Z) (r : t) : t := ltac:(assign Solvetime x r).
Definition set_Version (x : Z) (r : t) : t := ltac:(assign Version x r).
Definition set_Validation (x : Z) (r : t) : t := ltac:(assign Validation x r).
Definition set_Fitness (x : Z) (r : t) : t := ltac:(assign Fitness x r).
Definition set_Priority (x : Z) (r : t) : t := ltac:(assign Priority x r).
Definition set_Nonce (x : string) (r : t) : t := ltac:(assign Nonce x r).
Definition set_VotingPeriodKind_ (x : VotingPeriodKind) (r : t) : t := ltac:(assign VotingPeriodKind_ x r).
Definition set_BakerId (x : Z) (r : t) : t := ltac:(assign BakerId x r).
Definition set_Baker (x : Address) (r : t) : t := ltac:(assign Baker x r).
Definition set_SlotMask (x : string) (r : t) : t := ltac:(assign SlotMask x r).
Definition set_NSlotsEndorsed (x : Z) (r : t) : t := ltac:(assign NSlotsEndorsed x r).
Definition set_NOps (x : Z) (r : t) : t := ltac:(assign NOps x r).
Definition set_NOpsFailed (x : Z) (r : t) : t := ltac:(assign NOpsFailed x r).
Definition set_NOpsContract (x : Z) (r : t) : t := ltac:(assign NOpsContract x r).
Definition set_NOpsImplicit (x : Z) (r : t) : t := ltac:(assign NOpsImplicit x r).
Definition set_NTx (x : Z) (r : t) : t := ltac:(assign NTx x r).
Definition set_NActivation (x : Z) (r : t) : t := ltac:(assign NActivation x r).
Definition set_NSeedNonce (x : Z) (r : t) : t := ltac:(assign NSeedNonce x r).
Definition set_N2Baking (x : Z) (r : t) : t := ltac:(assign N2Baking x r).
Definition set_N2Endorsement (x : Z) (r : t) : t := ltac:(assign N2Endorsement x r).
Definition set_NEndorsement (x : Z) (r : t) : t := ltac:(assign NEndorsement x r).
Definition set_NDelegation (x : Z) (r : t) : t := ltac:(assign NDelegation x r).
Definition set_NReveal (x : Z) (r : t) : t := ltac:(assign NReveal x r).
Definition set_NOrigination (x : Z) (r : t) : t := ltac:(assign NOrigination x r).
Definition set_NProposal (x : Z) (r : t) : t := ltac:(assign NProposal x r).
Definition set_NBallot (x : Z) (r : t) : t := ltac:(assign NBallot x r).
Definition set_Volume (x : float) (r : t) : t := ltac:(assign Volume x r).
Definition set_Fee (x : float) (r : t) : t := ltac:(assign Fee x r).
Definition set_Reward (x : float) (r : t) : t := ltac:(assign Reward x r).
Definition set_Deposit (x : float) (r : t) : t := ltac:(assign Deposit x r).
Definition set_UnfrozenFees (x : float) (r : t) : t := ltac:(assign UnfrozenFees x r).
Definition set_UnfrozenRewards (x : float) (r : t) : t := ltac:(assign UnfrozenRewards x r).
Definition set_UnfrozenDeposits (x : float) (r : t) : t := ltac:(assign UnfrozenDeposits x r).
Definition set_ActivatedSupply (x : float) (r : t) : t := ltac:(assign ActivatedSupply x r).
Definition set_BurnedSupply (x : float) (r : t) : t := ltac:(assign BurnedSupply x r).
Definition set_SeenAccounts (x : Z) (r : t) : t := ltac:(assign SeenAccounts x r).
Definition set_NewAccounts (x : Z) (r : t) : t := ltac:(assign NewAccounts x r).
Definition set_NewImplicitAccounts (x : Z) (r : t) : t := ltac:(assign NewImplicitAccounts x r).
Definition set_NewManagedAccounts (x : Z) (r : t) : t := ltac:(assign NewManagedAccounts x r).
Definition set_NewContracts (x : Z) (r : t) : t := ltac:(assign NewContracts x r).
Definition set_ClearedAccounts (x : Z) (r : t) : t := ltac:(assign ClearedAccounts x r).
Definition set_FundedAccounts (x : Z) (r : t) : t := ltac:(assign FundedAccounts x r).
Definition set_GasLimit (x : Z) (r : t) : t := ltac:(assign GasLimit x r).
Definition set_GasUsed (x : Z) (r : t) : t := ltac:(assign GasUsed x r).
Definition set_GasPrice (x : float) (r : t) : t := ltac:(assign GasPrice x r).
Definition set_StorageSize (x : Z) (r : t) : t := ltac:(assign StorageSize x r).
Definition set_TDD (x : float) (r : t) : t := ltac:(assign TDD x r).
Definition set_PctAccountReuse (x : float) (r : t) : t := ltac:(assign PctAccountReuse x r).
Definition set_LbEscapeVote (x : bool) (r : t) : t := ltac:(assign LbEscapeVote x r).
Definition set_LbEscapeEma (x : Z) (r : t) : t := ltac:(assign LbEscapeEma x r).
Definition set_columns (x : list string) (r : t) : t := ltac:(assign columns x r).

Definition WithColumns (b : t) (cols : list string) : t := set_columns cols b.

(** The body of the [switch v] of [UnmarshalJSONBrief]: [block] is the
    scratch record, [f] the non-nil value of column [v]. *)
Definition decode_column (block : t) (v : string) (f : json) : outcome t :=
  if String.eqb v "row_id" then
    let* x := parse_Number strconv_ParseUint f in Ok (set_RowId x block)
  else if String.eqb v "parent_id" then
    let* x := parse_Number strconv_ParseUint f in Ok (set_ParentId x block)
  else if String.eqb v "hash" then
    let* x := parse_string tezos_ParseBlockHash f in Ok (set_Hash x block)
  else if String.eqb v "predecessor" then
    let* h := parse_string tezos_ParseBlockHash f in
    Ok (set_ParentHash (Some h) block)
  else if String.eqb v "is_orphan" then
    let* x := parse_Number strconv_ParseBool f in Ok (set_IsOrphan x block)
  else if String.eqb v "height" then
    let* x := parse_Number strconv_ParseInt f in Ok (set_Height x block)
  else if String.eqb v "cycle" then
    let* x := parse_Number strconv_ParseInt f in Ok (set_Cycle x block)
  else if String.eqb v "is_cycle_snapshot" then
    let* x := parse_Number strconv_ParseBool f in Ok (set_IsCycleSnapshot x block)
  else if String.eqb v "time" then
    let* ts := parse_Number strconv_ParseInt f in
    Ok (set_Timestamp (time_of_millis ts) block)
  else if String.eqb v "solvetime" then
    let* x := parse_Number strconv_Atoi f in Ok (set_Solvetime x block)
  else if String.eqb v "version" then
    let* x := parse_Number strconv_Atoi f in Ok (set_Version x block)
  else if String.eqb v "validation_pass" then
    let* x := parse_Number strconv_Atoi f in Ok (set_Validation x block)
  else if String.eqb v "fitness" then
    let* x := parse_Number strconv_ParseUint f in Ok (set_Fitness x block)
  else if String.eqb v "priority" then
    let* x := parse_Number strconv_Atoi f in Ok (set_Priority x block)
  else if String.eqb v "nonce" then
    let* s := as_string f in Ok (set_Nonce s block)
  else if String.eqb v "voting_period_kind" then
    let* s := as_string f in
    Ok (set_VotingPeriodKind_ (tezos_ParseVotingPeriod s) block)
  else if String.eqb v "baker_id" then
    let* x := parse_Number strconv_ParseUint f in Ok (set_BakerId x block)
  else if String.eqb v "slot_mask" then
    let* s := as_string f in Ok (set_SlotMask s block)
  else if String.eqb v "n_endorsed_slots" then
    let* x := parse_Number strconv_Atoi f in Ok (set_NSlotsEndorsed x block)
  else if String.eqb v "n_ops" then
    let* x := parse_Number strconv_Atoi f in Ok (set_NOps x block)
  else if String.eqb v "n_ops_failed" then
    let* x := parse_Number strconv_Atoi f in Ok (set_NOpsFailed x block)
  else if String.eqb v "n_ops_contract" then
    let* x := parse_Number strconv_Atoi f in Ok (set_NOpsContract x block)
  else if String.eqb v "n_ops_implicit" then
    let* x := parse_Number strconv_Atoi f in Ok (set_NOpsImplicit x block)
  else if String.eqb v "n_tx" then
    let* x := parse_Number strconv_Atoi f in Ok (set_NTx x block)
  else if String.eqb v "n_activation" then
    let* x := parse_Number strconv_Atoi f in Ok (set_NActivation x block)
  else if String.eqb v "n_seed_nonce_revelation" then
    let* x := parse_Number strconv_Atoi f in Ok (set_NSeedNonce x block)
  else if String.eqb v "n_double_baking_evidence" then
    let* x := parse_Number strconv_Atoi f in Ok (set_N2Baking x block)
  else if String.eqb v "n_double_endorsement_evidence" then
    let* x := parse_Number strconv_Atoi f in Ok (set_N2Endorsement x block)
  else if String.eqb v "n_endorsement" then
    let* x := parse_Number strconv_Atoi f in Ok (set_NEndorsement x block)
  else if String.eqb v "n_delegation" then
    let* x := parse_Number strconv_Atoi f in Ok (set_NDelegation x block)
  else if String.eqb v "n_reveal" then
    let* x := parse_Number strconv_Atoi f in Ok (set_NReveal x block)
  else if String.eqb v "n_origination" then
    let* x := parse_Number strconv_Atoi f in Ok (set_NOrigination x block)
  else if String.eqb v "n_proposal" then
    let* x := parse_Number strconv_Atoi f in Ok (set_NProposal x block)
  else if String.eqb v "n_ballot" then
    let* x := parse_Number strconv_Atoi f in Ok (set_NBallot x block)
  else if String.eqb v "volume" then
    let* x := parse_Number (fun n => strconv_ParseFloat n 4) f in
    Ok (set_Volume x block)
  else if String.eqb v "fee" then
    let* x := parse_Number (fun n => strconv_ParseFloat n 64) f in
    Ok (set_Fee x block)
  else if String.eqb v "reward" then
    let* x := parse_Number (fun n => strconv_ParseFloat n 64) f in
    Ok (set_Reward x block)
  else if String.eqb v "deposit" then
    let* x := parse_Number (fun n => strconv_ParseFloat n 64) f in
    Ok (set_Deposit x block)
  else if String.eqb v "unfrozen_fees" then
    let* x := parse_Number (fun n => strconv_ParseFloat n 64) f in
    Ok (set_UnfrozenFees x block)
  else if String.eqb v "unfrozen_rewards" then
    let* x := parse_Number (fun n => strconv_ParseFloat n 64) f in
    Ok (set_UnfrozenRewards x block)
  else if String.eqb v "unfrozen_deposits" then
    let* x := parse_Number (fun n => strconv_ParseFloat n 64) f in
    Ok (set_UnfrozenDeposits x block)
  else if String.eqb v "activated_supply" then
    let* x := parse_Number (fun n => strconv_ParseFloat n 64) f in
    Ok (set_ActivatedSupply x block)
  else if String.eqb v "burned_supply" then
    let* x := parse_Number (fun n => strconv_ParseFloat n 64) f in
    Ok (set_BurnedSupply x block)
  else if String.eqb v "n_accounts" then
    let* x := parse_Number strconv_Atoi f in Ok (set_SeenAccounts x block)
  else if String.eqb v "n_new_accounts" then
    let* x := parse_Number strconv_Atoi f in Ok (set_NewAccounts x block)
  else if String.eqb v "n_new_implicit" then
    let* x := parse_Number strconv_Atoi f in Ok (set_NewImplicitAccounts x block)
  else if String.eqb v "n_new_managed" then
    let* x := parse_Number strconv_Atoi f in Ok (set_NewManagedAccounts x block)
  else if String.eqb v "n_new_contracts" then
    let* x := parse_Number strconv_Atoi f in Ok (set_NewContracts x block)
  else if String.eqb v "n_cleared_accounts" then
    let* x := parse_Number strconv_Atoi f in Ok (set_ClearedAccounts x block)
  else if String.eqb v "n_funded_accounts" then
    let* x := parse_Number strconv_Atoi f in Ok (set_FundedAccounts x block)
  else if String.eqb v "gas_limit" then
    let* x := parse_Number strconv_ParseInt f in Ok (set_GasLimit x block)
  else if String.eqb v "gas_used" then
    let* x := parse_Number strconv_ParseInt f in Ok (set_GasUsed x block)
  else if String.eqb v "gas_price" then
    let* x := parse_Number (fun n => strconv_ParseFloat n 64) f in
    Ok (set_GasPrice x block)
  else if String.eqb v "storage_size" then
    let* x := parse_Number strconv_ParseInt f in Ok (set_StorageSize x block)
  else if String.eqb v "days_destroyed" then
    let* x := parse_Number (fun n => strconv_ParseFloat n 64) f in
    Ok (set_TDD x block)
  else if String.eqb v "pct_account_reuse" then
    let* x := parse_Number (fun n => strconv_ParseFloat n 64) f in
    Ok (set_PctAccountReuse x block)
  else if String.eqb v "baker" then
    let* x := parse_string tezos_ParseAddress f in Ok (set_Baker x block)
  else if String.eqb v "lb_esc_vote" then
    let* x := parse_Number strconv_ParseBool f in Ok (set_LbEscapeVote x block)
  else if String.eqb v "lb_esc_ema" then
    let* x := parse_Number strconv_ParseInt f in Ok (set_LbEscapeEma x block)
  else Ok block.

(** The columns whose value the switch asserts to be a [json.Number]. *)
Definition number_columns : list string :=
  ["row_id"; "parent_id"; "is_orphan"; "height"; "cycle";
   "is_cycle_snapshot"; "time"; "solvetime"; "version"; "validation_pass";
   "fitness"; "priority"; "baker_id"; "n_endorsed_slots"; "n_ops";
   "n_ops_failed"; "n_ops_contract"; "n_ops_implicit"; "n_tx";
   "n_activation"; "n_seed_nonce_revelation"; "n_double_baking_evidence";
   "n_double_endorsement_evidence"; "n_endorsement"; "n_delegation";
   "n_reveal"; "n_origination"; "n_proposal"; "n_ballot"; "volume"; "fee";
   "reward"; "deposit"; "unfrozen_fees"; "unfrozen_rewards";
   "unfrozen_deposits"; "activated_supply"; "burned_supply"; "n_accounts";
   "n_new_accounts"; "n_new_implicit"; "n_new_managed"; "n_new_contracts";
   "n_cleared_accounts"; "n_funded_accounts"; "gas_limit"; "gas_used";
   "gas_price"; "storage_size"; "days_destroyed"; "pct_account_reuse";
   "lb_esc_vote"; "lb_esc_ema"].

(** The columns whose value the switch asserts to be a [string]. *)
Definition string_columns : list string :=
  ["hash"; "predecessor"; "nonce"; "voting_period_kind"; "slot_mask";
   "baker"].

(** The column names that have a case in the switch. *)
Definition known_columns : list string :=
  (number_columns ++ string_columns)%list.

(** [func (b *Block) UnmarshalJSONBrief(data []byte) error] *)
Definition UnmarshalJSONBrief (b : t) (data : string) : t * outcome unit :=
  match json_Decode data with
  | inl err => (b, Err err)
  | inr unpacked =>
      commit b (range_columns decode_column (columns b) 0 unpacked zero)
  end.

Context {OF : ObjectForm t}.

(** [func (b *Block) UnmarshalJSON(data []byte) error] *)
Definition UnmarshalJSON (b : t) (data : string) : t * outcome unit :=
  if (String.length data =? 0)%nat || String.eqb data "null" then (b, Ok tt)
  else if (String.length data =? 2)%nat then (b, Ok tt)
  else if starts_with "[" data then UnmarshalJSONBrief b data
  else
    match json_Unmarshal data b with
    | (b', None) => (b', Ok tt)
    | (b', Some err) => (b', Err err)
    end.

Context {H : HashOps}.

(** [func (b *Block) BlockId() BlockId] *)
Definition BlockId (b : t) : BlockId.t :=
  {| BlockId.Height := Height b;
     BlockId.Hash := BlockHash_Clone (Hash b);
     BlockId.Time_ := Timestamp b |}.

End Block.
End Block.

(** ** Block lists (block.go) *)

Module BlockList.
Section BlockList.
Context {C : Collaborators} {OF : ObjectForm Block.t}.

Record t : Type := mk {
  Rows : list (option Block.t);
  columns : list string
}.

Definition set_Rows (x : list (option Block.t)) (l : t) : t := mk x (columns l).

(** [func (l BlockList) Len() int] *)
Definition Len (l : t) : Z := Z.of_nat (length (Rows l)).

(** [func (l BlockList) Cursor() uint64] *)
Definition Cursor (l : t) : outcome Z :=
  match last (Rows l) with
  | None => Ok 0
  | Some (Some row) => Ok (Block.RowId row)
  | Some None => Panic NilDereference
  end.

(** The record one iteration of the loop of [UnmarshalJSON] appends for
    row [v]: [r.UnmarshalJSON(v)] on a fresh record, then
    [r.columns = nil]. *)
Definition row_record (l : t) (v : string) : outcome Block.t :=
  let r := Block.set_columns (columns l) Block.zero in
  match Block.UnmarshalJSON r v with
  | (r, Ok _) => Ok (Block.set_columns [] r)
  | (_, Err err) => Err err
  | (_, Panic p) => Panic p
  end.

(** One iteration of the loop. *)
Definition decode_row (l : t) (v : string) : t * outcome unit :=
  match row_record l v with
  | Ok r => (set_Rows (Rows l ++ [Some r]) l, Ok tt)
  | Err err => (l, Err err)
  | Panic p => (l, Panic p)
  end.

(** [for _, v := range array { ... }] *)
Fixpoint range_rows (l : t) (array : list string) : t * outcome unit :=
  match array with
  | [] => (l, Ok tt)
  | v :: rest =>
      match decode_row l v with
      | (l', Ok _) => range_rows l' rest
      | stop => stop
      end
  end.

(** [func (l *BlockList) UnmarshalJSON(data []byte) error] *)
Definition UnmarshalJSON (l : t) (data : string) : t * outcome unit :=
  if (String.length data =? 0)%nat || String.eqb data "null" then (l, Ok tt)
  else if negb (starts_with "[" data) then
    (l, Err (Errorf "BlockList: expected JSON array" [] None))
  else
    match json_Unmarshal_RawMessages data with
    | inl err => (l, Err err)
    | inr array => range_rows l array
    end.

End BlockList.
End BlockList.

(** ** Comparing a block with a block identifier (block.go)

    The block is a pointer [*Block]; [b.ParentHash] is a pointer too, and
    calling [Equal] through it when it is nil panics. *)

Section BlockIdMethods.
Context {C : Collaborators} {H : HashOps}.

(** [func (i BlockId) IsNextBlock(b *Block) bool] *)
Definition BlockId_IsNextBlock (i : BlockId.t) (b : option Block.t) : outcome bool :=
  match b with
  | None => Ok false
  | Some b =>
      if negb (Block.Height b =? wrap64 (BlockId.Height i + 1)) then Ok false
      else
        match Block.ParentHash b with
        | None => Panic NilDereference
        | Some parent =>
            if negb (BlockHash_Equal parent (BlockId.Hash i)) then Ok false
            else Ok true
        end
  end.

(** [func (i BlockId) IsSameBlock(b *Block) bool] *)
Definition BlockId_IsSameBlock (i : BlockId.t) (b : option Block.t) : bool :=
  match b with
  | None => false
  | Some b =>
      if negb (Block.Height b =? BlockId.Height i) then false
      else if negb (BlockHash_Equal (Block.Hash b) (BlockId.Hash i)) then false
      else true
  end.

End BlockIdMethods.

(** ** A concrete instance of the collaborators

    A small executable instance, used to run the decoders on concrete
    rows.  JSON payloads are flat arrays of scalars (no white space, no
    escapes), numbers are decimal, hashes and addresses are kept as their
    text, and a binary big-map diff is a sequence of two-byte events
    (action letter, big-map id). *)

Module Demo.

(** The JSON string literal of an escape-free text. *)
Definition quoted (s : string) : string :=
  String "034" (s ++ String "034" EmptyString).

(** The top-level elements of the array whose text after the opening
    bracket is [s]. *)
Fixpoint elements (s cur : string) (depth : nat) : option (list string) :=
  match s with
  | EmptyString => None
  | String c rest =>
      if Ascii.eqb c "]" then
        match depth with
        | O => if String.eqb rest EmptyString then Some [cur] else None
        | S d => elements rest (cur ++ String c EmptyString) d
        end
      else if Ascii.eqb c "[" then
        elements rest (cur ++ String c EmptyString) (S depth)
      else if Ascii.eqb c "," && Nat.eqb depth 0 then
        option_map (cons cur) (elements rest EmptyString depth)
      else elements rest (cur ++ String c EmptyString) depth
  end.

Definition raw_array (data : string) : error + list string :=
  match data with
  | String "[" "]" => inr []
  | String "[" rest =>
      match elements rest EmptyString 0 with
      | Some l => inr l
      | None => inl (LibError "unexpected end of JSON input")
      end
  | _ =>
      if String.eqb data "null" then inr []
      else inl (LibError "json: cannot unmarshal into Go value of type []")
  end.

Fixpoint all_chars (p : ascii -> bool) (s : string) : bool :=
  match s with
  | EmptyString => true
  | String c rest => p c && all_chars p rest
  end.

Definition is_digit (c : ascii) : bool :=
  (48 <=? nat_of_ascii c)%nat && (nat_of_ascii c <=? 57)%nat.

Definition is_number_char (c : ascii) : bool :=
  is_digit c || Ascii.eqb c "-" || Ascii.eqb c "+" || Ascii.eqb c "."
  || Ascii.eqb c "e" || Ascii.eqb c "E".

Fixpoint drop_last (s : string) : string :=
  match s with
  | EmptyString => EmptyString
  | String c EmptyString => EmptyString
  | String c rest => String c (drop_last rest)
  end.

Definition ends_with_quote (s : string) : bool :=
  match String.get (String.length s - 1) s with
  | Some c => Ascii.eqb c "034"
  | None => false
  end.

Definition scalar (tok : string) : error + json :=
  if String.eqb tok "null" then inr JNull
  else if String.eqb tok "true" then inr (JBool true)
  else if String.eqb tok "false" then inr (JBool false)
  else
    match tok with
    | String "034" rest =>
        if ends_with_quote rest then inr (JString (drop_last rest))
        else inl (LibError "invalid character in string literal")
    | String _ _ =>
        if all_chars is_number_char tok then inr (JNumber tok)
        else inl (LibError "invalid character looking for beginning of value")
    | EmptyString => inl (LibError "unexpected end of JSON input")
    end.

Fixpoint scalars (toks : list string) : error + list json :=
  match toks with
  | [] => inr []
  | tok :: rest =>
      match scalar tok, scalars rest with
      | inr f, inr fs => inr (f :: fs)
      | inl e, _ => inl e
      | _, inl e => inl e
      end
  end.

Definition Decode (data : string) : error + list json :=
  match raw_array data with
  | inr toks => scalars toks
  | inl e => inl e
  end.

Fixpoint digits (s : string) (acc : Z) : Z :=
  match s with
  | EmptyString => acc
  | String c rest => digits rest (10 * acc + Z.of_nat (nat_of_ascii c - 48))
  end.

Definition ParseUint (s : string) : error + Z :=
  if negb (String.eqb s EmptyString) && all_chars is_digit s then
    if digits s 0 <? 2 ^ 64 then inr (digits s 0)
    else inl (LibError "strconv.ParseUint: value out of range")
  else inl (LibError "strconv.ParseUint: invalid syntax").

Definition ParseInt (s : string) : error + Z :=
  let '(neg, body) :=
    match s with
    | String "-" rest => (true, rest)
    | String "+" rest => (false, rest)
    | _ => (false, s)
    end in
  if negb (String.eqb body EmptyString) && all_chars is_digit body then
    let n := if neg : bool then - digits body 0 else digits body 0 in
    if (- 2 ^ 63 <=? n) && (n <? 2 ^ 63) then inr n
    else inl (LibError "strconv.ParseInt: value out of range")
  else inl (LibError "strconv.ParseInt: invalid syntax").

Definition ParseBool (s : string) : error + bool :=
  if existsb (String.eqb s) ["1"; "t"; "T"; "TRUE"; "true"; "True"] then inr true
  else if existsb (String.eqb s) ["0"; "f"; "F"; "FALSE"; "false"; "False"] then inr false
  else inl (LibError "strconv.ParseBool: invalid syntax").

(** Only non-negative integer literals. *)
Definition ParseFloat (s : string) (bitSize : Z) : error + float :=
  match ParseUint s with
  | inr n =>
      if n <? 2 ^ 53 then inr (PrimFloat.of_uint63 (Uint63.of_Z n))
      else inl (LibError "strconv.ParseFloat: not covered")
  | inl _ => inl (LibError "strconv.ParseFloat: not covered")
  end.

Definition hex_digit (c : ascii) : option nat :=
  let n := nat_of_ascii c in
  if is_digit c then Some (n - 48)%nat
  else if (97 <=? n)%nat && (n <=? 102)%nat then Some (n - 87)%nat
  else if (65 <=? n)%nat && (n <=? 70)%nat then Some (n - 55)%nat
  else None.

Fixpoint DecodeString (s : string) : error + string :=
  match s with
  | EmptyString => inr EmptyString
  | String hi (String lo rest) =>
      match hex_digit hi, hex_digit lo, DecodeString rest with
      | Some h, Some l, inr bytes =>
          inr (String (ascii_of_nat (16 * h + l)) bytes)
      | Some _, Some _, inl e => inl e
      | _, _, _ => inl (LibError "encoding/hex: invalid byte")
      end
  | String _ EmptyString => inl (LibError "encoding/hex: odd length hex string")
  end.

Definition ParseText (what : string) (s : string) : error + string :=
  if String.eqb s EmptyString then inl (LibError ("tezos: invalid " ++ what))
  else inr s.

Record Event : Type := mkEvent {
  Action : DiffAction;
  Id : Z;
  KeyHash : string;
  Key_ : string
}.

(** Two bytes per event: [u], [r], [c] or [a], then the big-map id. *)
Fixpoint Events (buf : string) : error + list Event :=
  match buf with
  | EmptyString => inr []
  | String a (String i rest) =>
      let id := Z.of_nat (nat_of_ascii i) in
      let ev (act : DiffAction) := mkEvent act id "expr" "key" in
      match Events rest with
      | inl e => inl e
      | inr evs =>
          if Ascii.eqb a "u" then inr (ev DiffActionUpdate :: evs)
          else if Ascii.eqb a "r" then inr (ev DiffActionRemove :: evs)
          else if Ascii.eqb a "c" then inr (ev DiffActionCopy :: evs)
          else if Ascii.eqb a "a" then inr (ev DiffActionAlloc :: evs)
          else inl (LibError "micheline: invalid big_map_diff action")
      end
  | String _ EmptyString => inl (LibError "micheline: short buffer")
  end.

Fixpoint index_of (name : string) (cols : list string) (i : nat) : option nat :=
  match cols with
  | [] => None
  | c :: rest => if String.eqb c name then Some i else index_of name rest (S i)
  end.

Definition unquote (tok : string) : string :=
  match tok with
  | String "034" rest => if ends_with_quote rest then drop_last rest else tok
  | _ => tok
  end.

(** Modelled from the spec: [getTableColumn] is not among the sources; it
    is taken to return the text of the value of column [name] in the raw
    row, without the quotes of a string, and whether the column is there. *)
Definition TableColumn (row : string) (cols : list string) (name : string)
    : string * bool :=
  match index_of name cols 0, raw_array row with
  | Some i, inr toks =>
      match toks !! i with
      | Some tok => (unquote tok, true)
      | None => (EmptyString, false)
      end
  | _, _ => (EmptyString, false)
  end.

(** Modelled from the spec: [loadCachedContractScript] is not among the
    sources; section 6 gives the resolver three answers, a schema, not
    found, or an error.  This one knows one contract, answers with a nil
    script for one address and with an error for the others; a resolved
    address is added to the cache. *)
Definition loadScript (client : list string) (ctx : unit) (addr : string)
    : list string * (error + option (option string)) :=
  if String.eqb addr "KT1known" then (addr :: client, inr (Some (Some "pair")))
  else if String.eqb addr "KT1nil" then (client, inr None)
  else (client, inl (LibError "not found")).

#[export] Instance collaborators : Collaborators := {|
  OpHash := string;            OpHash_zero := EmptyString;
  BlockHash := string;         BlockHash_zero := EmptyString;
  ExprHash := string;          ExprHash_zero := EmptyString;
  Address := string;           Address_zero := EmptyString;
  OpStatus := string;          OpStatus_zero := EmptyString;
  VotingPeriodKind := string;  VotingPeriodKind_zero := EmptyString;
  tezos_ParseOpHash := ParseText "operation hash";
  tezos_ParseBlockHash := ParseText "block hash";
  tezos_ParseAddress := ParseText "address";
  tezos_ParseOpStatus := fun s => s;
  tezos_ParseVotingPeriod := fun s => s;
  ExprHash_String := fun h => h;
  Prim := string;              Prim_zero := EmptyString;
  MType := option string;      Type_zero := None;
  Entrypoint := option string;
  Entrypoints := list string;  Entrypoints_nil := [];
  Parameters := string;
  Typedef := string;
  Key := string;
  BigmapEvent := Event;
  BigmapEvent_Action := Action;
  BigmapEvent_Id := Id;
  BigmapEvent_SourceId := fun _ => 0;
  BigmapEvent_DestId := fun _ => 0;
  BigmapEvent_KeyHash := KeyHash;
  BigmapEvent_Key := Key_;
  BigmapEvent_Value := fun _ => "value";
  BigmapEvent_KeyType := fun _ => "keytype";
  BigmapEvent_ValueType := fun _ => "valuetype";
  BigmapEvent_GetKey := fun v _ => Key_ v;
  BigmapEvents_UnmarshalBinary := Events;
  Prim_UnmarshalBinary := fun buf => inr buf;
  Prim_BuildType := fun p => Some p;
  Prim_IsEmptyBigmap := fun p => String.eqb p EmptyString;
  Type_of_Prim := fun p => Some p;
  Type_IsValid := fun t => match t with Some _ => true | None => false end;
  Type_Left := fun t => t;
  Type_Right := fun t => t;
  Type_TypedefPtr := fun t name => Some name;
  Parameters_UnmarshalBinary := fun buf => inr buf;
  Parameters_Entrypoint := fun p => "default";
  Parameters_MapEntrypoint := fun p t => (t, p);
  Entrypoint_Type := fun ep => ep;
  MapResult := string;
  Value_Map := fun t p render => inr p;
  Key_MarshalJSON := fun k => k;
  json_Decode := Decode;
  json_Unmarshal_RawMessages := raw_array;
  json_Marshal := fun f => inr "json";
  strconv_ParseUint := ParseUint;
  strconv_ParseInt := ParseInt;
  strconv_Atoi := ParseInt;
  strconv_ParseBool := ParseBool;
  strconv_ParseFloat := ParseFloat;
  hex_DecodeString := DecodeString;
  Context_ := unit;
  OpType := string;            OpType_zero := EmptyString;
  ParseOpType := fun s => s;
  MultiKey := string;          MultiKey_zero := EmptyString;
  MultiKey_UnmarshalJSON := fun buf => buf;
  Metadata := unit;
  Right := unit;
  ContractScript := option string;
  ContractScript_Types := fun s => (s, s, [], {[ 7 := s ]});
  Client := list string;
  getTableColumn := TableColumn;
  loadCachedContractScript := loadScript;
|}.

(** Object-form rows are outside the demo: the receiver is left as it is. *)
#[export] Instance object_form (T : Type) : ObjectForm T :=
  fun _ o => (o, None).

(** An address parser that rejects a text without a known prefix. *)
Definition ParseAddress (s : string) : error + string :=
  if String.prefix "tz" s || String.prefix "KT1" s then inr s
  else inl (LibError "tezos: unknown address prefix").

(** The instance above with that address parser in place of the
    permissive one. *)
Definition strict : Collaborators :=
  ltac:(let c := eval cbv delta [collaborators] in collaborators in
        match eval pattern (ParseText "address") in c with
        | ?f _ => let c' := eval cbv beta in (f ParseAddress) in exact c'
        end).

#[export] Instance hash_ops : HashOps := {|
  BlockHash_Equal := String.eqb;
  BlockHash_Clone := fun h => h;
|}.

End Demo.

(** * Properties *)

(** ** The column loop *)

Section ColumnsFacts.
Context {R : Type} (step : R -> string -> json -> outcome R).

Lemma range_columns_drop cols i unpacked s :
  range_columns step cols i unpacked s
  = range_columns step cols 0 (drop i unpacked) s.
Proof.
  revert i unpacked s. induction cols as [|v rest IH]; intros i unpacked s.
  - reflexivity.
  - simpl. rewrite lookup_drop, Nat.add_0_r.
    destruct (unpacked !! i) as [f|]; [|reflexivity].
    assert (forall s', range_columns step rest (S i) unpacked s'
                       = range_columns step rest 1 (drop i unpacked) s') as E.
    { intros s'. rewrite (IH (S i)), (IH 1%nat), drop_drop, Nat.add_1_r.
      reflexivity. }
    destruct (is_nil f); [apply E|].
    destruct (step s v f); simpl; [apply E|reflexivity..].
Qed.

Lemma range_columns_cons v rest f unpacked s :
  range_columns step (v :: rest) 0 (f :: unpacked) s
  = if is_nil f then range_columns step rest 0 unpacked s
    else let* s' := step s v f in range_columns step rest 0 unpacked s'.
Proof.
  simpl. rewrite (range_columns_drop rest 1). simpl. rewrite drop_0.
  destruct (is_nil f); [reflexivity|].
  destruct (step s v f); simpl; [|reflexivity..].
  rewrite (range_columns_drop rest 1). simpl. rewrite drop_0. reflexivity.
Qed.

(** The loop over [pre ++ post] is the loop over [pre] followed by the
    loop over [post], started at the next position. *)
Lemma range_columns_app pre post i unpacked s :
  range_columns step (pre ++ post) i unpacked s
  = let* s' := range_columns step pre i unpacked s in
    range_columns step post (i + length pre) unpacked s'.
Proof.
  revert i s. induction pre as [|v rest IH]; intros i s.
  - simpl. rewrite Nat.add_0_r. reflexivity.
  - simpl. destruct (unpacked !! i) as [f|]; [|reflexivity].
    replace (i + S (length rest))%nat with (S i + length rest)%nat by lia.
    destruct (is_nil f); [apply IH|].
    destruct (step s v f); simpl; [apply IH|reflexivity..].
Qed.

(** A property of the scratch record kept by every column is kept by the
    loop. *)
Lemma range_columns_invariant (P : R -> Prop) cols i unpacked s r :
  (forall s v f s', P s -> step s v f = Ok s' -> P s') ->
  P s ->
  range_columns step cols i unpacked s = Ok r ->
  P r.
Proof.
  intros Hstep. revert i s. induction cols as [|v rest IH]; intros i s Hs.
  - simpl. intros [= <-]. exact Hs.
  - simpl. destruct (unpacked !! i) as [f|]; [|discriminate].
    destruct (is_nil f); [apply IH; exact Hs|].
    destruct (step s v f) as [s'| |] eqn:E; simpl; [|discriminate..].
    apply IH. exact (Hstep _ _ _ _ Hs E).
Qed.

(** With a value for every column, no positional access is out of range. *)
Lemma range_columns_in_bounds cols i unpacked s :
  (forall s v f, step s v f <> Panic IndexOutOfRange) ->
  (i + length cols <= length unpacked)%nat ->
  range_columns step cols i unpacked s <> Panic IndexOutOfRange.
Proof.
  intros Hstep. revert i s. induction cols as [|v rest IH]; intros i s Hlen.
  - discriminate.
  - simpl in *. destruct (unpacked !! i) as [f|] eqn:Hf.
    + assert (S i + length rest <= length unpacked)%nat as Hlen' by lia.
      destruct (is_nil f); [apply IH; exact Hlen'|].
      destruct (step s v f) as [s'|e|p] eqn:E; simpl.
      * apply IH; exact Hlen'.
      * discriminate.
      * intros [= ->]. exact (Hstep _ _ _ E).
    + apply lookup_ge_None in Hf. lia.
Qed.

(** With fewer values than columns the loop never runs through. *)
Lemma range_columns_short cols i unpacked s :
  (i <= length unpacked < i + length cols)%nat ->
  is_Ok (range_columns step cols i unpacked s) = false.
Proof.
  revert i s. induction cols as [|v rest IH]; intros i s Hlen.
  - simpl in Hlen. lia.
  - simpl in *. destruct (unpacked !! i) as [f|] eqn:Hf; [|reflexivity].
    apply lookup_lt_Some in Hf.
    assert (S i <= length unpacked < S i + length rest)%nat as Hlen' by lia.
    destruct (is_nil f); [apply IH; exact Hlen'|].
    destruct (step s v f); simpl; [apply IH; exact Hlen'|reflexivity..].
Qed.

(** The column right after the last value is an access out of range. *)
Lemma range_columns_out_of_range pre v post unpacked s s' :
  length pre = length unpacked ->
  range_columns step pre 0 unpacked s = Ok s' ->
  range_columns step (pre ++ v :: post) 0 unpacked s = Panic IndexOutOfRange.
Proof.
  intros Hlen Hpre. rewrite range_columns_app, Hpre. simpl.
  rewrite Hlen, lookup_ge_None_2; [reflexivity|lia].
Qed.

(** The column where the body of the switch first fails decides the
    result, whatever follows. *)
Lemma range_columns_first_failure pre v post unpacked s s' f :
  range_columns step pre 0 unpacked s = Ok s' ->
  unpacked !! length pre = Some f ->
  is_nil f = false ->
  is_Ok (step s' v f) = false ->
  range_columns step (pre ++ v :: post) 0 unpacked s
  = let* _ := step s' v f in Ok s'.
Proof.
  intros Hpre Hf Hnil Hfail. rewrite range_columns_app, Hpre. simpl.
  rewrite Hf, Hnil. destruct (step s' v f); [discriminate|reflexivity..].
Qed.

(** A position holding [null] contributes nothing: the loop behaves as if
    the column and its value were not there. *)
Lemma range_columns_null pre v post upre upost s :
  length pre = length upre ->
  range_columns step (pre ++ v :: post) 0 (upre ++ JNull :: upost) s
  = range_columns step (pre ++ post) 0 (upre ++ upost) s.
Proof.
  revert upre s. induction pre as [|c pre IH]; intros [|f upre] s Hlen;
    try discriminate.
  - rewrite !app_nil_l, range_columns_cons. reflexivity.
  - rewrite <- !app_comm_cons, !range_columns_cons.
    injection Hlen as Hlen.
    destruct (is_nil f); [apply IH; exact Hlen|].
    destruct (step s c f); simpl; [apply IH; exact Hlen|reflexivity..].
Qed.

(** A row of nulls leaves the scratch record as it is. *)
Lemma range_columns_all_null cols i unpacked s :
  (i + length cols <= length unpacked)%nat ->
  (forall j f, (i <= j < i + length cols)%nat -> unpacked !! j = Some f -> f = JNull) ->
  range_columns step cols i unpacked s = Ok s.
Proof.
  revert i. induction cols as [|v rest IH]; intros i Hlen Hnull.
  - reflexivity.
  - simpl in *. destruct (unpacked !! i) as [f|] eqn:Hf.
    + rewrite (Hnull i f) by (lia || assumption). simpl.
      apply IH; [lia|]. intros j g Hj. apply Hnull. lia.
    + apply lookup_ge_None in Hf. lia.
Qed.

(** A field that only column [name] assigns is left alone by a loop in
    which every position of [name] holds [null]. *)
Lemma range_columns_null_field {A : Type} (F : R -> A) (name : string)
    cols i unpacked s r :
  (forall s v f s', v <> name -> step s v f = Ok s' -> F s' = F s) ->
  (forall j, cols !! j = Some name -> unpacked !! (i + j)%nat = Some JNull) ->
  range_columns step cols i unpacked s = Ok r ->
  F r = F s.
Proof.
  intros Hstep. revert i s. induction cols as [|v rest IH]; intros i s Hnull.
  - simpl. intros [= <-]. reflexivity.
  - simpl. destruct (unpacked !! i) as [f|] eqn:Hf; [|discriminate].
    assert (forall j, rest !! j = Some name ->
                      unpacked !! (S i + j)%nat = Some JNull) as Hrest.
    { intros j Hj. replace (S i + j)%nat with (i + S j)%nat by lia.
      apply Hnull. exact Hj. }
    destruct (is_nil f) eqn:Hnil; [apply IH; exact Hrest|].
    assert (v <> name) as Hv.
    { intros ->. specialize (Hnull 0%nat eq_refl).
      rewrite Nat.add_0_r, Hf in Hnull. injection Hnull as ->. discriminate. }
    destruct (step s v f) as [s'| |] eqn:E; simpl; [|discriminate..].
    intros Hr. rewrite (IH _ _ Hrest Hr). exact (Hstep _ _ _ _ Hv E).
Qed.

End ColumnsFacts.

(** ** The bodies of the two switches *)

(** Case analysis along the chain of column names of a switch. *)
Ltac switch_cases :=
  lazymatch goal with
  | |- context [if String.eqb ?v ?name then _ else _] =>
      destruct (String.eqb_spec v name) as [->|?];
      [cbv beta iota | switch_cases]
  | _ => idtac
  end.

(** Case analysis on the results of the calls made by one case. *)
Ltac run_calls :=
  unfold parse_Number, parse_string, as_Number, as_string, try, bind;
  repeat match goal with
  | |- context [match ?x with _ => _ end] =>
      lazymatch x with
      | context [match _ with _ => _ end] => fail
      | _ => destruct x eqn:?
      end
  end.

(** A field that only some columns assign is left alone by the others. *)
Ltac frame Hv :=
  switch_cases; try (contradict Hv; reflexivity);
  clear; run_calls; intros; simplify_eq; reflexivity.

Section OpFacts.
Context {C : Collaborators}.

Lemma decode_bigmap_event_no_panic o op v :
  panic_of (Op.decode_bigmap_event o op v) = None.
Proof.
  unfold Op.decode_bigmap_event.
  destruct (Op.bigmaps o !! BigmapEvent_Id v);
    destruct (BigmapEvent_Action v); simpl; try reflexivity;
    destruct (Type_IsValid _); simpl; try reflexivity;
    destruct (Value_Map _ _ _); reflexivity.
Qed.

Lemma decode_bigmap_events_no_panic o op bmd :
  panic_of (Op.decode_bigmap_events o op bmd) = None.
Proof.
  induction bmd as [|v rest IH]; [reflexivity|].
  simpl. pose proof (decode_bigmap_event_no_panic o op v) as Hv.
  destruct (Op.decode_bigmap_event o op v); simpl; [|reflexivity|exact Hv].
  destruct (Op.decode_bigmap_events o op rest); simpl; [reflexivity..|exact IH].
Qed.

(** The operation switch only panics on a failed type assertion. *)
Lemma Op_decode_column_panic o op v f p :
  Op.decode_column o op v f = Panic p -> p = TypeAssertion.
Proof.
  unfold Op.decode_column. switch_cases.
  all: unfold parse_Number, parse_string, as_Number, as_string, try, bind.
  all: destruct f; try congruence.
  all: repeat match goal with
       | |- context [match ?x with _ => _ end] =>
           lazymatch x with
           | context [match _ with _ => _ end] => fail
           | Op.decode_bigmap_events _ _ _ => fail
           | _ => destruct x eqn:?
           end
       end; try congruence.
  all: pose proof (decode_bigmap_events_no_panic o op l) as Hn;
       destruct (Op.decode_bigmap_events o op l); simpl in Hn; congruence.
Qed.

(** A value of the wrong kind fails the type assertion of its column. *)
Lemma Op_decode_column_wrong_kind o op v f :
  wrong_kind Op.number_columns Op.string_columns v f = true ->
  Op.decode_column o op v f = Panic TypeAssertion.
Proof.
  unfold wrong_kind. intros H.
  apply andb_true_iff in H as [_ H].
  apply orb_true_iff in H as [H|H]; apply andb_true_iff in H as [Hv Hf];
    apply existsb_exists in Hv as (name & Hin & Hname);
    apply String.eqb_eq in Hname; subst name;
    simpl in Hin; intuition subst; destruct f; try discriminate; reflexivity.
Qed.

Lemma Op_decode_column_Hash o op v f op' :
  v <> "hash" ->
  Op.decode_column o op v f = Ok op' -> Op.Hash op' = Op.Hash op.
Proof. unfold Op.decode_column. intros Hv. frame Hv. Qed.

Lemma Op_decode_column_Receiver o op v f op' :
  v <> "receiver" ->
  Op.decode_column o op v f = Ok op' -> Op.Receiver op' = Op.Receiver op.
Proof. unfold Op.decode_column. intros Hv. frame Hv. Qed.

Lemma Op_decode_column_Height o op v f op' :
  v <> "height" ->
  Op.decode_column o op v f = Ok op' -> Op.Height op' = Op.Height op.
Proof. unfold Op.decode_column. intros Hv. frame Hv. Qed.

Lemma Op_decode_column_Timestamp o op v f op' :
  v <> "time" ->
  Op.decode_column o op v f = Ok op' -> Op.Timestamp op' = Op.Timestamp op.
Proof. unfold Op.decode_column. intros Hv. frame Hv. Qed.

Lemma Op_decode_column_BigmapDiff o op v f op' :
  v <> "big_map_diff" ->
  Op.decode_column o op v f = Ok op' -> Op.BigmapDiff op' = Op.BigmapDiff op.
Proof. unfold Op.decode_column. intros Hv. frame Hv. Qed.

End OpFacts.

Section BlockFacts.
Context {C : Collaborators}.

(** The block switch only panics on a failed type assertion. *)
Lemma Block_decode_column_panic block v f p :
  Block.decode_column block v f = Panic p -> p = TypeAssertion.
Proof.
  unfold Block.decode_column. switch_cases.
  all: run_calls; congruence.
Qed.

Lemma Block_decode_column_wrong_kind block v f :
  wrong_kind Block.number_columns Block.string_columns v f = true ->
  Block.decode_column block v f = Panic TypeAssertion.
Proof.
  unfold wrong_kind. intros H.
  apply andb_true_iff in H as [_ H].
  apply orb_true_iff in H as [H|H]; apply andb_true_iff in H as [Hv Hf];
    apply existsb_exists in Hv as (name & Hin & Hname);
    apply String.eqb_eq in Hname; subst name;
    simpl in Hin; intuition subst; destruct f; try discriminate; reflexivity.
Qed.

Lemma Block_decode_column_Hash block v f block' :
  v <> "hash" ->
  Block.decode_column block v f = Ok block' -> Block.Hash block' = Block.Hash block.
Proof. unfold Block.decode_column. intros Hv. frame Hv. Qed.

End BlockFacts.

(** ** Short payloads *)

(** C10. For an input that is empty, the literal [null], or exactly two
    bytes long (whatever the two bytes are), [Op.UnmarshalJSON] and
    [Block.UnmarshalJSON] return a nil error and leave the receiver, every
    field of it, as it was. *)
Theorem UnmarshalJSON_short_payload
    {C : Collaborators} {OFo : ObjectForm Op.t} {OFb : ObjectForm Block.t}
    (o : Op.t) (b : Block.t) (data : string) :
  String.length data = 0%nat \/ data = "null" \/ String.length data = 2%nat ->
  Op.UnmarshalJSON o data = (o, Ok tt)
  /\ Block.UnmarshalJSON b data = (b, Ok tt).
Proof.
  intros H. unfold Op.UnmarshalJSON, Block.UnmarshalJSON.
  destruct H as [H|[->|H]].
  - rewrite H. split; reflexivity.
  - split; reflexivity.
  - rewrite H. simpl. destruct (String.eqb data "null"); split; reflexivity.
Qed.

(** ** All-or-nothing row decoding *)

(** C4. A columnar row decode that does not return a nil error leaves the
    target record exactly as it was, and the first column whose parse fails
    aborts the row: its error is what the caller gets, whatever the
    columns after it hold. *)
Theorem UnmarshalJSONBrief_all_or_nothing {C : Collaborators} :
  (forall (o : Op.t) data,
     snd (Op.UnmarshalJSONBrief o data) <> Ok tt ->
     fst (Op.UnmarshalJSONBrief o data) = o)
  /\ (forall (o : Op.t) data unpacked pre v post scratch f err,
        json_Decode data = inr unpacked ->
        Op.columns o = (pre ++ v :: post)%list ->
        range_columns (Op.decode_column o) pre 0 unpacked Op.zero = Ok scratch ->
        unpacked !! length pre = Some f ->
        is_nil f = false ->
        Op.decode_column o scratch v f = Err err ->
        Op.UnmarshalJSONBrief o data = (o, Err err))
  /\ (forall (b : Block.t) data,
        snd (Block.UnmarshalJSONBrief b data) <> Ok tt ->
        fst (Block.UnmarshalJSONBrief b data) = b)
  /\ (forall (b : Block.t) data unpacked pre v post scratch f err,
        json_Decode data = inr unpacked ->
        Block.columns b = (pre ++ v :: post)%list ->
        range_columns Block.decode_column pre 0 unpacked Block.zero = Ok scratch ->
        unpacked !! length pre = Some f ->
        is_nil f = false ->
        Block.decode_column scratch v f = Err err ->
        Block.UnmarshalJSONBrief b data = (b, Err err)).
Proof.
  repeat split.
  - intros o data. unfold Op.UnmarshalJSONBrief.
    destruct (json_Decode data); [reflexivity|].
    destruct (range_columns _ _ _ _ _) as [op| |]; simpl; [|reflexivity..].
    intros H. contradiction H. reflexivity.
  - intros o data unpacked pre v post scratch f err Hd Hc Hpre Hf Hnil Hv.
    unfold Op.UnmarshalJSONBrief. rewrite Hd, Hc.
    rewrite (range_columns_first_failure _ pre v post unpacked _ scratch f);
      try assumption; rewrite Hv; reflexivity.
  - intros b data. unfold Block.UnmarshalJSONBrief.
    destruct (json_Decode data); [reflexivity|].
    destruct (range_columns _ _ _ _ _) as [block| |]; simpl; [|reflexivity..].
    intros H. contradiction H. reflexivity.
  - intros b data unpacked pre v post scratch f err Hd Hc Hpre Hf Hnil Hv.
    unfold Block.UnmarshalJSONBrief. rewrite Hd, Hc.
    rewrite (range_columns_first_failure _ pre v post unpacked _ scratch f);
      try assumption; rewrite Hv; reflexivity.
Qed.

(** ** Null values *)

(** C7. A position whose value is JSON null is skipped silently, whatever
    its column: the row decodes exactly as the row without that column and
    value does, so the position assigns no field and produces no error.
    A field that only the columns named [v] assign keeps its zero value
    when every position of [v] holds null, and a row holding only nulls
    decodes without error into the zero record. *)
Theorem UnmarshalJSONBrief_null_skipped {C : Collaborators} :
  (forall (o : Op.t) data pre v post upre upost,
     json_Decode data = inr (upre ++ JNull :: upost)%list ->
     Op.columns o = (pre ++ v :: post)%list ->
     length pre = length upre ->
     Op.UnmarshalJSONBrief o data
     = commit o (range_columns (Op.decode_column o) (pre ++ post)%list 0
                   (upre ++ upost)%list Op.zero))
  /\ (forall (A : Type) (F : Op.t -> A) (o o' : Op.t) data unpacked v,
        json_Decode data = inr unpacked ->
        (forall op c f op',
           c <> v -> Op.decode_column o op c f = Ok op' -> F op' = F op) ->
        (forall i, Op.columns o !! i = Some v -> unpacked !! i = Some JNull) ->
        Op.UnmarshalJSONBrief o data = (o', Ok tt) ->
        F o' = F Op.zero)
  /\ (forall (o : Op.t) data unpacked,
        json_Decode data = inr unpacked ->
        (length (Op.columns o) <= length unpacked)%nat ->
        (forall f, In f unpacked -> f = JNull) ->
        Op.UnmarshalJSONBrief o data = (Op.zero, Ok tt))
  /\ (forall (b : Block.t) data pre v post upre upost,
        json_Decode data = inr (upre ++ JNull :: upost)%list ->
        Block.columns b = (pre ++ v :: post)%list ->
        length pre = length upre ->
        Block.UnmarshalJSONBrief b data
        = commit b (range_columns Block.decode_column (pre ++ post)%list 0
                      (upre ++ upost)%list Block.zero))
  /\ (forall (A : Type) (F : Block.t -> A) (b b' : Block.t) data unpacked v,
        json_Decode data = inr unpacked ->
        (forall block c f block',
           c <> v -> Block.decode_column block c f = Ok block' ->
           F block' = F block) ->
        (forall i, Block.columns b !! i = Some v -> unpacked !! i = Some JNull) ->
        Block.UnmarshalJSONBrief b data = (b', Ok tt) ->
        F b' = F Block.zero)
  /\ (forall (b : Block.t) data unpacked,
        json_Decode data = inr unpacked ->
        (length (Block.columns b) <= length unpacked)%nat ->
        (forall f, In f unpacked -> f = JNull) ->
        Block.UnmarshalJSONBrief b data = (Block.zero, Ok tt)).
Proof.
  split; [|split; [|split; [|split; [|split]]]].
  - intros o data pre v post upre upost Hd Hc Hlen.
    unfold Op.UnmarshalJSONBrief.
    rewrite Hd, Hc, range_columns_null by exact Hlen. reflexivity.
  - intros A F o o' data unpacked v Hd Hframe Hnull.
    unfold Op.UnmarshalJSONBrief. rewrite Hd.
    destruct (range_columns _ _ _ _ _) as [scratch| |] eqn:E; simpl;
      [|discriminate..].
    intros [= <-].
    apply (range_columns_null_field (Op.decode_column o) F v
             (Op.columns o) 0 unpacked Op.zero scratch); assumption.
  - intros o data unpacked Hd Hlen Hnull.
    unfold Op.UnmarshalJSONBrief. rewrite Hd, range_columns_all_null.
    + reflexivity.
    + simpl. lia.
    + intros j f _ Hf. apply Hnull. apply list_elem_of_In.
      exact (list_elem_of_lookup_2 _ _ _ Hf).
  - intros b data pre v post upre upost Hd Hc Hlen.
    unfold Block.UnmarshalJSONBrief.
    rewrite Hd, Hc, range_columns_null by exact Hlen. reflexivity.
  - intros A F b b' data unpacked v Hd Hframe Hnull.
    unfold Block.UnmarshalJSONBrief. rewrite Hd.
    destruct (range_columns _ _ _ _ _) as [scratch| |] eqn:E; simpl;
      [|discriminate..].
    intros [= <-].
    apply (range_columns_null_field Block.decode_column F v
             (Block.columns b) 0 unpacked Block.zero scratch); assumption.
  - intros b data unpacked Hd Hlen Hnull.
    unfold Block.UnmarshalJSONBrief. rewrite Hd, range_columns_all_null.
    + reflexivity.
    + simpl. lia.
    + intros j f _ Hf. apply Hnull. apply list_elem_of_In.
      exact (list_elem_of_lookup_2 _ _ _ Hf).
Qed.

(** ** Positional access *)

(** C8. Both columnar decoders read [unpacked[i]] for every column
    position [i] without a bounds check.  With at least as many values as
    columns no access is out of range; with fewer values than columns the
    decode never returns a nil error, and it panics with an index out of
    range as soon as the columns that do have a value went through.  So a
    decode that returns normally has [len(values) >= len(columns)]. *)
Theorem UnmarshalJSONBrief_positional_access {C : Collaborators} :
  (forall (o : Op.t) data unpacked,
     json_Decode data = inr unpacked ->
     ((length (Op.columns o) <= length unpacked)%nat ->
      snd (Op.UnmarshalJSONBrief o data) <> Panic IndexOutOfRange)
     /\ ((length unpacked < length (Op.columns o))%nat ->
         snd (Op.UnmarshalJSONBrief o data) <> Ok tt
         /\ forall scratch,
              range_columns (Op.decode_column o)
                (take (length unpacked) (Op.columns o)) 0 unpacked Op.zero
              = Ok scratch ->
              Op.UnmarshalJSONBrief o data = (o, Panic IndexOutOfRange)))
  /\ (forall (b : Block.t) data unpacked,
        json_Decode data = inr unpacked ->
        ((length (Block.columns b) <= length unpacked)%nat ->
         snd (Block.UnmarshalJSONBrief b data) <> Panic IndexOutOfRange)
        /\ ((length unpacked < length (Block.columns b))%nat ->
            snd (Block.UnmarshalJSONBrief b data) <> Ok tt
            /\ forall scratch,
                 range_columns Block.decode_column
                   (take (length unpacked) (Block.columns b)) 0 unpacked Block.zero
                 = Ok scratch ->
                 Block.UnmarshalJSONBrief b data = (b, Panic IndexOutOfRange))).
Proof.
  split.
  - intros o data unpacked Hd. unfold Op.UnmarshalJSONBrief. rewrite Hd.
    split; [intros Hlen|intros Hlen; split].
    + pose proof (range_columns_in_bounds (Op.decode_column o)
                    (Op.columns o) 0 unpacked Op.zero) as H.
      destruct (range_columns _ _ _ _ _) as [|e|p]; simpl; try discriminate.
      intros [= ->]. apply H; [|simpl; lia|reflexivity].
      intros s v f Hp. apply Op_decode_column_panic in Hp. discriminate.
    + pose proof (range_columns_short (Op.decode_column o)
                    (Op.columns o) 0 unpacked Op.zero) as H.
      destruct (range_columns _ _ _ _ _); simpl; try discriminate.
      discriminate H. simpl. lia.
    + intros scratch Hpre.
      rewrite <- (take_drop (length unpacked) (Op.columns o)) at 1.
      destruct (drop (length unpacked) (Op.columns o)) as [|v post] eqn:Hdrop.
      { apply (f_equal length) in Hdrop. rewrite length_drop in Hdrop.
        simpl in Hdrop. lia. }
      rewrite (range_columns_out_of_range _ _ v post unpacked _ scratch);
        [reflexivity| |exact Hpre].
      rewrite length_take. lia.
  - intros b data unpacked Hd. unfold Block.UnmarshalJSONBrief. rewrite Hd.
    split; [intros Hlen|intros Hlen; split].
    + pose proof (range_columns_in_bounds Block.decode_column
                    (Block.columns b) 0 unpacked Block.zero) as H.
      destruct (range_columns _ _ _ _ _) as [|e|p]; simpl; try discriminate.
      intros [= ->]. apply H; [|simpl; lia|reflexivity].
      intros s v f Hp. apply Block_decode_column_panic in Hp. discriminate.
    + pose proof (range_columns_short Block.decode_column
                    (Block.columns b) 0 unpacked Block.zero) as H.
      destruct (range_columns _ _ _ _ _); simpl; try discriminate.
      discriminate H. simpl. lia.
    + intros scratch Hpre.
      rewrite <- (take_drop (length unpacked) (Block.columns b)) at 1.
      destruct (drop (length unpacked) (Block.columns b)) as [|v post] eqn:Hdrop.
      { apply (f_equal length) in Hdrop. rewrite length_drop in Hdrop.
        simpl in Hdrop. lia. }
      rewrite (range_columns_out_of_range _ _ v post unpacked _ scratch);
        [reflexivity| |exact Hpre].
      rewrite length_take. lia.
Qed.

(** ** Values of the wrong JSON kind *)

(** C2, as the code has it.  A known column other than [data] and [errors]
    whose position holds a non-null value of the wrong JSON kind (a string,
    a boolean literal, an array or an object where the column is asserted
    to be a number; anything but a string where it is asserted to be a
    string) makes the decode panic on the unchecked type assertion, once
    the columns before it went through: no error is returned to the caller
    and the target is not assigned. *)
Theorem UnmarshalJSONBrief_wrong_kind_panics {C : Collaborators} :
  (forall (o : Op.t) data unpacked pre v post scratch f,
     json_Decode data = inr unpacked ->
     Op.columns o = (pre ++ v :: post)%list ->
     range_columns (Op.decode_column o) pre 0 unpacked Op.zero = Ok scratch ->
     unpacked !! length pre = Some f ->
     wrong_kind Op.number_columns Op.string_columns v f = true ->
     Op.UnmarshalJSONBrief o data = (o, Panic TypeAssertion))
  /\ (forall (b : Block.t) data unpacked pre v post scratch f,
        json_Decode data = inr unpacked ->
        Block.columns b = (pre ++ v :: post)%list ->
        range_columns Block.decode_column pre 0 unpacked Block.zero = Ok scratch ->
        unpacked !! length pre = Some f ->
        wrong_kind Block.number_columns Block.string_columns v f = true ->
        Block.UnmarshalJSONBrief b data = (b, Panic TypeAssertion)).
Proof.
  split.
  - intros o data unpacked pre v post scratch f Hd Hc Hpre Hf Hk.
    unfold Op.UnmarshalJSONBrief. rewrite Hd, Hc.
    pose proof (Op_decode_column_wrong_kind o scratch v f Hk) as Hv.
    apply andb_true_iff in Hk as [Hnil _]. apply negb_true_iff in Hnil.
    rewrite (range_columns_first_failure _ pre v post unpacked _ scratch f);
      try assumption; rewrite Hv; reflexivity.
  - intros b data unpacked pre v post scratch f Hd Hc Hpre Hf Hk.
    unfold Block.UnmarshalJSONBrief. rewrite Hd, Hc.
    pose proof (Block_decode_column_wrong_kind scratch v f Hk) as Hv.
    apply andb_true_iff in Hk as [Hnil _]. apply negb_true_iff in Hnil.
    rewrite (range_columns_first_failure _ pre v post unpacked _ scratch f);
      try assumption; rewrite Hv; reflexivity.
Qed.

(** ** Cursors *)

Section CursorFacts.
Context {C : Collaborators}.

Lemma last_child_nil (op : option Op.t) : Op.last_child [] op = op.
Proof. reflexivity. Qed.

Lemma last_child_snoc children child (op : option Op.t) :
  Op.last_child (children ++ [child]) op = child.
Proof. unfold Op.last_child. rewrite last_snoc. reflexivity. Qed.

End CursorFacts.

(** C1, as the code has it.  [OpList.Cursor] returns the sentinel 0 for an
    empty collection and otherwise the identifier of the last row itself:
    it does not look at the children of the row, and agrees with the
    deepest last child only for a last row without batch and internal
    operations.  The descent is [Op.Cursor]'s, on one operation: the last
    internal operation of the last batch item, else the last batch item,
    else the last internal operation of the operation, else the operation
    itself. *)
Theorem Cursor_of_last_row {C : Collaborators} :
  (forall l : OpList.t, OpList.Rows l = [] -> OpList.Cursor l = Ok 0)
  /\ (forall (l : OpList.t) rows row,
        OpList.Rows l = (rows ++ [Some row])%list ->
        OpList.Cursor l = Ok (Op.Id row))
  /\ (forall (l : OpList.t) rows row,
        OpList.Rows l = (rows ++ [Some row])%list ->
        Op.Batch row = [] -> Op.Internal row = [] ->
        OpList.Cursor l = Op.Cursor row)
  /\ (forall o : Op.t,
        Op.Batch o = [] -> Op.Internal o = [] -> Op.Cursor o = Ok (Op.Id o))
  /\ (forall (o : Op.t) internal child,
        Op.Batch o = [] -> Op.Internal o = (internal ++ [Some child])%list ->
        Op.Cursor o = Ok (Op.Id child))
  /\ (forall (o : Op.t) batch item,
        Op.Batch o = (batch ++ [Some item])%list -> Op.Internal item = [] ->
        Op.Cursor o = Ok (Op.Id item))
  /\ (forall (o : Op.t) batch item internal child,
        Op.Batch o = (batch ++ [Some item])%list ->
        Op.Internal item = (internal ++ [Some child])%list ->
        Op.Cursor o = Ok (Op.Id child)).
Proof.
  repeat split.
  - intros l H. unfold OpList.Cursor. rewrite H. reflexivity.
  - intros l rows row H. unfold OpList.Cursor. rewrite H, last_snoc. reflexivity.
  - intros l rows row H Hb Hi. unfold OpList.Cursor, Op.Cursor.
    rewrite H, last_snoc. simpl. rewrite Hb. simpl. rewrite Hi. reflexivity.
  - intros o Hb Hi. unfold Op.Cursor. simpl. rewrite Hb. simpl.
    rewrite Hi. reflexivity.
  - intros o internal child Hb Hi. unfold Op.Cursor. simpl. rewrite Hb. simpl.
    rewrite Hi, last_child_snoc. reflexivity.
  - intros o batch item Hb Hi. unfold Op.Cursor. simpl.
    rewrite Hb, last_child_snoc. simpl. rewrite Hi. reflexivity.
  - intros o batch item internal child Hb Hi. unfold Op.Cursor. simpl.
    rewrite Hb, last_child_snoc. simpl. rewrite Hi, last_child_snoc.
    reflexivity.
Qed.

(** ** Big-map updates *)

Section BigmapFacts.
Context {C : Collaborators}.

(** A field left alone by every column but [name] is left alone by a loop
    over columns other than [name]. *)
Lemma range_columns_frame {R A : Type} (step : R -> string -> json -> outcome R)
    (F : R -> A) (name : string) cols i unpacked s r :
  (forall s v f s', v <> name -> step s v f = Ok s' -> F s' = F s) ->
  ~ In name cols ->
  range_columns step cols i unpacked s = Ok r ->
  F r = F s.
Proof.
  intros Hstep. revert i s. induction cols as [|v rest IH]; intros i s Hin.
  - simpl. intros [= <-]. reflexivity.
  - simpl. destruct (unpacked !! i) as [f|]; [|discriminate].
    assert (v <> name /\ ~ In name rest) as [Hv Hrest].
    { split; intros H; apply Hin; [left|right]; assumption. }
    destruct (is_nil f); [apply IH; exact Hrest|].
    destruct (step s v f) as [s'| |] eqn:E; simpl; [|discriminate..].
    intros Hr. rewrite (IH _ _ Hrest Hr). exact (Hstep _ _ _ _ Hv E).
Qed.

Lemma decode_bigmap_events_Forall (P : BigmapUpdate.t -> Prop) o op bmd diff :
  (forall v u, Op.decode_bigmap_event o op v = Ok u -> P u) ->
  Op.decode_bigmap_events o op bmd = Ok diff ->
  Forall P diff.
Proof.
  intros HP. revert diff. induction bmd as [|v rest IH]; intros diff.
  - simpl. intros [= <-]. constructor.
  - simpl. destruct (Op.decode_bigmap_event o op v) as [u| |] eqn:E; simpl;
      [|discriminate..].
    destruct (Op.decode_bigmap_events o op rest) as [us| |]; simpl;
      [|discriminate..].
    intros [= <-]. constructor; [exact (HP _ _ E)|]. apply IH. reflexivity.
Qed.

(** The value of one decoded record. *)
Lemma decode_bigmap_event_Value o op v u :
  Type_IsValid Type_zero = false ->
  Op.decode_bigmap_event o op v = Ok u ->
  match BigmapUpdate.Action u with
  | DiffActionUpdate =>
      BigmapValue.Value (BigmapUpdate.BigmapValue_ u) <> None
      <-> exists typ, Op.bigmaps o !! BigmapUpdate.BigmapId u = Some typ
                      /\ Type_IsValid (Type_Right typ) = true
  | _ => BigmapValue.Value (BigmapUpdate.BigmapValue_ u) = None
  end.
Proof.
  intros Hz. unfold Op.decode_bigmap_event.
  destruct (Op.bigmaps o !! BigmapEvent_Id v) as [typ|] eqn:Hty;
    destruct (BigmapEvent_Action v) eqn:Ha; simpl.
  all: try (intros [= <-]; reflexivity).
  - destruct (Type_IsValid (Type_Right typ)) eqn:Hv; simpl.
    + destruct (Value_Map _ _ _); [discriminate|].
      intros [= <-]. simpl. split; [|discriminate].
      intros _. exists typ. split; [exact Hty|exact Hv].
    + intros [= <-]. simpl. split; [congruence|].
      intros (typ' & Hty' & Hv'). rewrite Hty in Hty'. congruence.
  - rewrite Hz. simpl. intros [= <-]. simpl.
    split; [congruence|]. intros (typ' & Hty' & _). rewrite Hty in Hty'.
    discriminate.
Qed.

(** The provenance of one decoded update or remove record. *)
Lemma decode_bigmap_event_Meta o op v u :
  Op.decode_bigmap_event o op v = Ok u ->
  BigmapUpdate.Action u = DiffActionUpdate
  \/ BigmapUpdate.Action u = DiffActionRemove ->
  BigmapValue.Meta (BigmapUpdate.BigmapValue_ u)
  = if Op.withMeta o then
      Some {| BigmapMeta.Contract := Op.Receiver op;
              BigmapMeta.BigmapId := BigmapUpdate.BigmapId u;
              BigmapMeta.UpdateTime := Op.Timestamp op;
              BigmapMeta.UpdateHeight := Op.Height op |}
    else None.
Proof.
  unfold Op.decode_bigmap_event.
  destruct (Op.bigmaps o !! BigmapEvent_Id v) as [typ|];
    destruct (BigmapEvent_Action v) eqn:Ha; simpl.
  all: try (intros [= <-]; simpl; intros [|]; (discriminate || reflexivity)).
  all: destruct (Type_IsValid _); simpl;
       [destruct (Value_Map _ _ _); [discriminate|] |];
       intros [= <-]; reflexivity.
Qed.

(** What the [big_map_diff] column does to the scratch record. *)
Lemma Op_decode_column_big_map_diff o op f op' :
  Op.decode_column o op "big_map_diff" f = Ok op' ->
  op' = op
  \/ exists bmd diff,
       Op.decode_bigmap_events o op bmd = Ok diff
       /\ Op.BigmapDiff op' = diff.
Proof.
  unfold Op.decode_column. cbv beta iota delta [String.eqb Ascii.eqb Bool.eqb].
  unfold as_string, try, bind. destruct f; try discriminate.
  destruct (hex_DecodeString s) as [|buf]; [discriminate|].
  destruct (Op.is_empty buf); [intros [= <-]; left; reflexivity|].
  destruct (BigmapEvents_UnmarshalBinary buf) as [|bmd]; [discriminate|].
  destruct (Op.decode_bigmap_events o op bmd) as [diff| |] eqn:E;
    [|discriminate..].
  intros [= <-]. right. exists bmd, diff. split; [exact E|reflexivity].
Qed.

(** Every column keeps a property of the records of [BigmapDiff] that the
    decoded events have. *)
Lemma Op_decode_column_BigmapDiff_Forall (P : Op.t -> BigmapUpdate.t -> Prop)
    o op v f op' :
  (forall op v u, Op.decode_bigmap_event o op v = Ok u -> P op u) ->
  Op.decode_column o op v f = Ok op' ->
  Op.BigmapDiff op' = Op.BigmapDiff op
  \/ Forall (P op) (Op.BigmapDiff op').
Proof.
  intros HP H. destruct (String.eqb_spec v "big_map_diff") as [->|Hv].
  - apply Op_decode_column_big_map_diff in H as [->|(bmd & diff & E & ->)].
    + left. reflexivity.
    + right. apply (decode_bigmap_events_Forall _ o op bmd); [|exact E].
      apply HP.
  - left. exact (Op_decode_column_BigmapDiff o op v f op' Hv H).
Qed.

End BigmapFacts.

(** C5. In a decoded operation row, an alloc or copy record of
    [BigmapDiff] never carries a decoded value, a remove record never does
    either, and an update record carries one if and only if the big-map's
    value type is resolvable from the schema: the big-map id is in the
    table of the script types and the value side of its type is valid.
    (The zero [micheline.Type] is not a valid type.) *)
Theorem BigmapDiff_value_iff_resolvable {C : Collaborators}
    (o o' : Op.t) (data : string) :
  Type_IsValid Type_zero = false ->
  Op.UnmarshalJSONBrief o data = (o', Ok tt) ->
  forall u, In u (Op.BigmapDiff o') ->
    match BigmapUpdate.Action u with
    | DiffActionUpdate =>
        BigmapValue.Value (BigmapUpdate.BigmapValue_ u) <> None
        <-> exists typ, Op.bigmaps o !! BigmapUpdate.BigmapId u = Some typ
                        /\ Type_IsValid (Type_Right typ) = true
    | DiffActionRemove | DiffActionCopy | DiffActionAlloc =>
        BigmapValue.Value (BigmapUpdate.BigmapValue_ u) = None
    end.
Proof.
  intros Hz. unfold Op.UnmarshalJSONBrief.
  destruct (json_Decode data) as [|unpacked]; [discriminate|].
  destruct (range_columns _ _ _ _ _) as [scratch| |] eqn:E; simpl;
    [|discriminate..].
  intros [= <-] u Hu.
  set (P := fun u : BigmapUpdate.t =>
    match BigmapUpdate.Action u with
    | DiffActionUpdate =>
        BigmapValue.Value (BigmapUpdate.BigmapValue_ u) <> None
        <-> exists typ, Op.bigmaps o !! BigmapUpdate.BigmapId u = Some typ
                        /\ Type_IsValid (Type_Right typ) = true
    | _ => BigmapValue.Value (BigmapUpdate.BigmapValue_ u) = None
    end).
  assert (Forall P (Op.BigmapDiff scratch)) as HF.
  { apply (range_columns_invariant (Op.decode_column o)
             (fun s => Forall P (Op.BigmapDiff s)) _ _ _ _ _) with (3 := E).
    - intros s v f s' Hs Hstep.
      destruct (Op_decode_column_BigmapDiff_Forall (fun _ => P) o s v f s')
        as [->|H]; try assumption.
      intros op0 v0 u0. apply decode_bigmap_event_Value. exact Hz.
    - constructor. }
  rewrite Forall_forall in HF. apply list_elem_of_In in Hu.
  specialize (HF u Hu). unfold P in HF.
  destruct (BigmapUpdate.Action u); exact HF.
Qed.

(** C9. With provenance requested, the metadata of every update and
    remove record takes [Receiver], [Height] and [Timestamp] from the
    scratch record as the columns before [big_map_diff] left it.  For a
    column list where [receiver] (or [height], or [time]) does not appear
    before [big_map_diff], the metadata holds the zero value of that
    field, whatever the row holds for it further on. *)
Theorem BigmapDiff_meta_from_scratch {C : Collaborators}
    (o o' : Op.t) (data : string) (unpacked : list json)
    (pre post : list string) :
  Op.withMeta o = true ->
  json_Decode data = inr unpacked ->
  Op.columns o = (pre ++ "big_map_diff" :: post)%list ->
  ~ In "big_map_diff" pre ->
  ~ In "big_map_diff" post ->
  Op.UnmarshalJSONBrief o data = (o', Ok tt) ->
  exists scratch,
    range_columns (Op.decode_column o) pre 0 unpacked Op.zero = Ok scratch
    /\ (forall u, In u (Op.BigmapDiff o') ->
          BigmapUpdate.Action u = DiffActionUpdate
          \/ BigmapUpdate.Action u = DiffActionRemove ->
          BigmapValue.Meta (BigmapUpdate.BigmapValue_ u)
          = Some {| BigmapMeta.Contract := Op.Receiver scratch;
                    BigmapMeta.BigmapId := BigmapUpdate.BigmapId u;
                    BigmapMeta.UpdateTime := Op.Timestamp scratch;
                    BigmapMeta.UpdateHeight := Op.Height scratch |})
    /\ (~ In "receiver" pre -> Op.Receiver scratch = Address_zero)
    /\ (~ In "height" pre -> Op.Height scratch = 0)
    /\ (~ In "time" pre -> Op.Timestamp scratch = ZeroTime).
Proof.
  intros Hmeta Hd Hc Hpre Hpost. unfold Op.UnmarshalJSONBrief.
  rewrite Hd, Hc, range_columns_app.
  destruct (range_columns (Op.decode_column o) pre 0 unpacked Op.zero)
    as [scratch| |] eqn:Epre; simpl; [|discriminate..].
  destruct (unpacked !! length pre) as [f|]; [|discriminate].
  intros H. exists scratch. split; [reflexivity|].
  assert (Op.BigmapDiff scratch = []) as Hnil.
  { apply (range_columns_frame (Op.decode_column o) Op.BigmapDiff
             "big_map_diff" pre 0 unpacked Op.zero scratch); try assumption.
    intros s v g s' Hv. apply Op_decode_column_BigmapDiff. exact Hv. }
  split; [|split; [|split]].
  - assert (exists after,
              range_columns (Op.decode_column o) post (S (length pre))
                unpacked after = Ok o'
              /\ Forall (fun u =>
                   BigmapUpdate.Action u = DiffActionUpdate
                   \/ BigmapUpdate.Action u = DiffActionRemove ->
                   BigmapValue.Meta (BigmapUpdate.BigmapValue_ u)
                   = Some {| BigmapMeta.Contract := Op.Receiver scratch;
                             BigmapMeta.BigmapId := BigmapUpdate.BigmapId u;
                             BigmapMeta.UpdateTime := Op.Timestamp scratch;
                             BigmapMeta.UpdateHeight := Op.Height scratch |})
                   (Op.BigmapDiff after)) as (after & Hafter & HF).
    { destruct (is_nil f).
      - exists scratch. destruct (range_columns _ post _ _ _); simpl in H;
          try discriminate. injection H as <-.
        split; [reflexivity|]. rewrite Hnil. constructor.
      - destruct (Op.decode_column o scratch "big_map_diff" f)
          as [after| |] eqn:Estep; simpl in H; try discriminate.
        exists after.
        destruct (range_columns _ post _ _ _); simpl in H; try discriminate.
        injection H as <-. split; [reflexivity|].
        apply Op_decode_column_big_map_diff in Estep
          as [->|(bmd & diff & E & ->)].
        + rewrite Hnil. constructor.
        + apply (decode_bigmap_events_Forall _ o scratch bmd); [|exact E].
          intros v u Hu Ha.
          rewrite (decode_bigmap_event_Meta o scratch v u Hu Ha), Hmeta.
          reflexivity. }
    assert (Op.BigmapDiff o' = Op.BigmapDiff after) as ->.
    { apply (range_columns_frame (Op.decode_column o) Op.BigmapDiff
               "big_map_diff" post (S (length pre)) unpacked after o');
        try assumption.
      intros s v g s' Hv. apply Op_decode_column_BigmapDiff. exact Hv. }
    intros u Hu. rewrite Forall_forall in HF. apply HF.
    apply list_elem_of_In. exact Hu.
  - intros Hin.
    apply (range_columns_frame (Op.decode_column o) Op.Receiver
             "receiver" pre 0 unpacked Op.zero scratch); try assumption.
    intros s v g s' Hv. apply Op_decode_column_Receiver. exact Hv.
  - intros Hin.
    apply (range_columns_frame (Op.decode_column o) Op.Height
             "height" pre 0 unpacked Op.zero scratch); try assumption.
    intros s v g s' Hv. apply Op_decode_column_Height. exact Hv.
  - intros Hin.
    apply (range_columns_frame (Op.decode_column o) Op.Timestamp
             "time" pre 0 unpacked Op.zero scratch); try assumption.
    intros s v g s' Hv. apply Op_decode_column_Timestamp. exact Hv.
Qed.

(** ** Batches *)

Section BatchFacts.
Context {C : Collaborators} {OFo : ObjectForm Op.t} {OFb : ObjectForm Block.t}.

Lemma OpList_range_rows_ok (l : OpList.t) array :
  OpList.all_rows_decode l array ->
  exists rows,
    snd (OpList.range_rows l array) = Ok tt
    /\ OpList.Rows (fst (OpList.range_rows l array))
       = (OpList.Rows l ++ rows)%list
    /\ length rows = length array
    /\ forall i v, array !! i = Some v ->
         exists op,
           rows !! i = Some (Some op)
           /\ snd (OpList.row_record
                     (fst (OpList.range_rows l (take i array))) v) = Ok op.
Proof.
  revert l. induction array as [|v rest IH]; intros l.
  - intros _. exists []. simpl. rewrite app_nil_r.
    repeat split. intros i v H. rewrite lookup_nil in H. discriminate.
  - simpl. intros [Hv Hrest].
    destruct (OpList.decode_row l v) as [l1 r] eqn:Edec.
    simpl in Hv, Hrest. subst r.
    assert (exists op, snd (OpList.row_record l v) = Ok op
                       /\ OpList.Rows l1 = (OpList.Rows l ++ [Some op])%list)
      as (op & Hop & Hl1).
    { unfold OpList.decode_row in Edec.
      destruct (OpList.row_record l v) as [client' [op| |]];
        try discriminate.
      injection Edec as <-. exists op. split; reflexivity. }
    destruct (IH _ Hrest) as (rows & Hok & Hrows & Hlen & Hnth).
    exists (Some op :: rows). split; [exact Hok|]. split; [|split].
    + rewrite Hrows, Hl1, <- app_assoc. reflexivity.
    + simpl. rewrite Hlen. reflexivity.
    + intros [|i] w Hw; simpl in Hw.
      * injection Hw as <-. exists op. split; [reflexivity|exact Hop].
      * destruct (Hnth i w Hw) as (op' & Hop' & Hrec).
        exists op'. split; [exact Hop'|]. simpl. rewrite Edec. exact Hrec.
Qed.

Lemma BlockList_range_rows_ok (l : BlockList.t) array :
  Forall (fun v => is_Ok (BlockList.row_record l v) = true) array ->
  exists rows,
    BlockList.range_rows l array
    = (BlockList.set_Rows (BlockList.Rows l ++ rows) l, Ok tt)
    /\ Forall2 (fun v row => exists r,
                  BlockList.row_record l v = Ok r /\ row = Some r) array rows.
Proof.
  revert l. induction array as [|v rest IH]; intros l.
  - intros _. exists []. simpl. rewrite app_nil_r. destruct l.
    split; [reflexivity|constructor].
  - intros H. apply Forall_cons in H as [Hv Hrest].
    simpl. unfold BlockList.decode_row.
    destruct (BlockList.row_record l v) as [r| |] eqn:Erow; try discriminate.
    assert (forall w, BlockList.row_record
                        (BlockList.set_Rows (BlockList.Rows l ++ [Some r]) l) w
                      = BlockList.row_record l w) as Hsame by reflexivity.
    destruct (IH (BlockList.set_Rows (BlockList.Rows l ++ [Some r]) l))
      as (rows & Hrange & Hall).
    { eapply Forall_impl; [exact Hrest|]. intros w Hw. rewrite Hsame. exact Hw. }
    exists (Some r :: rows). split.
    + rewrite Hrange. simpl. rewrite <- app_assoc. reflexivity.
    + constructor; [exists r; split; [exact Erow|reflexivity]|].
      eapply Forall2_impl; [exact Hall|]. intros w row (r' & Hr' & ->).
      exists r'. split; [|reflexivity]. rewrite <- Hsame. exact Hr'.
Qed.

End BatchFacts.

(** C6. A batch of N columnar rows, N >= 0, in which every row decodes
    appends exactly N records to the collection, the i-th of them being
    the record decoded from the i-th row: for operation lists (each row
    decoded with the client as the rows before it left it) and for block
    lists. *)
Theorem UnmarshalJSON_batch_in_order
    {C : Collaborators} {OFo : ObjectForm Op.t} {OFb : ObjectForm Block.t} :
  (forall (l : OpList.t) data array,
     String.length data <> 0%nat -> data <> "null" ->
     starts_with "[" data = true ->
     json_Unmarshal_RawMessages data = inr array ->
     OpList.all_rows_decode l array ->
     exists rows,
       snd (OpList.UnmarshalJSON l data) = Ok tt
       /\ OpList.Rows (fst (OpList.UnmarshalJSON l data))
          = (OpList.Rows l ++ rows)%list
       /\ length rows = length array
       /\ forall i v, array !! i = Some v ->
            exists op,
              rows !! i = Some (Some op)
              /\ snd (OpList.row_record
                        (fst (OpList.range_rows l (take i array))) v) = Ok op)
  /\ (forall (l : BlockList.t) data array,
        String.length data <> 0%nat -> data <> "null" ->
        starts_with "[" data = true ->
        json_Unmarshal_RawMessages data = inr array ->
        Forall (fun v => is_Ok (BlockList.row_record l v) = true) array ->
        exists rows,
          BlockList.UnmarshalJSON l data
          = (BlockList.set_Rows (BlockList.Rows l ++ rows) l, Ok tt)
          /\ length rows = length array
          /\ forall i v, array !! i = Some v ->
               exists r,
                 rows !! i = Some (Some r)
                 /\ BlockList.row_record l v = Ok r).
Proof.
  split.
  - intros l data array Hlen Hnull Hstart Harray Hall.
    unfold OpList.UnmarshalJSON.
    apply Nat.eqb_neq in Hlen. apply String.eqb_neq in Hnull.
    rewrite Hlen, Hnull, Hstart, Harray. simpl.
    apply OpList_range_rows_ok. exact Hall.
  - intros l data array Hlen Hnull Hstart Harray Hall.
    unfold BlockList.UnmarshalJSON.
    apply Nat.eqb_neq in Hlen. apply String.eqb_neq in Hnull.
    rewrite Hlen, Hnull, Hstart, Harray. simpl.
    destruct (BlockList_range_rows_ok l array Hall) as (rows & Hrange & HF).
    exists rows. split; [exact Hrange|]. split.
    + symmetry. exact (Forall2_length _ _ _ HF).
    + intros i v Hv.
      destruct (Forall2_lookup_l _ _ _ _ _ HF Hv) as (row & Hrow & r & Hr & ->).
      exists r. split; assumption.
Qed.

(** ** Contract schema lookup *)

Section SchemaFacts.
Context {C : Collaborators}.

Lemma Op_decode_column_Storage o op v f op' :
  v <> "storage" ->
  Op.decode_column o op v f = Ok op' -> Op.Storage op' = Op.Storage op.
Proof. unfold Op.decode_column. intros Hv. frame Hv. Qed.



End SchemaFacts.


(** * Further properties of the decoders *)

(** ** Unknown columns *)

Section SkipFacts.
Context {R : Type} (step : R -> string -> json -> outcome R).

(** A column whose case leaves every scratch record as it is contributes
    nothing, whatever its value: the loop behaves as if the column and its
    value were not there. *)
Lemma range_columns_skip pre v post upre f upost s :
  (forall s', step s' v f = Ok s') ->
  length pre = length upre ->
  range_columns step (pre ++ v :: post) 0 (upre ++ f :: upost) s
  = range_columns step (pre ++ post) 0 (upre ++ upost) s.
Proof.
  intros Hskip. revert upre s.
  induction pre as [|c pre IH]; intros [|g upre] s Hlen; try discriminate.
  - rewrite !app_nil_l, range_columns_cons, Hskip.
    destruct (is_nil f); reflexivity.
  - rewrite <- !app_comm_cons, !range_columns_cons.
    injection Hlen as Hlen.
    destruct (is_nil g); [apply IH; exact Hlen|].
    destruct (step s c g); simpl; [apply IH; exact Hlen|reflexivity..].
Qed.

End SkipFacts.

Lemma In_existsb (v : string) (l : list string) :
  existsb (String.eqb v) l = true -> In v l.
Proof.
  intros H. apply existsb_exists in H as (x & Hx & Heq).
  apply String.eqb_eq in Heq. subst x. exact Hx.
Qed.

Lemma not_In_existsb (v : string) (l : list string) :
  existsb (String.eqb v) l = false -> ~ In v l.
Proof.
  intros H Hin. assert (existsb (String.eqb v) l = true) as Ht.
  { apply existsb_exists. exists v. split; [exact Hin|apply String.eqb_refl]. }
  congruence.
Qed.

Section UnknownFacts.
Context {C : Collaborators}.

Lemma Op_decode_column_unknown o op v f :
  ~ In v Op.known_columns -> Op.decode_column o op v f = Ok op.
Proof.
  intros Hv. unfold Op.decode_column. switch_cases;
    solve [reflexivity | exfalso; apply Hv, In_existsb; reflexivity].
Qed.

Lemma Block_decode_column_unknown block v f :
  ~ In v Block.known_columns -> Block.decode_column block v f = Ok block.
Proof.
  intros Hv. unfold Block.decode_column. switch_cases;
    solve [reflexivity | exfalso; apply Hv, In_existsb; reflexivity].
Qed.

End UnknownFacts.

(** X1. A column name that has no case in the switch is ignored without
    error, whatever value its position holds (a value of any JSON kind):
    the row decodes exactly as the row without that column and value, for
    operations and for blocks. *)
Theorem UnmarshalJSONBrief_unknown_column_ignored {C : Collaborators} :
  (forall (o : Op.t) data pre v post upre f upost,
     json_Decode data = inr (upre ++ f :: upost)%list ->
     Op.columns o = (pre ++ v :: post)%list ->
     length pre = length upre ->
     ~ In v Op.known_columns ->
     Op.UnmarshalJSONBrief o data
     = commit o (range_columns (Op.decode_column o) (pre ++ post)%list 0
                   (upre ++ upost)%list Op.zero))
  /\ (forall (b : Block.t) data pre v post upre f upost,
        json_Decode data = inr (upre ++ f :: upost)%list ->
        Block.columns b = (pre ++ v :: post)%list ->
        length pre = length upre ->
        ~ In v Block.known_columns ->
        Block.UnmarshalJSONBrief b data
        = commit b (range_columns Block.decode_column (pre ++ post)%list 0
                      (upre ++ upost)%list Block.zero)).
Proof.
  split.
  - intros o data pre v post upre f upost Hd Hc Hlen Hv.
    unfold Op.UnmarshalJSONBrief. rewrite Hd, Hc, range_columns_skip;
      [reflexivity| |exact Hlen].
    intros s'. apply Op_decode_column_unknown. exact Hv.
  - intros b data pre v post upre f upost Hd Hc Hlen Hv.
    unfold Block.UnmarshalJSONBrief. rewrite Hd, Hc, range_columns_skip;
      [reflexivity| |exact Hlen].
    intros s'. apply Block_decode_column_unknown. exact Hv.
Qed.

(** ** What a columnar decode leaves in the record *)

Section ContextFacts.
Context {C : Collaborators}.

(** No column assigns the decode context of the scratch record. *)
Lemma Op_decode_column_context o op v f op' :
  Op.decode_column o op v f = Ok op' ->
  Op.columns op' = Op.columns op
  /\ Op.param op' = Op.param op
  /\ Op.store op' = Op.store op
  /\ Op.eps op' = Op.eps op
  /\ Op.bigmaps op' = Op.bigmaps op
  /\ Op.withPrim op' = Op.withPrim op
  /\ Op.withMeta op' = Op.withMeta op
  /\ Op.onError op' = Op.onError op.
Proof.
  unfold Op.decode_column. switch_cases; clear; run_calls; intros;
    simplify_eq; repeat split.
Qed.

(** No column assigns the fields that only the object form carries. *)
Lemma Op_decode_column_object_only o op v f op' :
  Op.decode_column o op v f = Ok op' ->
  Op.Batch op' = Op.Batch op
  /\ Op.Internal op' = Op.Internal op
  /\ Op.PrevBaker op' = Op.PrevBaker op
  /\ Op.Source op' = Op.Source op
  /\ Op.Offender op' = Op.Offender op
  /\ Op.Accuser op' = Op.Accuser op
  /\ Op.Value op' = Op.Value op
  /\ Op.Power op' = Op.Power op
  /\ Op.Limit op' = Op.Limit op
  /\ Op.Confirmations op' = Op.Confirmations op
  /\ Op.BatchVolume op' = Op.BatchVolume op
  /\ Op.NOps op' = Op.NOps op
  /\ Op.Metadata_ op' = Op.Metadata_ op.
Proof.
  unfold Op.decode_column. switch_cases; clear; run_calls; intros;
    simplify_eq; repeat split.
Qed.

Lemma Block_decode_column_context block v f block' :
  Block.decode_column block v f = Ok block' ->
  Block.columns block' = Block.columns block
  /\ Block.FollowerHash block' = Block.FollowerHash block
  /\ Block.Metadata_ block' = Block.Metadata_ block
  /\ Block.Rights block' = Block.Rights block
  /\ Block.Ops block' = Block.Ops block.
Proof.
  unfold Block.decode_column. switch_cases; clear; run_calls; intros;
    simplify_eq; repeat split.
Qed.

End ContextFacts.

(** X2. A successful columnar decode replaces the whole record by the
    scratch record, the decode context included: the column list, the
    contract types and the options of the receiver are back at their zero
    values afterwards.  Decoding a second row into the same record
    therefore reads no column and resets the record to its zero value,
    whatever the row holds. *)
Theorem UnmarshalJSONBrief_resets_context {C : Collaborators} :
  (forall (o o' : Op.t) data,
     Op.UnmarshalJSONBrief o data = (o', Ok tt) ->
     (Op.columns o' = [] /\ Op.param o' = Type_zero
      /\ Op.store o' = Type_zero /\ Op.eps o' = Entrypoints_nil
      /\ Op.bigmaps o' = ∅ /\ Op.withPrim o' = false
      /\ Op.withMeta o' = false /\ Op.onError o' = 0)
     /\ forall data2 unpacked2,
          json_Decode data2 = inr unpacked2 ->
          Op.UnmarshalJSONBrief o' data2 = (Op.zero, Ok tt))
  /\ (forall (b b' : Block.t) data,
        Block.UnmarshalJSONBrief b data = (b', Ok tt) ->
        Block.columns b' = []
        /\ forall data2 unpacked2,
             json_Decode data2 = inr unpacked2 ->
             Block.UnmarshalJSONBrief b' data2 = (Block.zero, Ok tt)).
Proof.
  split.
  - intros o o' data. unfold Op.UnmarshalJSONBrief at 1.
    destruct (json_Decode data) as [|unpacked]; [discriminate|].
    destruct (range_columns _ _ _ _ _) as [scratch| |] eqn:E; simpl;
      [|discriminate..].
    intros [= <-].
    assert (Op.columns scratch = Op.columns Op.zero
            /\ Op.param scratch = Op.param Op.zero
            /\ Op.store scratch = Op.store Op.zero
            /\ Op.eps scratch = Op.eps Op.zero
            /\ Op.bigmaps scratch = Op.bigmaps Op.zero
            /\ Op.withPrim scratch = Op.withPrim Op.zero
            /\ Op.withMeta scratch = Op.withMeta Op.zero
            /\ Op.onError scratch = Op.onError Op.zero) as Hctx.
    { apply (range_columns_invariant (Op.decode_column o)
               (fun s => Op.columns s = Op.columns Op.zero
                         /\ Op.param s = Op.param Op.zero
                         /\ Op.store s = Op.store Op.zero
                         /\ Op.eps s = Op.eps Op.zero
                         /\ Op.bigmaps s = Op.bigmaps Op.zero
                         /\ Op.withPrim s = Op.withPrim Op.zero
                         /\ Op.withMeta s = Op.withMeta Op.zero
                         /\ Op.onError s = Op.onError Op.zero)
               _ _ _ _ _) with (3 := E); [|repeat split].
      intros s v f s' Hs Hstep.
      apply Op_decode_column_context in Hstep. intuition congruence. }
    split; [exact Hctx|].
    intros data2 unpacked2 Hd2. unfold Op.UnmarshalJSONBrief.
    destruct Hctx as (Hcols & _). rewrite Hd2, Hcols. reflexivity.
  - intros b b' data. unfold Block.UnmarshalJSONBrief at 1.
    destruct (json_Decode data) as [|unpacked]; [discriminate|].
    destruct (range_columns _ _ _ _ _) as [scratch| |] eqn:E; simpl;
      [|discriminate..].
    intros [= <-].
    assert (Block.columns scratch = []) as Hcols.
    { apply (range_columns_invariant Block.decode_column
               (fun s => Block.columns s = []) _ _ _ _ _) with (3 := E);
        [|reflexivity].
      intros s v f s' Hs Hstep.
      apply Block_decode_column_context in Hstep as (-> & _). exact Hs. }
    split; [exact Hcols|].
    intros data2 unpacked2 Hd2. unfold Block.UnmarshalJSONBrief.
    rewrite Hd2, Hcols. reflexivity.
Qed.

(** X3. A columnar decode never fills the fields that have no column: the
    decoded operation has no batch and no internal operations, and its
    previous baker, source, offender, accuser, value, power, limit,
    confirmations, batch volume, operation count and metadata are at their
    zero values.  So its cursor is its own identifier and its content is
    the operation alone. *)
Theorem UnmarshalJSONBrief_no_children {C : Collaborators}
    (o o' : Op.t) (data : string) :
  Op.UnmarshalJSONBrief o data = (o', Ok tt) ->
  (Op.Batch o' = [] /\ Op.Internal o' = []
   /\ Op.PrevBaker o' = Address_zero /\ Op.Source o' = Address_zero
   /\ Op.Offender o' = Address_zero /\ Op.Accuser o' = Address_zero
   /\ Op.Value o' = Prim_zero /\ Op.Power o' = 0 /\ Op.Limit o' = None
   /\ Op.Confirmations o' = 0 /\ Op.BatchVolume o' = 0%float
   /\ Op.NOps o' = 0 /\ Op.Metadata_ o' = ∅)
  /\ Op.Cursor o' = Ok (Op.Id o')
  /\ Op.Content o' = Ok [Some o'].
Proof.
  unfold Op.UnmarshalJSONBrief.
  destruct (json_Decode data) as [|unpacked]; [discriminate|].
  destruct (range_columns _ _ _ _ _) as [scratch| |] eqn:E; simpl;
    [|discriminate..].
  intros [= <-].
  assert (Op.Batch scratch = Op.Batch Op.zero
          /\ Op.Internal scratch = Op.Internal Op.zero
          /\ Op.PrevBaker scratch = Op.PrevBaker Op.zero
          /\ Op.Source scratch = Op.Source Op.zero
          /\ Op.Offender scratch = Op.Offender Op.zero
          /\ Op.Accuser scratch = Op.Accuser Op.zero
          /\ Op.Value scratch = Op.Value Op.zero
          /\ Op.Power scratch = Op.Power Op.zero
          /\ Op.Limit scratch = Op.Limit Op.zero
          /\ Op.Confirmations scratch = Op.Confirmations Op.zero
          /\ Op.BatchVolume scratch = Op.BatchVolume Op.zero
          /\ Op.NOps scratch = Op.NOps Op.zero
          /\ Op.Metadata_ scratch = Op.Metadata_ Op.zero) as Hobj.
  { apply (range_columns_invariant (Op.decode_column o)
             (fun s => Op.Batch s = Op.Batch Op.zero
                       /\ Op.Internal s = Op.Internal Op.zero
                       /\ Op.PrevBaker s = Op.PrevBaker Op.zero
                       /\ Op.Source s = Op.Source Op.zero
                       /\ Op.Offender s = Op.Offender Op.zero
                       /\ Op.Accuser s = Op.Accuser Op.zero
                       /\ Op.Value s = Op.Value Op.zero
                       /\ Op.Power s = Op.Power Op.zero
                       /\ Op.Limit s = Op.Limit Op.zero
                       /\ Op.Confirmations s = Op.Confirmations Op.zero
                       /\ Op.BatchVolume s = Op.BatchVolume Op.zero
                       /\ Op.NOps s = Op.NOps Op.zero
                       /\ Op.Metadata_ s = Op.Metadata_ Op.zero)
             _ _ _ _ _) with (3 := E); [|repeat split].
    intros s v f s' Hs Hstep.
    apply Op_decode_column_object_only in Hstep. intuition congruence. }
  split; [exact Hobj|].
  destruct Hobj as (Hb & Hi & _). simpl in Hb, Hi.
  unfold Op.Cursor, Op.Content. simpl. rewrite Hb. simpl. rewrite Hi.
  split; reflexivity.
Qed.

(** ** The records of a big-map diff *)

Section RecordFacts.
Context {C : Collaborators}.

(** A property that every record decoded with a scratch record without
    [withPrim] has holds of every record of a decoded row. *)
Lemma BigmapDiff_records (Q : BigmapUpdate.t -> Prop) (o o' : Op.t) data :
  (forall op v u,
     Op.withPrim op = false -> Op.decode_bigmap_event o op v = Ok u -> Q u) ->
  Op.UnmarshalJSONBrief o data = (o', Ok tt) ->
  Forall Q (Op.BigmapDiff o').
Proof.
  intros HQ. unfold Op.UnmarshalJSONBrief.
  destruct (json_Decode data) as [|unpacked]; [discriminate|].
  destruct (range_columns _ _ _ _ _) as [scratch| |] eqn:E; simpl;
    [|discriminate..].
  intros [= <-].
  apply (range_columns_invariant (Op.decode_column o)
           (fun s => Op.withPrim s = false /\ Forall Q (Op.BigmapDiff s))
           _ _ _ _ _) with (3 := E); [|split; [reflexivity|constructor]].
  intros s v f s' [Hp Hs] Hstep. split.
  - apply Op_decode_column_context in Hstep. intuition congruence.
  - destruct (Op_decode_column_BigmapDiff_Forall
                (fun op u => Op.withPrim op = false -> Q u) o s v f s')
      as [->|HF]; try assumption.
    + intros op0 v0 u0 Hu0 Hp0. exact (HQ _ _ _ Hp0 Hu0).
    + eapply Forall_impl; [exact HF|]. intros u Hu. exact (Hu Hp).
Qed.

Lemma decode_bigmap_event_alloc_copy o op v u :
  Op.withPrim op = false ->
  Op.decode_bigmap_event o op v = Ok u ->
  BigmapUpdate.Action u = DiffActionAlloc
  \/ BigmapUpdate.Action u = DiffActionCopy ->
  BigmapUpdate.BigmapValue_ u = BigmapValue.zero
  /\ BigmapUpdate.KeyTypePrim u = None
  /\ BigmapUpdate.ValueTypePrim u = None.
Proof.
  intros Hp. unfold Op.decode_bigmap_event. rewrite Hp.
  destruct (Op.bigmaps o !! BigmapEvent_Id v);
    destruct (BigmapEvent_Action v); simpl.
  all: repeat match goal with
       | |- context [Type_IsValid ?t] => destruct (Type_IsValid t); simpl
       | |- context [Value_Map ?t ?p ?r] =>
           destruct (Value_Map t p r); simpl; [discriminate|]
       end.
  all: intros [= <-]; simpl; intros [|]; try discriminate; repeat split.
Qed.

Lemma decode_bigmap_event_update_remove o op v u :
  Op.decode_bigmap_event o op v = Ok u ->
  BigmapUpdate.Action u = DiffActionUpdate
  \/ BigmapUpdate.Action u = DiffActionRemove ->
  (BigmapUpdate.KeyType u = None /\ BigmapUpdate.ValueType u = None
   /\ BigmapUpdate.KeyTypePrim u = None /\ BigmapUpdate.ValueTypePrim u = None
   /\ BigmapUpdate.SourceId u = 0 /\ BigmapUpdate.DestId u = 0)
  /\ (BigmapValue.KeyPrim (BigmapUpdate.BigmapValue_ u) <> None
      <-> Op.withPrim o = true)
  /\ (BigmapValue.ValuePrim (BigmapUpdate.BigmapValue_ u) <> None
      <-> BigmapUpdate.Action u = DiffActionUpdate /\ Op.withPrim o = true)
  /\ (BigmapValue.Meta (BigmapUpdate.BigmapValue_ u) <> None
      <-> Op.withMeta o = true).
Proof.
  unfold Op.decode_bigmap_event.
  destruct (Op.bigmaps o !! BigmapEvent_Id v);
    destruct (BigmapEvent_Action v); simpl.
  all: repeat match goal with
       | |- context [Type_IsValid ?t] => destruct (Type_IsValid t); simpl
       | |- context [Value_Map ?t ?p ?r] =>
           destruct (Value_Map t p r); simpl; [discriminate|]
       end.
  all: intros [= <-]; simpl; intros [|]; try discriminate.
  all: destruct (Op.withPrim o); destruct (Op.withMeta o); simpl;
       repeat split; try congruence; try discriminate; intuition congruence.
Qed.

End RecordFacts.

(** X4. An alloc or copy record of a decoded operation row carries the
    type annotations and the source and destination ids only: its key,
    key hash, metadata, value and primitive trees are all absent, and the
    primitive trees of its key and value types are absent as well, even
    when primitive trees were requested (the code tests the option on the
    scratch record, where it is never set). *)
Theorem BigmapDiff_alloc_copy_records {C : Collaborators}
    (o o' : Op.t) (data : string) :
  Op.UnmarshalJSONBrief o data = (o', Ok tt) ->
  forall u, In u (Op.BigmapDiff o') ->
    BigmapUpdate.Action u = DiffActionAlloc
    \/ BigmapUpdate.Action u = DiffActionCopy ->
    BigmapUpdate.BigmapValue_ u = BigmapValue.zero
    /\ BigmapUpdate.KeyTypePrim u = None
    /\ BigmapUpdate.ValueTypePrim u = None.
Proof.
  intros Hok.
  pose proof (BigmapDiff_records
                (fun u => BigmapUpdate.Action u = DiffActionAlloc
                          \/ BigmapUpdate.Action u = DiffActionCopy ->
                          BigmapUpdate.BigmapValue_ u = BigmapValue.zero
                          /\ BigmapUpdate.KeyTypePrim u = None
                          /\ BigmapUpdate.ValueTypePrim u = None)
                o o' data) as HF.
  rewrite Forall_forall in HF. intros u Hu. apply HF; [|exact Hok|].
  - intros op v u0. apply decode_bigmap_event_alloc_copy.
  - apply list_elem_of_In. exact Hu.
Qed.

(** X5. An update or remove record of a decoded operation row carries no
    type annotation and no source or destination id; it carries the
    primitive tree of its key exactly when primitive trees were requested,
    the primitive tree of its value exactly when it is an update and they
    were requested, and provenance metadata exactly when metadata was
    requested. *)
Theorem BigmapDiff_update_remove_records {C : Collaborators}
    (o o' : Op.t) (data : string) :
  Op.UnmarshalJSONBrief o data = (o', Ok tt) ->
  forall u, In u (Op.BigmapDiff o') ->
    BigmapUpdate.Action u = DiffActionUpdate
    \/ BigmapUpdate.Action u = DiffActionRemove ->
    (BigmapUpdate.KeyType u = None /\ BigmapUpdate.ValueType u = None
     /\ BigmapUpdate.KeyTypePrim u = None /\ BigmapUpdate.ValueTypePrim u = None
     /\ BigmapUpdate.SourceId u = 0 /\ BigmapUpdate.DestId u = 0)
    /\ (BigmapValue.KeyPrim (BigmapUpdate.BigmapValue_ u) <> None
        <-> Op.withPrim o = true)
    /\ (BigmapValue.ValuePrim (BigmapUpdate.BigmapValue_ u) <> None
        <-> BigmapUpdate.Action u = DiffActionUpdate /\ Op.withPrim o = true)
    /\ (BigmapValue.Meta (BigmapUpdate.BigmapValue_ u) <> None
        <-> Op.withMeta o = true).
Proof.
  intros Hok.
  pose proof (BigmapDiff_records
                (fun u =>
                   BigmapUpdate.Action u = DiffActionUpdate
                   \/ BigmapUpdate.Action u = DiffActionRemove ->
                   (BigmapUpdate.KeyType u = None
                    /\ BigmapUpdate.ValueType u = None
                    /\ BigmapUpdate.KeyTypePrim u = None
                    /\ BigmapUpdate.ValueTypePrim u = None
                    /\ BigmapUpdate.SourceId u = 0
                    /\ BigmapUpdate.DestId u = 0)
                   /\ (BigmapValue.KeyPrim (BigmapUpdate.BigmapValue_ u) <> None
                       <-> Op.withPrim o = true)
                   /\ (BigmapValue.ValuePrim (BigmapUpdate.BigmapValue_ u) <> None
                       <-> BigmapUpdate.Action u = DiffActionUpdate
                           /\ Op.withPrim o = true)
                   /\ (BigmapValue.Meta (BigmapUpdate.BigmapValue_ u) <> None
                       <-> Op.withMeta o = true))
                o o' data) as HF.
  rewrite Forall_forall in HF. intros u Hu. apply HF; [|exact Hok|].
  - intros op v u0 _. apply decode_bigmap_event_update_remove.
  - apply list_elem_of_In. exact Hu.
Qed.

Section EventFacts.
Context {C : Collaborators}.

(** What one record owes to its event. *)
Lemma decode_bigmap_event_fields o op v u :
  Op.decode_bigmap_event o op v = Ok u ->
  BigmapUpdate.Action u = BigmapEvent_Action v
  /\ BigmapUpdate.BigmapId u = BigmapEvent_Id v
  /\ match BigmapEvent_Action v with
     | DiffActionAlloc | DiffActionCopy =>
         BigmapUpdate.SourceId u = BigmapEvent_SourceId v
         /\ BigmapUpdate.DestId u = BigmapEvent_DestId v
         /\ BigmapUpdate.KeyType u
            = Type_TypedefPtr (Type_of_Prim (BigmapEvent_KeyType v)) "@key"
         /\ BigmapUpdate.ValueType u
            = Type_TypedefPtr (Type_of_Prim (BigmapEvent_ValueType v)) "@value"
     | DiffActionUpdate | DiffActionRemove =>
         let ktyp :=
           match Op.bigmaps o !! BigmapEvent_Id v with
           | Some typ => Type_Left typ
           | None => Prim_BuildType (BigmapEvent_Key v)
           end in
         if Prim_IsEmptyBigmap (BigmapEvent_Key v) then
           BigmapValue.Key_ (BigmapUpdate.BigmapValue_ u) = MultiKey_zero
           /\ BigmapValue.Hash (BigmapUpdate.BigmapValue_ u) = ExprHash_zero
         else
           BigmapValue.Key_ (BigmapUpdate.BigmapValue_ u)
           = MultiKey_UnmarshalJSON
               (Key_MarshalJSON (BigmapEvent_GetKey v ktyp))
           /\ BigmapValue.Hash (BigmapUpdate.BigmapValue_ u)
              = BigmapEvent_KeyHash v
     end.
Proof.
  unfold Op.decode_bigmap_event.
  destruct (Op.bigmaps o !! BigmapEvent_Id v);
    destruct (BigmapEvent_Action v) eqn:Ha; simpl.
  all: repeat match goal with
       | |- context [Type_IsValid ?t] => destruct (Type_IsValid t); simpl
       | |- context [Value_Map ?t ?p ?r] =>
           destruct (Value_Map t p r); simpl; [discriminate|]
       end.
  all: intros [= <-]; simpl;
       destruct (Prim_IsEmptyBigmap (BigmapEvent_Key v)); simpl;
       repeat split.
Qed.

Lemma decode_bigmap_events_Forall2 (R : BigmapEvent -> BigmapUpdate.t -> Prop)
    o op bmd diff :
  (forall v u, Op.decode_bigmap_event o op v = Ok u -> R v u) ->
  Op.decode_bigmap_events o op bmd = Ok diff ->
  Forall2 R bmd diff.
Proof.
  intros HR. revert diff. induction bmd as [|v rest IH]; intros diff.
  - simpl. intros [= <-]. constructor.
  - simpl. destruct (Op.decode_bigmap_event o op v) as [u| |] eqn:E; simpl;
      [|discriminate..].
    destruct (Op.decode_bigmap_events o op rest) as [us| |]; simpl;
      [|discriminate..].
    intros [= <-]. constructor; [exact (HR _ _ E)|]. apply IH. reflexivity.
Qed.

(** The storage column leaves the storage alone or sets one whose
    semantic value is there exactly when the storage type is valid and
    whose primitive tree is there exactly when it was requested. *)
Lemma Op_decode_column_storage o op f op' :
  Op.decode_column o op "storage" f = Ok op' ->
  Op.Storage op' = Op.Storage op
  \/ exists cv,
       Op.Storage op' = Some cv
       /\ (ContractValue.Value cv <> None <-> Type_IsValid (Op.store o) = true)
       /\ (ContractValue.Prim_ cv <> None <-> Op.withPrim o = true).
Proof.
  unfold Op.decode_column.
  cbv beta iota delta [String.eqb Ascii.eqb Bool.eqb].
  unfold as_string, try, bind. destruct f; try discriminate.
  destruct (hex_DecodeString s) as [|buf]; [discriminate|].
  destruct (Op.is_empty buf); [intros [= <-]; left; reflexivity|].
  destruct (Prim_UnmarshalBinary buf) as [|prim]; [discriminate|].
  destruct (Type_IsValid (Op.store o)).
  - destruct (Value_Map _ _ _) as [|val]; [discriminate|].
    intros [= <-]. right. eexists. split; [reflexivity|]. simpl.
    destruct (Op.withPrim o); split; split; congruence.
  - intros [= <-]. right. eexists. split; [reflexivity|]. simpl.
    destruct (Op.withPrim o); split; split; congruence.
Qed.

End EventFacts.

(** X6. The [big_map_diff] column decodes into one record per event of the
    binary diff, in the order of the events, each with the action and the
    big-map id of its event.  An alloc or copy record takes its source and
    destination ids and its type annotations from the event; an update or
    remove record takes key and key hash from the event, the key being
    read with the key type of the script when the big-map is known and
    with the type built from the key itself otherwise, and takes neither
    when the event holds the placeholder key of an empty big-map. *)
Theorem BigmapDiff_one_record_per_event {C : Collaborators}
    (o o' : Op.t) (data : string) (unpacked : list json)
    (pre post : list string) (s buf : string) (bmd : list BigmapEvent) :
  json_Decode data = inr unpacked ->
  Op.columns o = (pre ++ "big_map_diff" :: post)%list ->
  ~ In "big_map_diff" post ->
  unpacked !! length pre = Some (JString s) ->
  hex_DecodeString s = inr buf ->
  Op.is_empty buf = false ->
  BigmapEvents_UnmarshalBinary buf = inr bmd ->
  Op.UnmarshalJSONBrief o data = (o', Ok tt) ->
  Forall2 (fun v u =>
    BigmapUpdate.Action u = BigmapEvent_Action v
    /\ BigmapUpdate.BigmapId u = BigmapEvent_Id v
    /\ match BigmapEvent_Action v with
       | DiffActionAlloc | DiffActionCopy =>
           BigmapUpdate.SourceId u = BigmapEvent_SourceId v
           /\ BigmapUpdate.DestId u = BigmapEvent_DestId v
           /\ BigmapUpdate.KeyType u
              = Type_TypedefPtr (Type_of_Prim (BigmapEvent_KeyType v)) "@key"
           /\ BigmapUpdate.ValueType u
              = Type_TypedefPtr (Type_of_Prim (BigmapEvent_ValueType v)) "@value"
       | DiffActionUpdate | DiffActionRemove =>
           let ktyp :=
             match Op.bigmaps o !! BigmapEvent_Id v with
             | Some typ => Type_Left typ
             | None => Prim_BuildType (BigmapEvent_Key v)
             end in
           if Prim_IsEmptyBigmap (BigmapEvent_Key v) then
             BigmapValue.Key_ (BigmapUpdate.BigmapValue_ u) = MultiKey_zero
             /\ BigmapValue.Hash (BigmapUpdate.BigmapValue_ u) = ExprHash_zero
           else
             BigmapValue.Key_ (BigmapUpdate.BigmapValue_ u)
             = MultiKey_UnmarshalJSON
                 (Key_MarshalJSON (BigmapEvent_GetKey v ktyp))
             /\ BigmapValue.Hash (BigmapUpdate.BigmapValue_ u)
                = BigmapEvent_KeyHash v
       end) bmd (Op.BigmapDiff o').
Proof.
  intros Hd Hc Hpost Hf Hhex Hbuf Hbmd. unfold Op.UnmarshalJSONBrief.
  rewrite Hd, Hc, range_columns_app.
  destruct (range_columns (Op.decode_column o) pre 0 unpacked Op.zero)
    as [scratch| |]; simpl; [|discriminate..].
  rewrite Hf. simpl.
  destruct (Op.decode_column o scratch "big_map_diff" (JString s))
    as [after| |] eqn:Estep; simpl; [|discriminate..].
  destruct (range_columns _ post _ _ _) as [r| |] eqn:Epost; simpl;
    [|discriminate..].
  intros [= <-].
  assert (Op.BigmapDiff r = Op.BigmapDiff after) as ->.
  { apply (range_columns_frame (Op.decode_column o) Op.BigmapDiff
             "big_map_diff" post (S (length pre)) unpacked after r);
      try assumption.
    intros s0 v g s' Hv. apply Op_decode_column_BigmapDiff. exact Hv. }
  revert Estep. unfold Op.decode_column.
  cbv beta iota delta [String.eqb Ascii.eqb Bool.eqb].
  unfold as_string, try, bind. rewrite Hhex, Hbuf, Hbmd.
  destruct (Op.decode_bigmap_events o scratch bmd) as [diff| |] eqn:E;
    [|discriminate..].
  intros [= <-].
  change (Op.BigmapDiff (Op.set_BigmapDiff diff scratch)) with diff.
  apply (decode_bigmap_events_Forall2 _ o scratch bmd diff); [|exact E].
  intros v u. apply decode_bigmap_event_fields.
Qed.

(** X7. The storage of a decoded operation row, when there is one, holds a
    semantic value if and only if the storage type given to the decoder is
    valid, and the primitive tree if and only if primitive trees were
    requested. *)
Theorem Storage_value_iff_typed {C : Collaborators}
    (o o' : Op.t) (data : string) :
  Op.UnmarshalJSONBrief o data = (o', Ok tt) ->
  forall cv, Op.Storage o' = Some cv ->
    (ContractValue.Value cv <> None <-> Type_IsValid (Op.store o) = true)
    /\ (ContractValue.Prim_ cv <> None <-> Op.withPrim o = true).
Proof.
  unfold Op.UnmarshalJSONBrief.
  destruct (json_Decode data) as [|unpacked]; [discriminate|].
  destruct (range_columns _ _ _ _ _) as [scratch| |] eqn:E; simpl;
    [|discriminate..].
  intros [= <-].
  apply (range_columns_invariant (Op.decode_column o)
           (fun s => forall cv, Op.Storage s = Some cv ->
              (ContractValue.Value cv <> None
               <-> Type_IsValid (Op.store o) = true)
              /\ (ContractValue.Prim_ cv <> None <-> Op.withPrim o = true))
           _ _ _ _ _) with (3 := E); [|discriminate].
  intros s c f s' Hs Hstep cv.
  destruct (String.eqb_spec c "storage") as [->|Hc].
  - apply Op_decode_column_storage in Hstep as [->|(cv' & -> & Hcv')];
      [apply Hs|].
    intros [= <-]. exact Hcv'.
  - rewrite (Op_decode_column_Storage _ _ _ _ _ Hc Hstep). apply Hs.
Qed.

(** ** Batches that stop, and rows that need no contract script *)

Section ListFacts.
Context {C : Collaborators} {OFo : ObjectForm Op.t} {OFb : ObjectForm Block.t}.

Lemma OpList_range_rows_app (l : OpList.t) pre post :
  OpList.range_rows l (pre ++ post)
  = match OpList.range_rows l pre with
    | (l', Ok _) => OpList.range_rows l' post
    | stop => stop
    end.
Proof.
  revert l. induction pre as [|v pre IH]; intros l; simpl.
  - reflexivity.
  - destruct (OpList.decode_row l v) as [l' [[]| |]]; [apply IH|reflexivity..].
Qed.

Lemma BlockList_range_rows_app (l : BlockList.t) pre post :
  BlockList.range_rows l (pre ++ post)
  = match BlockList.range_rows l pre with
    | (l', Ok _) => BlockList.range_rows l' post
    | stop => stop
    end.
Proof.
  revert l. induction pre as [|v pre IH]; intros l; simpl.
  - reflexivity.
  - destruct (BlockList.decode_row l v) as [l' [[]| |]]; [apply IH|reflexivity..].
Qed.

(** A columnar decode leaves an operation without children. *)
Lemma Op_UnmarshalJSONBrief_children (o o' : Op.t) data :
  Op.UnmarshalJSONBrief o data = (o', Ok tt) ->
  Op.Batch o' = [] /\ Op.Internal o' = [].
Proof.
  unfold Op.UnmarshalJSONBrief.
  destruct (json_Decode data) as [|unpacked]; [discriminate|].
  destruct (range_columns _ _ _ _ _) as [scratch| |] eqn:E; simpl;
    [|discriminate..].
  intros [= <-].
  apply (range_columns_invariant (Op.decode_column o)
           (fun s => Op.Batch s = [] /\ Op.Internal s = [])
           _ _ _ _ _) with (3 := E); [|split; reflexivity].
  intros s v f s' [Hb Hi] Hstep.
  apply Op_decode_column_object_only in Hstep as (-> & -> & _).
  split; assumption.
Qed.

(** The record of a row in array form has no children. *)
Lemma OpList_row_record_children (l : OpList.t) v op :
  starts_with "[" v = true ->
  snd (OpList.row_record l v) = Ok op ->
  Op.Batch op = [] /\ Op.Internal op = [].
Proof.
  intros Hv. unfold OpList.row_record.
  destruct (OpList.prepare_row l v) as [client' [p| |]] eqn:Ep;
    try discriminate.
  assert (Op.Batch p = [] /\ Op.Internal p = []) as [Hb Hi].
  { revert Ep. unfold OpList.prepare_row.
    destruct (getTableColumn v (OpList.columns l) "is_contract") as [i ok].
    destruct (ok && String.eqb i "1"); [|intros [= _ <-]; split; reflexivity].
    destruct (getTableColumn v (OpList.columns l) "receiver") as [recv ok'].
    destruct (ok' && negb (String.eqb recv EmptyString)
              && negb (String.eqb recv "null"));
      [|intros [= _ <-]; split; reflexivity].
    destruct (tezos_ParseAddress recv) as [|addr]; [discriminate|].
    destruct (loadCachedContractScript _ _ addr) as [c' [|script]];
      [discriminate|].
    intros [= _ <-]. unfold Op.WithScript.
    destruct script as [script|];
      [destruct (ContractScript_Types script) as [[[? ?] ?] ?]|];
      split; reflexivity. }
  unfold Op.UnmarshalJSON. rewrite Hv.
  destruct ((String.length v =? 0)%nat || String.eqb v "null");
    [simpl; intros [= <-]; split; assumption|].
  destruct (String.length v =? 2)%nat;
    [simpl; intros [= <-]; split; assumption|].
  destruct (Op.UnmarshalJSONBrief p v) as [op' [[]| |]] eqn:E;
    try discriminate.
  simpl. intros [= <-]. apply Op_UnmarshalJSONBrief_children in E.
  exact E.
Qed.

End ListFacts.

(** X8. A batch decode stops at the first row that fails and returns the
    error of that row; the records of the rows before it stay appended to
    the collection, in order, and the rows after it are not decoded.  So a
    failed batch decode leaves a partial collection in the receiver. *)
Theorem UnmarshalJSON_batch_stops_at_failure
    {C : Collaborators} {OFo : ObjectForm Op.t} {OFb : ObjectForm Block.t} :
  (forall (l : OpList.t) data pre v post err,
     String.length data <> 0%nat -> data <> "null" ->
     starts_with "[" data = true ->
     json_Unmarshal_RawMessages data = inr (pre ++ v :: post)%list ->
     OpList.all_rows_decode l pre ->
     snd (OpList.row_record (fst (OpList.range_rows l pre)) v) = Err err ->
     snd (OpList.UnmarshalJSON l data) = Err err
     /\ exists rows,
          OpList.Rows (fst (OpList.UnmarshalJSON l data))
          = (OpList.Rows l ++ rows)%list
          /\ length rows = length pre
          /\ OpList.Rows (fst (OpList.range_rows l pre))
             = (OpList.Rows l ++ rows)%list)
  /\ (forall (l : BlockList.t) data pre v post err,
        String.length data <> 0%nat -> data <> "null" ->
        starts_with "[" data = true ->
        json_Unmarshal_RawMessages data = inr (pre ++ v :: post)%list ->
        Forall (fun w => is_Ok (BlockList.row_record l w) = true) pre ->
        BlockList.row_record l v = Err err ->
        exists rows,
          BlockList.UnmarshalJSON l data
          = (BlockList.set_Rows (BlockList.Rows l ++ rows) l, Err err)
          /\ Forall2 (fun w row => exists r,
                        BlockList.row_record l w = Ok r /\ row = Some r)
               pre rows).
Proof.
  split.
  - intros l data pre v post err Hlen Hnull Hstart Harray Hall Hv.
    unfold OpList.UnmarshalJSON.
    apply Nat.eqb_neq in Hlen. apply String.eqb_neq in Hnull.
    rewrite Hlen, Hnull, Hstart, Harray. simpl.
    rewrite OpList_range_rows_app.
    destruct (OpList_range_rows_ok l pre Hall) as (rows & Hok & Hrows & Hl & _).
    destruct (OpList.range_rows l pre) as [l1 r] eqn:Epre.
    simpl in Hok, Hrows, Hv. subst r. simpl.
    unfold OpList.decode_row.
    destruct (OpList.row_record l1 v) as [client' [op| |]];
      simpl in Hv; try discriminate.
    injection Hv as ->. simpl. split; [reflexivity|].
    exists rows. repeat split; assumption.
  - intros l data pre v post err Hlen Hnull Hstart Harray Hall Hv.
    unfold BlockList.UnmarshalJSON.
    apply Nat.eqb_neq in Hlen. apply String.eqb_neq in Hnull.
    rewrite Hlen, Hnull, Hstart, Harray. simpl.
    rewrite BlockList_range_rows_app.
    destruct (BlockList_range_rows_ok l pre Hall) as (rows & Hrange & HF).
    exists rows. rewrite Hrange. simpl. unfold BlockList.decode_row.
    change (BlockList.row_record
              (BlockList.set_Rows (BlockList.Rows l ++ rows) l) v)
      with (BlockList.row_record l v).
    rewrite Hv. split; [reflexivity|exact HF].
Qed.

(** X9. A row that is not a contract call with a receiver (the column
    [is_contract] is not in the column list or is not 1, or the column
    [receiver] is not in the list, empty or null) is prepared without
    consulting the contract lookup: the client is left as it was and the
    fresh record carries the column list and the primitive-tree option of
    the list and no contract types. *)
Theorem prepare_row_without_lookup
    {C : Collaborators} {OF : ObjectForm Op.t} (l : OpList.t) (v : string) :
  snd (getTableColumn v (OpList.columns l) "is_contract") = false
  \/ fst (getTableColumn v (OpList.columns l) "is_contract") <> "1"
  \/ snd (getTableColumn v (OpList.columns l) "receiver") = false
  \/ fst (getTableColumn v (OpList.columns l) "receiver") = EmptyString
  \/ fst (getTableColumn v (OpList.columns l) "receiver") = "null" ->
  OpList.prepare_row l v
  = (OpList.client l,
     Ok (Op.set_columns (OpList.columns l)
           (Op.set_withPrim (OpList.withPrim l) Op.zero)))
  /\ fst (OpList.row_record l v) = OpList.client l.
Proof.
  intros Hv.
  assert (OpList.prepare_row l v
          = (OpList.client l,
             Ok (Op.set_columns (OpList.columns l)
                   (Op.set_withPrim (OpList.withPrim l) Op.zero)))) as Hp.
  { unfold OpList.prepare_row.
    destruct (getTableColumn v (OpList.columns l) "is_contract") as [i ok].
    destruct (getTableColumn v (OpList.columns l) "receiver") as [recv ok'].
    simpl in Hv.
    destruct ok; simpl; [|reflexivity].
    destruct (String.eqb_spec i "1") as [->|Hi]; [|reflexivity].
    destruct ok'; simpl; [|reflexivity].
    destruct (String.eqb_spec recv EmptyString) as [->|He]; [reflexivity|].
    destruct (String.eqb_spec recv "null") as [->|Hn]; [reflexivity|].
    simpl. intuition congruence. }
  split; [exact Hp|].
  unfold OpList.row_record. rewrite Hp.
  destruct (Op.UnmarshalJSON _ v) as [op [[]| |]]; reflexivity.
Qed.

(** X10. A contract call whose receiver does not parse as an address
    stops the batch decode with an error that names the receiver and wraps
    the parser's error; the contract lookup is not consulted, the row is
    not decoded and the collection is left as it was before this row. *)
Theorem range_rows_invalid_receiver
    {C : Collaborators} {OF : ObjectForm Op.t}
    (l : OpList.t) (v recv : string) (err : error) (rest : list string) :
  getTableColumn v (OpList.columns l) "is_contract" = ("1", true) ->
  getTableColumn v (OpList.columns l) "receiver" = (recv, true) ->
  recv <> EmptyString -> recv <> "null" ->
  tezos_ParseAddress recv = inl err ->
  OpList.range_rows l (v :: rest)
  = (l, Err (Errorf "decode: invalid receiver address %s: %v"
               [ArgString recv] (Some err))).
Proof.
  intros His Hrecv Hne Hnull Haddr.
  apply String.eqb_neq in Hne, Hnull.
  simpl. unfold OpList.decode_row, OpList.row_record, OpList.prepare_row.
  rewrite His, Hrecv, Hne, Hnull, Haddr. simpl. destruct l. reflexivity.
Qed.

(** X11. After a batch of at least one row in which every row decodes,
    the cursor of the collection is the identifier of the record decoded
    from the last row of the batch; for an operation list whose last row
    is in array form that record has no children, so the cursor of the
    list is also the cursor of that operation. *)
Theorem Cursor_after_batch
    {C : Collaborators} {OFo : ObjectForm Op.t} {OFb : ObjectForm Block.t} :
  (forall (l : OpList.t) data pre v,
     String.length data <> 0%nat -> data <> "null" ->
     starts_with "[" data = true ->
     json_Unmarshal_RawMessages data = inr (pre ++ [v])%list ->
     OpList.all_rows_decode l (pre ++ [v]) ->
     exists op,
       snd (OpList.row_record (fst (OpList.range_rows l pre)) v) = Ok op
       /\ OpList.Cursor (fst (OpList.UnmarshalJSON l data)) = Ok (Op.Id op)
       /\ (starts_with "[" v = true ->
           OpList.Cursor (fst (OpList.UnmarshalJSON l data)) = Op.Cursor op))
  /\ (forall (l : BlockList.t) data pre v,
        String.length data <> 0%nat -> data <> "null" ->
        starts_with "[" data = true ->
        json_Unmarshal_RawMessages data = inr (pre ++ [v])%list ->
        Forall (fun w => is_Ok (BlockList.row_record l w) = true)
          (pre ++ [v]) ->
        exists r,
          BlockList.row_record l v = Ok r
          /\ BlockList.Cursor (fst (BlockList.UnmarshalJSON l data))
             = Ok (Block.RowId r)).
Proof.
  split.
  - intros l data pre v Hlen Hnull Hstart Harray Hall.
    unfold OpList.UnmarshalJSON.
    apply Nat.eqb_neq in Hlen. apply String.eqb_neq in Hnull.
    rewrite Hlen, Hnull, Hstart, Harray. simpl.
    destruct (OpList_range_rows_ok l (pre ++ [v]) Hall)
      as (rows & _ & Hrows & Hl & Hnth).
    destruct (Hnth (length pre) v) as (op & Hop & Hrec).
    { rewrite lookup_app_r, Nat.sub_diag by lia. reflexivity. }
    rewrite take_app_length in Hrec.
    exists op. split; [exact Hrec|].
    assert (last rows = Some (Some op)) as Hlast.
    { rewrite last_lookup.
      rewrite length_app in Hl. simpl in Hl.
      replace (Init.Nat.pred (length rows)) with (length pre) by lia.
      exact Hop. }
    assert (OpList.Cursor (fst (OpList.range_rows l (pre ++ [v])))
            = Ok (Op.Id op)) as Hcur.
    { unfold OpList.Cursor. rewrite Hrows.
      rewrite last_app, Hlast. reflexivity. }
    split; [exact Hcur|].
    intros Hv. rewrite Hcur.
    destruct (OpList_row_record_children _ v op Hv Hrec) as [Hb Hi].
    unfold Op.Cursor. simpl. rewrite Hb. simpl. rewrite Hi. reflexivity.
  - intros l data pre v Hlen Hnull Hstart Harray Hall.
    unfold BlockList.UnmarshalJSON.
    apply Nat.eqb_neq in Hlen. apply String.eqb_neq in Hnull.
    rewrite Hlen, Hnull, Hstart, Harray. simpl.
    destruct (BlockList_range_rows_ok l (pre ++ [v]) Hall)
      as (rows & Hrange & HF).
    apply Forall2_app_inv_l in HF as (rows1 & rows2 & _ & H2 & ->).
    apply Forall2_cons_inv_l in H2 as (row & rest & (r & Hr & ->) & Hnil & ->).
    apply Forall2_nil_inv_l in Hnil as ->.
    exists r. split; [exact Hr|].
    rewrite Hrange. unfold BlockList.Cursor. simpl.
    rewrite app_assoc, last_snoc. reflexivity.
Qed.

(** ** The content of an operation *)

Section ContentFacts.
Context {C : Collaborators}.

Lemma content_batch_app batch1 batch2 (content : list (option Op.t)) :
  Op.content_batch (batch1 ++ batch2) content
  = let* content' := Op.content_batch batch1 content in
    Op.content_batch batch2 content'.
Proof.
  revert content. induction batch1 as [|v rest IH]; intros content.
  - reflexivity.
  - simpl. destruct v as [item|]; simpl; [|reflexivity]. apply IH.
Qed.

(** Over a batch without nil items the loop appends every item followed
    by its internal operations. *)
Lemma content_batch_items (items : list Op.t) (content : list (option Op.t)) :
  Op.content_batch (map Some items) content
  = Ok (content
        ++ concat (map (fun item => Some item :: Op.Internal item) items))%list.
Proof.
  revert content. induction items as [|item rest IH]; intros content; simpl.
  - rewrite app_nil_r. reflexivity.
  - destruct (Op.Internal item) as [|c cs] eqn:Hi; simpl; rewrite IH;
      rewrite <- !app_assoc; reflexivity.
Qed.

(** The loop fails on a nil item only, and then by a panic. *)
Lemma content_batch_Ok batch (content c : list (option Op.t)) :
  Op.content_batch batch content = Ok c ->
  exists items, batch = map Some items.
Proof.
  revert content. induction batch as [|v rest IH]; intros content.
  - exists []. reflexivity.
  - simpl. destruct v as [item|]; simpl; [|discriminate].
    intros H. apply IH in H as [items ->]. exists (item :: items).
    reflexivity.
Qed.

Lemma last_cons_app {A : Type} (x : A) (l1 l2 : list A) :
  l2 <> [] -> last (l1 ++ l2) = last l2.
Proof.
  intros H. destruct (exists_last H) as (l & y & ->).
  rewrite app_assoc, !last_snoc. reflexivity.
Qed.

End ContentFacts.

(** X12. The content of an operation is never empty.  For an operation
    that is not a batch it is the operation followed by its internal
    operations; for a batch with batch items or internal operations it is
    every batch item followed by its own internal operations, in order,
    and then the internal operations of the batch, without the batch
    operation itself; a nil batch item makes it panic. *)
Theorem Content_shape {C : Collaborators} (o : Op.t) :
  (forall c, Op.Content o = Ok c -> c <> [])
  /\ (Op.IsBatch o = false ->
      Op.Content o = Ok (Some o :: Op.Internal o))
  /\ (Op.Batch o = [] -> Op.Internal o = [] -> Op.Content o = Ok [Some o])
  /\ (forall items,
        Op.IsBatch o = true -> Op.Batch o = map Some items ->
        items <> [] \/ Op.Internal o <> [] ->
        Op.Content o
        = Ok (concat (map (fun item => Some item :: Op.Internal item) items)
              ++ Op.Internal o)%list)
  /\ (forall batch1 batch2,
        Op.IsBatch o = true ->
        Op.Batch o = (map Some batch1 ++ None :: batch2)%list ->
        Op.Content o = Panic NilDereference).
Proof.
  assert (forall items,
            Op.IsBatch o = true -> Op.Batch o = map Some items ->
            items <> [] \/ Op.Internal o <> [] ->
            Op.Content o
            = Ok (concat (map (fun item => Some item :: Op.Internal item) items)
                  ++ Op.Internal o)%list) as Hbatch.
  { intros items Hb Hitems Hne. unfold Op.Content. rewrite Hb, Hitems.
    rewrite content_batch_items. simpl.
    destruct items as [|item items]; destruct (Op.Internal o) as [|c cs];
      simpl; try reflexivity.
    - destruct Hne as [Hne|Hne]; contradiction Hne; reflexivity.
    - rewrite app_nil_r. reflexivity. }
  split; [|split; [|split; [|split]]].
  - intros c. unfold Op.Content.
    destruct ((length (Op.Batch o) =? 0)%nat && (length (Op.Internal o) =? 0)%nat)
      eqn:Hempty; [intros [= <-]; discriminate|].
    destruct (Op.IsBatch o).
    + destruct (Op.content_batch (Op.Batch o) []) as [c0| |] eqn:E; simpl;
        [|discriminate..].
      intros [= <-]. intros Hnil.
      destruct (Op.Internal o) as [|i is_]; simpl in *.
      * destruct (Op.Batch o) as [|v rest]; simpl in *; [discriminate|].
        destruct v as [item|]; simpl in E; [|discriminate].
        subst c0.
        destruct (content_batch_Ok _ _ _ E) as [items ->].
        rewrite content_batch_items in E. injection E as E.
        destruct (Op.Internal item); simpl in E; discriminate.
      * apply app_eq_nil in Hnil as [_ Hnil]. discriminate.
    + simpl. intros [= <-]. destruct (Op.Internal o); discriminate.
  - intros Hb. unfold Op.Content. rewrite Hb.
    destruct (Op.Internal o) as [|c cs]; simpl.
    + destruct (length (Op.Batch o) =? 0)%nat; reflexivity.
    + rewrite andb_false_r. reflexivity.
  - intros Hb Hi. unfold Op.Content. rewrite Hb, Hi. reflexivity.
  - exact Hbatch.
  - intros batch1 batch2 Hb Hbatch'. unfold Op.Content. rewrite Hb, Hbatch'.
    rewrite length_app. simpl.
    replace ((length (map Some batch1) + S (length batch2) =? 0)%nat)
      with false by (symmetry; apply Nat.eqb_neq; lia).
    simpl. rewrite content_batch_app, content_batch_items. reflexivity.
Qed.

(** X13. When an operation has no batch items, or is a batch without
    internal operations of its own, its cursor is the identifier of the
    last operation of its content. *)
Theorem Cursor_is_last_of_Content {C : Collaborators} (o : Op.t) c :
  Op.Content o = Ok c ->
  Op.Batch o = [] \/ (Op.IsBatch o = true /\ Op.Internal o = []) ->
  exists p, last c = Some p /\ Op.Cursor o = Op.deref p Op.Id.
Proof.
  intros Hc Hcond. unfold Op.Cursor. cbv zeta.
  change (Op.deref (Some o) Op.Batch) with (Ok (Op.Batch o)). cbn [bind].
  destruct Hcond as [Hb|[Hb Hi]].
  - rewrite Hb. simpl. revert Hc. unfold Op.Content. rewrite Hb. simpl.
    destruct (Op.Internal o) as [|i is_] eqn:Hi; simpl.
    + intros [= <-]. exists (Some o). split; reflexivity.
    + destruct (Op.IsBatch o); simpl; intros [= <-].
      * exists (Op.last_child (i :: is_) (Some o)). split; [|reflexivity].
        unfold Op.last_child.
        destruct (last (i :: is_)) eqn:Hl; [reflexivity|].
        apply last_None in Hl. discriminate.
      * exists (Op.last_child (i :: is_) (Some o)). split; [|reflexivity].
        unfold Op.last_child.
        change (Some o :: i :: is_) with ([Some o] ++ i :: is_)%list.
        rewrite (last_cons_app (Some o)) by discriminate.
        destruct (last (i :: is_)) eqn:Hl; [reflexivity|].
        apply last_None in Hl. discriminate.
  - revert Hc. unfold Op.Content. rewrite Hb, Hi.
    change (length (@nil (option Op.t)) =? 0)%nat with true.
    change (0 <? length (@nil (option Op.t)))%nat with false.
    rewrite andb_true_r.
    destruct (length (Op.Batch o) =? 0)%nat eqn:Hlen.
    + apply Nat.eqb_eq, length_zero_iff_nil in Hlen. rewrite Hlen.
      intros [= <-]. exists (Some o). simpl. rewrite Hi.
      split; reflexivity.
    + assert (Op.Batch o <> []) as Hne.
      { intros Hnil. rewrite Hnil in Hlen. discriminate. }
      destruct (Op.content_batch (Op.Batch o) []) as [c0| |] eqn:E;
        cbn [bind]; [|discriminate..].
      intros [= <-].
      destruct (content_batch_Ok _ _ _ E) as [items Hitems].
      rewrite Hitems in E, Hne |- *.
      rewrite content_batch_items in E. injection E as <-.
      destruct (exists_last (l := items)) as (front & item & ->).
      { intros ->. apply Hne. reflexivity. }
      assert (Op.last_child (map Some (front ++ [item])) (Some o) = Some item)
        as ->.
      { unfold Op.last_child. rewrite map_app. simpl.
        rewrite last_snoc. reflexivity. }
      cbn [Op.deref bind].
      exists (Op.last_child (Op.Internal item) (Some item)).
      split; [|reflexivity].
      rewrite map_app, concat_app. simpl. rewrite app_nil_r.
      rewrite (last_cons_app (Some item)) by discriminate.
      unfold Op.last_child.
      destruct (Op.Internal item) as [|i is_]; [reflexivity|].
      change (Some item :: i :: is_) with ([Some item] ++ i :: is_)%list.
      rewrite (last_cons_app (Some item)) by discriminate.
      destruct (last (i :: is_)) eqn:Hl; [reflexivity|].
      apply last_None in Hl. discriminate.
Qed.

(** ** Block identifiers and timestamps *)

Lemma wrap64_exact (z : Z) :
  wrap64 z = z <-> - 2 ^ 63 <= z < 2 ^ 63.
Proof.
  unfold wrap64.
  change (2 ^ 63) with 9223372036854775808.
  change (2 ^ 64) with 18446744073709551616.
  split.
  - intros Hw.
    pose proof (Z.mod_pos_bound (z + 9223372036854775808)
                  18446744073709551616 eq_refl).
    lia.
  - intros Hr. rewrite Z.mod_small by lia. lia.
Qed.

Lemma wrap64_succ_neq (h : Z) : wrap64 (h + 1) <> h.
Proof.
  unfold wrap64.
  change (2 ^ 63) with 9223372036854775808.
  change (2 ^ 64) with 18446744073709551616.
  intros Hw.
  pose proof (Z.div_mod (h + 1 + 9223372036854775808)
                18446744073709551616 ltac:(discriminate)) as Hdm.
  lia.
Qed.

(** X14. A block that is the same block as an identifier is never the
    next block of that identifier: the height test of [IsNextBlock]
    already fails, whatever the hashes are, and the parent hash is not
    read. *)
Theorem IsSameBlock_excludes_IsNextBlock {C : Collaborators} {H : HashOps}
    (i : BlockId.t) (b : option Block.t) :
  BlockId_IsSameBlock i b = true ->
  BlockId_IsNextBlock i b = Ok false.
Proof.
  destruct b as [b|]; simpl; [|discriminate].
  destruct (Block.Height b =? BlockId.Height i) eqn:Hh; simpl;
    [|discriminate].
  intros _. apply Z.eqb_eq in Hh. rewrite Hh.
  destruct (BlockId.Height i =? wrap64 (BlockId.Height i + 1)) eqn:Hn;
    [|reflexivity].
  apply Z.eqb_eq in Hn. symmetry in Hn. apply wrap64_succ_neq in Hn.
  contradiction.
Qed.

(** X15. When a cloned hash equals the hash it was cloned from, the
    identifier taken from a block designates that block and not its
    successor, a block one level higher whose parent hash is the hash of
    the block is its next block, and the identifier taken from an
    operation designates the block with the height and block hash the
    operation carries. *)
Theorem BlockId_round_trip {C : Collaborators} {H : HashOps}
    (Clone_Equal : forall h, BlockHash_Equal h (BlockHash_Clone h) = true)
    (b : Block.t) :
  BlockId_IsSameBlock (Block.BlockId b) (Some b) = true
  /\ BlockId_IsNextBlock (Block.BlockId b) (Some b) = Ok false
  /\ (forall next,
        Block.Height next = wrap64 (Block.Height b + 1) ->
        Block.ParentHash next = Some (Block.Hash b) ->
        BlockId_IsNextBlock (Block.BlockId b) (Some next) = Ok true)
  /\ (forall op,
        Op.Height op = Block.Height b -> Op.Block op = Block.Hash b ->
        BlockId_IsSameBlock (Op.BlockId op) (Some b) = true).
Proof.
  split; [|split; [|split]].
  - simpl. rewrite Z.eqb_refl, Clone_Equal. reflexivity.
  - simpl.
    destruct (Block.Height b =? wrap64 (Block.Height b + 1)) eqn:Hn;
      [|reflexivity].
    apply Z.eqb_eq in Hn. symmetry in Hn. apply wrap64_succ_neq in Hn.
    contradiction.
  - intros next Hh Hp. simpl. rewrite Hh, Z.eqb_refl, Hp. simpl.
    rewrite Clone_Equal. reflexivity.
  - intros op Hh Hb. simpl. rewrite Hh, Z.eqb_refl, Hb, Clone_Equal.
    reflexivity.
Qed.

(** X16. A [time] column holding [ts] milliseconds is stored as the
    instant [ts * 1000000] nanoseconds after the epoch exactly when [ts]
    lies between -9223372036854 and 9223372036854; outside this range
    the product wraps around and the decoder reports no error.  The
    operation and the block decoder agree. *)
Theorem time_column_exact {C : Collaborators} (n : string) (ts : Z) :
  strconv_ParseInt n = inr ts ->
  (forall o op,
      is_Ok (Op.decode_column o op "time" (JNumber n)) = true
      /\ (Op.decode_column o op "time" (JNumber n)
          = Ok (Op.set_Timestamp (UnixNano (ts * 1000000)) op)
          <-> -9223372036854 <= ts <= 9223372036854))
  /\ (forall block,
      is_Ok (Block.decode_column block "time" (JNumber n)) = true
      /\ (Block.decode_column block "time" (JNumber n)
          = Ok (Block.set_Timestamp (UnixNano (ts * 1000000)) block)
          <-> -9223372036854 <= ts <= 9223372036854)).
Proof.
  intros Hts.
  assert (wrap64 (ts * 1000000) = ts * 1000000
          <-> -9223372036854 <= ts <= 9223372036854) as Hexact.
  { rewrite wrap64_exact. change (2 ^ 63) with 9223372036854775808. lia. }
  split.
  - intros o op.
    assert (Op.decode_column o op "time" (JNumber n)
            = Ok (Op.set_Timestamp (time_of_millis ts) op)) as ->.
    { cbv [Op.decode_column String.eqb Ascii.eqb Bool.eqb].
      unfold parse_Number. simpl. rewrite Hts. reflexivity. }
    split; [reflexivity|]. rewrite <- Hexact. unfold time_of_millis. split.
    + intros Heq. apply (f_equal (fun r => match r with
                                           | Ok x => Op.Timestamp x
                                           | _ => ZeroTime
                                           end)) in Heq.
      simpl in Heq. injection Heq as Heq. exact Heq.
    + intros ->. reflexivity.
  - intros block.
    assert (Block.decode_column block "time" (JNumber n)
            = Ok (Block.set_Timestamp (time_of_millis ts) block)) as ->.
    { cbv [Block.decode_column String.eqb Ascii.eqb Bool.eqb].
      unfold parse_Number. simpl. rewrite Hts. reflexivity. }
    split; [reflexivity|]. rewrite <- Hexact. unfold time_of_millis. split.
    + intros Heq. apply (f_equal (fun r => match r with
                                           | Ok x => Block.Timestamp x
                                           | _ => ZeroTime
                                           end)) in Heq.
      simpl in Heq. injection Heq as Heq. exact Heq.
    + intros ->. reflexivity.
Qed.

(** * Runs on concrete rows

    The theorems above at concrete inputs, with the executable instance of
    the collaborators. *)

Section Examples.
Import Demo.

(** The two-byte payload [42] on records that already hold data. *)
Lemma UnmarshalJSON_short_payload_witness :
  let o := Op.set_Id 5 (Op.set_columns ["id"] Op.zero) in
  let b := Block.set_RowId 9 (Block.set_columns ["row_id"] Block.zero) in
  String.length "42" = 2%nat
  /\ Op.UnmarshalJSON o "42" = (o, Ok tt)
  /\ Block.UnmarshalJSON b "42" = (b, Ok tt).
Proof.
  intros o b. split; [reflexivity|].
  apply (UnmarshalJSON_short_payload o b "42").
  right. right. reflexivity.
Defined.

(** The second column fails to parse ([-1] is no unsigned integer): the
    target keeps its fields, and the boolean in the third position is never
    looked at. *)
Lemma UnmarshalJSONBrief_all_or_nothing_witness :
  let o := Op.set_Id 5 (Op.set_columns ["height"; "id"; "cycle"] Op.zero) in
  let b := Block.set_RowId 9 (Block.set_columns ["height"; "row_id"; "cycle"] Block.zero) in
  let err := LibError "strconv.ParseUint: invalid syntax" in
  Op.UnmarshalJSONBrief o "[7,-1,true]" = (o, Err err)
  /\ fst (Op.UnmarshalJSONBrief o "[7,-1,true]") = o
  /\ Block.UnmarshalJSONBrief b "[7,-1,true]" = (b, Err err)
  /\ fst (Block.UnmarshalJSONBrief b "[7,-1,true]") = b.
Proof.
  intros o b err.
  destruct (UnmarshalJSONBrief_all_or_nothing (C := Demo.collaborators))
    as (Ho1 & Ho2 & Hb1 & Hb2).
  split; [|split; [|split]].
  - apply (Ho2 o "[7,-1,true]" [JNumber "7"; JNumber "-1"; JBool true]
             ["height"] "id" ["cycle"] (Op.set_Height 7 Op.zero) (JNumber "-1") err);
      reflexivity.
  - apply Ho1. vm_compute. discriminate.
  - apply (Hb2 b "[7,-1,true]" [JNumber "7"; JNumber "-1"; JBool true]
             ["height"] "row_id" ["cycle"] (Block.set_Height 7 Block.zero)
             (JNumber "-1") err);
      reflexivity.
  - apply Hb1. vm_compute. discriminate.
Defined.

(** A null in the middle of a row, under the column [hash], and a row of
    nulls. *)
Lemma UnmarshalJSONBrief_null_skipped_witness :
  let o := Op.set_columns ["id"; "hash"; "height"] Op.zero in
  let b := Block.set_columns ["row_id"; "hash"; "height"] Block.zero in
  Op.UnmarshalJSONBrief o "[4,null,7]"
    = (Op.set_Height 7 (Op.set_Id 4 Op.zero), Ok tt)
  /\ Op.Hash (fst (Op.UnmarshalJSONBrief o "[4,null,7]")) = Op.Hash Op.zero
  /\ Op.UnmarshalJSONBrief o "[null,null,null]" = (Op.zero, Ok tt)
  /\ Block.UnmarshalJSONBrief b "[4,null,7]"
     = (Block.set_Height 7 (Block.set_RowId 4 Block.zero), Ok tt)
  /\ Block.Hash (fst (Block.UnmarshalJSONBrief b "[4,null,7]"))
     = Block.Hash Block.zero
  /\ Block.UnmarshalJSONBrief b "[null,null,null]" = (Block.zero, Ok tt).
Proof.
  intros o b.
  destruct (UnmarshalJSONBrief_null_skipped (C := Demo.collaborators))
    as (Ho1 & Ho2 & Ho3 & Hb1 & Hb2 & Hb3).
  split; [|split; [|split; [|split; [|split]]]].
  - rewrite (Ho1 o "[4,null,7]" ["id"] "hash" ["height"]
               [JNumber "4"] [JNumber "7"]); reflexivity.
  - apply (Ho2 _ Op.Hash o _ "[4,null,7]" [JNumber "4"; JNull; JNumber "7"] "hash");
      [reflexivity | | | reflexivity].
    + intros op c f op' Hc. apply Op_decode_column_Hash. exact Hc.
    + intros [|[|[|i]]]; simpl; intros H; (discriminate || reflexivity).
  - apply (Ho3 o "[null,null,null]" [JNull; JNull; JNull]);
      [reflexivity | simpl; lia |].
    simpl. intuition congruence.
  - rewrite (Hb1 b "[4,null,7]" ["row_id"] "hash" ["height"]
               [JNumber "4"] [JNumber "7"]); reflexivity.
  - apply (Hb2 _ Block.Hash b _ "[4,null,7]" [JNumber "4"; JNull; JNumber "7"] "hash");
      [reflexivity | | | reflexivity].
    + intros block c f block' Hc. apply Block_decode_column_Hash. exact Hc.
    + intros [|[|[|i]]]; simpl; intros H; (discriminate || reflexivity).
  - apply (Hb3 b "[null,null,null]" [JNull; JNull; JNull]);
      [reflexivity | simpl; lia |].
    simpl. intuition congruence.
Defined.

(** Two columns against three values and against one value. *)
Lemma UnmarshalJSONBrief_positional_access_witness :
  let o := Op.set_columns ["id"; "height"] Op.zero in
  let b := Block.set_columns ["row_id"; "height"] Block.zero in
  snd (Op.UnmarshalJSONBrief o "[4,7,true]") <> Panic IndexOutOfRange
  /\ Op.UnmarshalJSONBrief o "[4]" = (o, Panic IndexOutOfRange)
  /\ snd (Block.UnmarshalJSONBrief b "[4,7,true]") <> Panic IndexOutOfRange
  /\ Block.UnmarshalJSONBrief b "[4]" = (b, Panic IndexOutOfRange).
Proof.
  intros o b.
  destruct (UnmarshalJSONBrief_positional_access (C := Demo.collaborators))
    as (Ho & Hb).
  split; [|split; [|split]].
  - apply (Ho o "[4,7,true]" [JNumber "4"; JNumber "7"; JBool true]);
      [reflexivity | simpl; lia].
  - apply (Ho o "[4]" [JNumber "4"]) with (scratch := Op.set_Id 4 Op.zero);
      [reflexivity | simpl; lia | reflexivity].
  - apply (Hb b "[4,7,true]" [JNumber "4"; JNumber "7"; JBool true]);
      [reflexivity | simpl; lia].
  - apply (Hb b "[4]" [JNumber "4"]) with (scratch := Block.set_RowId 4 Block.zero);
      [reflexivity | simpl; lia | reflexivity].
Defined.

(** A boolean literal for [is_success] and a number for [hash]. *)
Lemma UnmarshalJSONBrief_wrong_kind_panics_witness :
  let o := Op.set_columns ["height"; "is_success"] Op.zero in
  let b := Block.set_columns ["height"; "hash"] Block.zero in
  Op.UnmarshalJSONBrief o "[7,true]" = (o, Panic TypeAssertion)
  /\ Block.UnmarshalJSONBrief b "[7,12]" = (b, Panic TypeAssertion).
Proof.
  intros o b.
  destruct (UnmarshalJSONBrief_wrong_kind_panics (C := Demo.collaborators))
    as (Ho & Hb).
  split.
  - apply (Ho o "[7,true]" [JNumber "7"; JBool true] ["height"] "is_success" []
             (Op.set_Height 7 Op.zero) (JBool true)); reflexivity.
  - apply (Hb b "[7,12]" [JNumber "7"; JNumber "12"] ["height"] "hash" []
             (Block.set_Height 7 Block.zero) (JNumber "12")); reflexivity.
Defined.

(** C2, as the specification states it, fails: a text string where a
    number is expected, and a boolean literal where the numeric form of a
    boolean is expected, do not make the decode return an error; it
    panics. *)
Lemma UnmarshalJSONBrief_wrong_kind_counterexample :
  let o := Op.set_columns ["is_success"] Op.zero in
  let b := Block.set_columns ["row_id"] Block.zero in
  let text := ("[" ++ Demo.quoted "abc" ++ "]")%string in
  json_Decode "[true]" = inr [JBool true]
  /\ snd (Op.UnmarshalJSONBrief o "[true]") = Panic TypeAssertion
  /\ ~ (exists err, snd (Op.UnmarshalJSONBrief o "[true]") = Err err)
  /\ json_Decode text = inr [JString "abc"]
  /\ snd (Block.UnmarshalJSONBrief b text) = Panic TypeAssertion
  /\ ~ (exists err, snd (Block.UnmarshalJSONBrief b text) = Err err).
Proof.
  intros o b text. repeat split.
  - intros [err H]. vm_compute in H. discriminate.
  - intros [err H]. vm_compute in H. discriminate.
Qed.

(** A list ending in a row without children, and operations with a batch and
    with internal operations. *)
Lemma Cursor_of_last_row_witness :
  let child := Op.set_Id 3 Op.zero in
  let item := Op.set_Internal [Some child] (Op.set_Id 2 Op.zero) in
  let row := Op.set_Batch [Some item] (Op.set_Id 1 Op.zero) in
  OpList.Cursor (OpList.mk [] false [] tt []) = Ok 0
  /\ OpList.Cursor (OpList.mk [Some row; Some child] false [] tt []) = Ok 3
  /\ OpList.Cursor (OpList.mk [Some row; Some child] false [] tt [])
     = Op.Cursor child
  /\ Op.Cursor child = Ok 3
  /\ Op.Cursor item = Ok 3
  /\ Op.Cursor (Op.set_Id 4 row) = Ok 3.
Proof.
  intros child item row.
  destruct (Cursor_of_last_row (C := Demo.collaborators))
    as (H0 & H1 & H2 & H3 & H4 & _ & H6).
  split; [|split; [|split; [|split; [|split]]]].
  - apply H0. reflexivity.
  - apply (H1 _ [Some row] child). reflexivity.
  - apply (H2 _ [Some row] child); reflexivity.
  - apply H3; reflexivity.
  - apply (H4 item [] child); reflexivity.
  - apply (H6 (Op.set_Id 4 row) [] item [] child); reflexivity.
Defined.

(** C1, as the specification states it, fails: for a collection whose last
    row has a batch, [OpList.Cursor] is the identifier of the row (1), not
    that of the deepest last child (3), which is what [Op.Cursor] of the
    row gives. *)
Lemma OpList_Cursor_counterexample :
  let child := Op.set_Id 3 Op.zero in
  let item := Op.set_Internal [Some child] (Op.set_Id 2 Op.zero) in
  let row := Op.set_Batch [Some item] (Op.set_Id 1 Op.zero) in
  let l := OpList.mk [Some row] false [] tt [] in
  Op.Batch row = [Some item] /\ Op.Internal item = [Some child]
  /\ Op.Id row = 1 /\ Op.Id item = 2 /\ Op.Id child = 3
  /\ OpList.Cursor l = Ok 1
  /\ Op.Cursor row = Ok 3
  /\ OpList.Cursor l <> Ok (Op.Id child).
Proof. repeat split. discriminate. Qed.

(** A diff of four events: an update of the known big-map 7, an update of
    the unknown big-map 8, a remove and an alloc. *)
Lemma BigmapDiff_value_iff_resolvable_witness :
  let o := Op.set_bigmaps {[ 7 := Some "nat" ]}
             (Op.set_columns ["big_map_diff"] Op.zero) in
  let data := ("[" ++ Demo.quoted "7507750872076107" ++ "]")%string in
  let o' := fst (Op.UnmarshalJSONBrief o data) in
  map (fun u => (BigmapUpdate.Action u, BigmapUpdate.BigmapId u,
                 BigmapValue.Value (BigmapUpdate.BigmapValue_ u)))
    (Op.BigmapDiff o')
  = [(DiffActionUpdate, 7, Some "value"); (DiffActionUpdate, 8, None);
     (DiffActionRemove, 7, None); (DiffActionAlloc, 7, None)]
  /\ forall u, In u (Op.BigmapDiff o') ->
       match BigmapUpdate.Action u with
       | DiffActionUpdate =>
           BigmapValue.Value (BigmapUpdate.BigmapValue_ u) <> None
           <-> exists typ, Op.bigmaps o !! BigmapUpdate.BigmapId u = Some typ
                           /\ Type_IsValid (Type_Right typ) = true
       | _ => BigmapValue.Value (BigmapUpdate.BigmapValue_ u) = None
       end.
Proof.
  intros o data o'. split; [reflexivity|].
  apply (BigmapDiff_value_iff_resolvable o o' data); reflexivity.
Defined.

(** The column [height] comes before [big_map_diff], [receiver] and [time]
    after it: the metadata holds the height of the row and the zero address
    and time, while the record holds the receiver and time of the row. *)
Lemma BigmapDiff_meta_from_scratch_witness :
  let o := Op.set_withMeta true
             (Op.set_columns ["height"; "big_map_diff"; "receiver"; "time"]
                Op.zero) in
  let data :=
    ("[5," ++ Demo.quoted "75077207" ++ "," ++ Demo.quoted "KT1known"
       ++ ",1000]")%string in
  let o' := fst (Op.UnmarshalJSONBrief o data) in
  (Op.Receiver o', Op.Height o', Op.Timestamp o')
  = ("KT1known", 5, UnixNano 1000000000)
  /\ map (fun u => BigmapValue.Meta (BigmapUpdate.BigmapValue_ u))
       (Op.BigmapDiff o')
     = [Some (BigmapMeta.mk "" 7 ZeroTime 5); Some (BigmapMeta.mk "" 7 ZeroTime 5)]
  /\ exists scratch,
       range_columns (Op.decode_column o) ["height"] 0
         [JNumber "5"; JString "75077207"; JString "KT1known"; JNumber "1000"]
         Op.zero = Ok scratch
       /\ (forall u, In u (Op.BigmapDiff o') ->
             BigmapUpdate.Action u = DiffActionUpdate
             \/ BigmapUpdate.Action u = DiffActionRemove ->
             BigmapValue.Meta (BigmapUpdate.BigmapValue_ u)
             = Some {| BigmapMeta.Contract := Op.Receiver scratch;
                       BigmapMeta.BigmapId := BigmapUpdate.BigmapId u;
                       BigmapMeta.UpdateTime := Op.Timestamp scratch;
                       BigmapMeta.UpdateHeight := Op.Height scratch |})
       /\ (~ In "receiver" ["height"] -> Op.Receiver scratch = Address_zero)
       /\ (~ In "height" ["height"] -> Op.Height scratch = 0)
       /\ (~ In "time" ["height"] -> Op.Timestamp scratch = ZeroTime).
Proof.
  intros o data o'. split; [reflexivity|]. split; [reflexivity|].
  apply (BigmapDiff_meta_from_scratch o o' data
           [JNumber "5"; JString "75077207"; JString "KT1known"; JNumber "1000"]
           ["height"] ["receiver"; "time"]);
    try reflexivity.
  - simpl. intros [H|[]]. discriminate.
  - simpl. intros [H|[H|[]]]; discriminate.
Defined.

(** Three rows, as operations and as blocks. *)
Lemma UnmarshalJSON_batch_in_order_witness :
  let ol := OpList.mk [] false ["id"; "height"] tt [] in
  let bl := BlockList.mk [] ["row_id"; "height"] in
  let data := "[[1,10],[2,20],[3,30]]" in
  (exists rows,
     snd (OpList.UnmarshalJSON ol data) = Ok tt
     /\ OpList.Rows (fst (OpList.UnmarshalJSON ol data)) = ([] ++ rows)%list
     /\ length rows = 3%nat
     /\ forall i v, ["[1,10]"; "[2,20]"; "[3,30]"] !! i = Some v ->
          exists op,
            rows !! i = Some (Some op)
            /\ snd (OpList.row_record
                      (fst (OpList.range_rows ol
                              (take i ["[1,10]"; "[2,20]"; "[3,30]"]))) v)
               = Ok op)
  /\ (exists rows,
        BlockList.UnmarshalJSON bl data
        = (BlockList.set_Rows ([] ++ rows) bl, Ok tt)
        /\ length rows = 3%nat
        /\ forall i v, ["[1,10]"; "[2,20]"; "[3,30]"] !! i = Some v ->
             exists r,
               rows !! i = Some (Some r) /\ BlockList.row_record bl v = Ok r)
  /\ map (option_map Op.Id) (OpList.Rows (fst (OpList.UnmarshalJSON ol data)))
     = [Some 1; Some 2; Some 3]
  /\ map (option_map Block.RowId)
       (BlockList.Rows (fst (BlockList.UnmarshalJSON bl data)))
     = [Some 1; Some 2; Some 3].
Proof.
  intros ol bl data.
  destruct (UnmarshalJSON_batch_in_order (C := Demo.collaborators)
              (OFo := Demo.object_form _) (OFb := Demo.object_form _))
    as (Ho & Hb).
  split; [|split; [|split; reflexivity]].
  - apply (Ho ol data ["[1,10]"; "[2,20]"; "[3,30]"]);
      try reflexivity; try discriminate.
    simpl. repeat split.
  - apply (Hb bl data ["[1,10]"; "[2,20]"; "[3,30]"]);
      try reflexivity; try discriminate.
    repeat constructor.
Defined.



(** The column [row_id] is unknown to operations and [id] to blocks; the
    value under it is a boolean. *)
Lemma UnmarshalJSONBrief_unknown_column_ignored_witness :
  let o := Op.set_columns ["id"; "row_id"; "height"] Op.zero in
  let b := Block.set_columns ["row_id"; "id"; "height"] Block.zero in
  Op.UnmarshalJSONBrief o "[4,true,7]"
    = (Op.set_Height 7 (Op.set_Id 4 Op.zero), Ok tt)
  /\ Block.UnmarshalJSONBrief b "[4,true,7]"
     = (Block.set_Height 7 (Block.set_RowId 4 Block.zero), Ok tt).
Proof.
  intros o b.
  destruct (UnmarshalJSONBrief_unknown_column_ignored (C := Demo.collaborators))
    as (Ho & Hb).
  split.
  - rewrite (Ho o "[4,true,7]" ["id"] "row_id" ["height"]
               [JNumber "4"] (JBool true) [JNumber "7"]); try reflexivity.
    apply not_In_existsb. reflexivity.
  - rewrite (Hb b "[4,true,7]" ["row_id"] "id" ["height"]
               [JNumber "4"] (JBool true) [JNumber "7"]); try reflexivity.
    apply not_In_existsb. reflexivity.
Defined.

(** A record decoded once, then used for a second row. *)
Lemma UnmarshalJSONBrief_resets_context_witness :
  let o := Op.set_withPrim true (Op.set_columns ["id"; "height"] Op.zero) in
  let b := Block.set_columns ["row_id"; "height"] Block.zero in
  let o' := fst (Op.UnmarshalJSONBrief o "[4,7]") in
  let b' := fst (Block.UnmarshalJSONBrief b "[4,7]") in
  (Op.Id o', Op.Height o', Op.columns o', Op.withPrim o') = (4, 7, [], false)
  /\ Op.UnmarshalJSONBrief o' "[5,8]" = (Op.zero, Ok tt)
  /\ (Block.RowId b', Block.columns b') = (4, [])
  /\ Block.UnmarshalJSONBrief b' "[5,8]" = (Block.zero, Ok tt).
Proof.
  intros o b o' b'.
  destruct (UnmarshalJSONBrief_resets_context (C := Demo.collaborators))
    as (Ho & Hb).
  split; [reflexivity|]. split; [|split; [reflexivity|]].
  - destruct (Ho o o' "[4,7]" eq_refl) as (_ & Hagain).
    apply (Hagain "[5,8]" [JNumber "5"; JNumber "8"]). reflexivity.
  - destruct (Hb b b' "[4,7]" eq_refl) as (_ & Hagain).
    apply (Hagain "[5,8]" [JNumber "5"; JNumber "8"]). reflexivity.
Defined.

(** A decoded row and its cursor and content. *)
Lemma UnmarshalJSONBrief_no_children_witness :
  let o := Op.set_columns ["id"; "is_batch"] Op.zero in
  let o' := fst (Op.UnmarshalJSONBrief o "[4,1]") in
  (Op.Id o', Op.IsBatch o') = (4, true)
  /\ Op.Cursor o' = Ok 4
  /\ Op.Content o' = Ok [Some o'].
Proof.
  intros o o'. split; [reflexivity|].
  destruct (UnmarshalJSONBrief_no_children (C := Demo.collaborators)
              o o' "[4,1]" eq_refl) as (_ & Hcur & Hcon).
  split; [exact Hcur|exact Hcon].
Defined.

(** An alloc, a copy, an update and a remove, with primitive trees and
    metadata requested. *)
Lemma BigmapDiff_alloc_copy_records_witness :
  let o := Op.set_withMeta true (Op.set_withPrim true
             (Op.set_columns ["big_map_diff"] Op.zero)) in
  let data := ("[" ++ Demo.quoted "6107630775077207" ++ "]")%string in
  let o' := fst (Op.UnmarshalJSONBrief o data) in
  map BigmapUpdate.Action (Op.BigmapDiff o')
  = [DiffActionAlloc; DiffActionCopy; DiffActionUpdate; DiffActionRemove]
  /\ forall u, In u (Op.BigmapDiff o') ->
       BigmapUpdate.Action u = DiffActionAlloc
       \/ BigmapUpdate.Action u = DiffActionCopy ->
       BigmapUpdate.BigmapValue_ u = BigmapValue.zero
       /\ BigmapUpdate.KeyTypePrim u = None
       /\ BigmapUpdate.ValueTypePrim u = None.
Proof.
  intros o data o'. split; [reflexivity|].
  apply (BigmapDiff_alloc_copy_records o o' data). reflexivity.
Defined.

Lemma BigmapDiff_update_remove_records_witness :
  let o := Op.set_withMeta true (Op.set_withPrim true
             (Op.set_columns ["big_map_diff"] Op.zero)) in
  let data := ("[" ++ Demo.quoted "6107630775077207" ++ "]")%string in
  let o' := fst (Op.UnmarshalJSONBrief o data) in
  map (fun u => (BigmapValue.KeyPrim (BigmapUpdate.BigmapValue_ u),
                 BigmapValue.ValuePrim (BigmapUpdate.BigmapValue_ u)))
    (Op.BigmapDiff o')
  = [(None, None); (None, None); (Some "key", Some "value"); (Some "key", None)]
  /\ forall u, In u (Op.BigmapDiff o') ->
       BigmapUpdate.Action u = DiffActionUpdate
       \/ BigmapUpdate.Action u = DiffActionRemove ->
       (BigmapUpdate.KeyType u = None /\ BigmapUpdate.ValueType u = None
        /\ BigmapUpdate.KeyTypePrim u = None
        /\ BigmapUpdate.ValueTypePrim u = None
        /\ BigmapUpdate.SourceId u = 0 /\ BigmapUpdate.DestId u = 0)
       /\ (BigmapValue.KeyPrim (BigmapUpdate.BigmapValue_ u) <> None
           <-> Op.withPrim o = true)
       /\ (BigmapValue.ValuePrim (BigmapUpdate.BigmapValue_ u) <> None
           <-> BigmapUpdate.Action u = DiffActionUpdate
               /\ Op.withPrim o = true)
       /\ (BigmapValue.Meta (BigmapUpdate.BigmapValue_ u) <> None
           <-> Op.withMeta o = true).
Proof.
  intros o data o'. split; [reflexivity|].
  apply (BigmapDiff_update_remove_records o o' data). reflexivity.
Defined.

(** A diff of an alloc of big-map 7 and an update of big-map 8, followed
    by another column. *)
Lemma BigmapDiff_one_record_per_event_witness :
  let o := Op.set_columns ["id"; "big_map_diff"; "height"] Op.zero in
  let data := ("[4," ++ Demo.quoted "61077508" ++ ",9]")%string in
  let o' := fst (Op.UnmarshalJSONBrief o data) in
  map (fun u => (BigmapUpdate.Action u, BigmapUpdate.BigmapId u))
    (Op.BigmapDiff o')
  = [(DiffActionAlloc, 7); (DiffActionUpdate, 8)]
  /\ Forall2 (fun v u =>
       BigmapUpdate.Action u = BigmapEvent_Action v
       /\ BigmapUpdate.BigmapId u = BigmapEvent_Id v
       /\ match BigmapEvent_Action v with
          | DiffActionAlloc | DiffActionCopy =>
              BigmapUpdate.SourceId u = BigmapEvent_SourceId v
              /\ BigmapUpdate.DestId u = BigmapEvent_DestId v
              /\ BigmapUpdate.KeyType u
                 = Type_TypedefPtr (Type_of_Prim (BigmapEvent_KeyType v)) "@key"
              /\ BigmapUpdate.ValueType u
                 = Type_TypedefPtr (Type_of_Prim (BigmapEvent_ValueType v))
                     "@value"
          | DiffActionUpdate | DiffActionRemove =>
              let ktyp :=
                match Op.bigmaps o !! BigmapEvent_Id v with
                | Some typ => Type_Left typ
                | None => Prim_BuildType (BigmapEvent_Key v)
                end in
              if Prim_IsEmptyBigmap (BigmapEvent_Key v) then
                BigmapValue.Key_ (BigmapUpdate.BigmapValue_ u) = MultiKey_zero
                /\ BigmapValue.Hash (BigmapUpdate.BigmapValue_ u)
                   = ExprHash_zero
              else
                BigmapValue.Key_ (BigmapUpdate.BigmapValue_ u)
                = MultiKey_UnmarshalJSON
                    (Key_MarshalJSON (BigmapEvent_GetKey v ktyp))
                /\ BigmapValue.Hash (BigmapUpdate.BigmapValue_ u)
                   = BigmapEvent_KeyHash v
          end)
       [Demo.mkEvent DiffActionAlloc 7 "expr" "key";
        Demo.mkEvent DiffActionUpdate 8 "expr" "key"]
       (Op.BigmapDiff o').
Proof.
  intros o data o'. split; [reflexivity|].
  apply (BigmapDiff_one_record_per_event o o' data
           [JNumber "4"; JString "61077508"; JNumber "9"]
           ["id"] ["height"] "61077508"
           (String "a" (String "007" (String "u" (String "008" EmptyString)))));
    try reflexivity.
  apply not_In_existsb. reflexivity.
Defined.

(** A storage column decoded with a valid storage type and primitive trees
    requested. *)
Lemma Storage_value_iff_typed_witness :
  let o := Op.set_store (Some "nat") (Op.set_withPrim true
             (Op.set_columns ["storage"] Op.zero)) in
  let data := ("[" ++ Demo.quoted "beef" ++ "]")%string in
  let o' := fst (Op.UnmarshalJSONBrief o data) in
  exists cv,
    Op.Storage o' = Some cv
    /\ (ContractValue.Value cv <> None <-> Type_IsValid (Op.store o) = true)
    /\ (ContractValue.Prim_ cv <> None <-> Op.withPrim o = true).
Proof.
  intros o data o'.
  eexists. split; [reflexivity|].
  apply (Storage_value_iff_typed o o' data); reflexivity.
Defined.

(** Three rows of which the second does not parse. *)
Lemma UnmarshalJSON_batch_stops_at_failure_witness :
  let ol := OpList.mk [] false ["id"] tt [] in
  let bl := BlockList.mk [] ["row_id"] in
  let data := "[[1],[-1],[3]]" in
  let err := LibError "strconv.ParseUint: invalid syntax" in
  (snd (OpList.UnmarshalJSON ol data) = Err err
   /\ exists rows,
        OpList.Rows (fst (OpList.UnmarshalJSON ol data)) = ([] ++ rows)%list
        /\ length rows = 1%nat
        /\ OpList.Rows (fst (OpList.range_rows ol ["[1]"])) = ([] ++ rows)%list)
  /\ (exists rows,
        BlockList.UnmarshalJSON bl data
        = (BlockList.set_Rows ([] ++ rows) bl, Err err)
        /\ Forall2 (fun w row => exists r,
                      BlockList.row_record bl w = Ok r /\ row = Some r)
             ["[1]"] rows)
  /\ map (option_map Op.Id) (OpList.Rows (fst (OpList.UnmarshalJSON ol data)))
     = [Some 1].
Proof.
  intros ol bl data err.
  destruct (UnmarshalJSON_batch_stops_at_failure (C := Demo.collaborators)
              (OFo := Demo.object_form _) (OFb := Demo.object_form _))
    as (Ho & Hb).
  split; [|split; [|reflexivity]].
  - apply (Ho ol data ["[1]"] "[-1]" ["[3]"] err);
      try reflexivity; try discriminate.
    simpl. split; [reflexivity|exact I].
  - apply (Hb bl data ["[1]"] "[-1]" ["[3]"] err);
      try reflexivity; try discriminate.
    repeat constructor.
Defined.

(** A row without the column [is_contract]. *)
Lemma prepare_row_without_lookup_witness :
  let l := OpList.mk [] true ["id"] tt ["KT1known"] in
  OpList.prepare_row l "[1]"
  = (["KT1known"],
     Ok (Op.set_columns ["id"] (Op.set_withPrim true Op.zero)))
  /\ fst (OpList.row_record l "[1]") = ["KT1known"].
Proof.
  intros l.
  apply (prepare_row_without_lookup (C := Demo.collaborators)
           (OF := Demo.object_form _) l "[1]").
  left. reflexivity.
Defined.

(** A contract call whose receiver the address parser rejects. *)
Lemma range_rows_invalid_receiver_witness :
  let row := ("[1," ++ Demo.quoted "nobody" ++ "]")%string in
  let l := OpList.mk (C := Demo.strict) [] false
             ["is_contract"; "receiver"] tt [] in
  OpList.range_rows (OF := Demo.object_form _) l [row; row]
  = (l, Err (Errorf "decode: invalid receiver address %s: %v"
               [ArgString "nobody"]
               (Some (LibError "tezos: unknown address prefix")))).
Proof.
  intros row l.
  apply (range_rows_invalid_receiver (C := Demo.strict)
           (OF := Demo.object_form _) l row "nobody"
           (LibError "tezos: unknown address prefix") [row]);
    try reflexivity; discriminate.
Defined.

(** Two rows; the cursor is the identifier of the second. *)
Lemma Cursor_after_batch_witness :
  let ol := OpList.mk [] false ["id"] tt [] in
  let bl := BlockList.mk [] ["row_id"] in
  let data := "[[1],[2]]" in
  (exists op,
     snd (OpList.row_record (fst (OpList.range_rows ol ["[1]"])) "[2]") = Ok op
     /\ OpList.Cursor (fst (OpList.UnmarshalJSON ol data)) = Ok (Op.Id op)
     /\ (starts_with "[" "[2]" = true ->
         OpList.Cursor (fst (OpList.UnmarshalJSON ol data)) = Op.Cursor op))
  /\ (exists r,
        BlockList.row_record bl "[2]" = Ok r
        /\ BlockList.Cursor (fst (BlockList.UnmarshalJSON bl data))
           = Ok (Block.RowId r))
  /\ OpList.Cursor (fst (OpList.UnmarshalJSON ol data)) = Ok 2
  /\ BlockList.Cursor (fst (BlockList.UnmarshalJSON bl data)) = Ok 2.
Proof.
  intros ol bl data.
  destruct (Cursor_after_batch (C := Demo.collaborators)
              (OFo := Demo.object_form _) (OFb := Demo.object_form _))
    as (Ho & Hb).
  split; [|split; [|split; reflexivity]].
  - apply (Ho ol data ["[1]"] "[2]"); try reflexivity; try discriminate.
    simpl. repeat split.
  - apply (Hb bl data ["[1]"] "[2]"); try reflexivity; try discriminate.
    repeat constructor.
Defined.

(** The content of a batch of two items, the second with an internal
    operation, and of single operations. *)
Lemma Cursor_is_last_of_Content_witness :
  let child := Op.set_Id 3 Op.zero in
  let item1 := Op.set_Id 2 Op.zero in
  let item2 := Op.set_Internal [Some child] (Op.set_Id 4 Op.zero) in
  let row := Op.set_IsBatch true
               (Op.set_Batch [Some item1; Some item2] (Op.set_Id 1 Op.zero)) in
  (exists p, last [Some item1; Some item2; Some child] = Some p
             /\ Op.Cursor row = Op.deref p Op.Id)
  /\ (exists p, last [Some item2; Some child] = Some p
                /\ Op.Cursor item2 = Op.deref p Op.Id).
Proof.
  intros child item1 item2 row. split.
  - apply (Cursor_is_last_of_Content (C := Demo.collaborators) row
             [Some item1; Some item2; Some child]).
    + reflexivity.
    + right. split; reflexivity.
  - apply (Cursor_is_last_of_Content (C := Demo.collaborators) item2
             [Some item2; Some child]).
    + reflexivity.
    + left. reflexivity.
Defined.

(** Blocks and identifiers with textual hashes. *)
Lemma IsSameBlock_excludes_IsNextBlock_witness :
  let b := Block.set_Hash "BLa" (Block.set_Height 7 Block.zero) in
  let i := {| BlockId.Height := 7; BlockId.Hash := "BLa";
              BlockId.Time_ := ZeroTime |} in
  BlockId_IsNextBlock i (Some b) = Ok false.
Proof.
  intros b i.
  apply (IsSameBlock_excludes_IsNextBlock (C := Demo.collaborators)
           (H := Demo.hash_ops) i (Some b)).
  reflexivity.
Defined.

Lemma BlockId_round_trip_witness :
  let b := Block.set_Hash "BLa" (Block.set_Height 7 Block.zero) in
  let next := Block.set_ParentHash (Some "BLa")
                (Block.set_Hash "BLb" (Block.set_Height 8 Block.zero)) in
  let op := Op.set_Block "BLa" (Op.set_Height 7 Op.zero) in
  BlockId_IsSameBlock (Block.BlockId b) (Some b) = true
  /\ BlockId_IsNextBlock (Block.BlockId b) (Some b) = Ok false
  /\ BlockId_IsNextBlock (Block.BlockId b) (Some next) = Ok true
  /\ BlockId_IsSameBlock (Op.BlockId op) (Some b) = true.
Proof.
  intros b next op.
  assert (forall h : string, Demo.hash_ops.(BlockHash_Equal) h
                               (Demo.hash_ops.(BlockHash_Clone) h) = true)
    as Clone_Equal by (intros h; apply String.eqb_refl).
  destruct (BlockId_round_trip (C := Demo.collaborators)
              (H := Demo.hash_ops) Clone_Equal b) as (H1 & H2 & H3 & H4).
  split; [exact H1|split; [exact H2|split]].
  - apply (H3 next); reflexivity.
  - apply (H4 op); reflexivity.
Defined.

(** One millisecond count inside the exact range and one outside. *)
Lemma time_column_exact_witness :
  (Op.decode_column Op.zero Op.zero "time" (JNumber "1600000000000")
   = Ok (Op.set_Timestamp (UnixNano 1600000000000000000) Op.zero))
  /\ (Block.decode_column Block.zero "time" (JNumber "9223372036855")
      <> Ok (Block.set_Timestamp (UnixNano 9223372036855000000) Block.zero)).
Proof.
  split.
  - destruct (time_column_exact (C := Demo.collaborators)
                "1600000000000" 1600000000000 eq_refl) as [Hop _].
    destruct (Hop Op.zero Op.zero) as [_ Hexact].
    apply Hexact. lia.
  - destruct (time_column_exact (C := Demo.collaborators)
                "9223372036855" 9223372036855 eq_refl) as [_ Hblock].
    destruct (Hblock Block.zero) as [_ Hexact].
    intros Heq. apply Hexact in Heq. lia.
Defined.

End Examples.
